(** * Lab Pi runtime core: a shallow embedding and its checked properties

    The development follows three programs of the repository:

    - [LabPiApp]      : [lab_pi_app.py], the Flask application with the
                        shared [LabPiState], the [MasterPiCommunicator],
                        the two background loops and the HTTP routes;
    - [SessionPoller] : [lab_pi_session_poller.py], the stand-alone poller;
    - [AudioCapture]  : [audio_capture.py], the bounded audio queue with its
                        capture and send loops.

    Everything the outside world decides (HTTP answers of the Master, the
    outcome of a GPIO write, the clock, what the microphone delivers) is an
    explicit argument of the operation that consumes it.  Every operation is
    a total function from the state before to the state after, together with
    the list of externally visible effects it performed, in program order. *)

From Stdlib Require Import ZArith List String Bool Arith Lia DecimalString.
Import ListNotations.
Local Open Scope string_scope.
Local Open Scope nat_scope.

(* ===================================================================== *)
(** ** Outcomes supplied by the environment                              *)
(* ===================================================================== *)

(** [lgpio.gpio_write] either returns or raises. *)
Inductive GpioOutcome : Type :=
| GpioOk
| GpioRaises.

(** An HTTP exchange made with [requests]: the call raises (timeout,
    connection refused), or a response with a status code comes back.  The
    decoded body is [None] when [response.json()] raises. *)
Inductive HttpResult (Body : Type) : Type :=
| TransportError
| Status (code : Z) (json : option Body).
Arguments TransportError {Body}.
Arguments Status {Body} code json.

(** Python truthiness of a value that is a JSON string or null. *)
Definition truthy (k : option string) : bool :=
  match k with
  | Some s => negb (s =? "")%string
  | None => false
  end.

Definition option_string_eqb (a b : option string) : bool :=
  match a, b with
  | Some x, Some y => (x =? y)%string
  | None, None => true
  | _, _ => false
  end.

(** Timestamps are [datetime] values, counted here in microseconds (the
    resolution of [datetime]); [timedelta.total_seconds()] compared with a
    whole number of seconds is the comparison of the microsecond counts. *)
Definition Time : Type := Z.
Definition seconds (n : Z) : Z := (n * 1000000)%Z.

(* ===================================================================== *)
(** ** lab_pi_app.py                                                      *)
(* ===================================================================== *)

Module LabPiApp.

(** What is fixed when the module is loaded: the node identity taken from
    [LAB_CONFIG], whether [import lgpio] succeeded, and [RELAY_PIN] (which is
    [None] when the import failed). *)
Record Config : Type := {
  lab_pi_id : string;
  lgpio : bool;
  RELAY_PIN : option Z
}.

(** The guard [if lgpio and RELAY_PIN:], with the pin to write. *)
Definition gpio_pin (cfg : Config) : option Z :=
  if lgpio cfg then
    match RELAY_PIN cfg with
    | Some p => if (p =? 0)%Z then None else Some p
    | None => None
    end
  else None.

(** The decoded heartbeat answer.  [HbNotDict]: the JSON value has no
    [.get]; [HbDict ns sess]: [ns] is the truthiness of
    [result.get('new_session')], [sess] is [result['session']] ([None] when
    the key is missing, so that the subscript raises [KeyError]). *)
Inductive SessionData : Type :=
| SessionNotDict
| SessionDict (session_key user_email : option string).

Inductive HbJson : Type :=
| HbNotDict
| HbDict (new_session : bool) (session : option SessionData).

(** The decoded register answer: [RegNotDict] has no [.get]; [RegDict id] is
    a dict whose [.get('id')] is [id]. *)
Inductive RegJson : Type :=
| RegNotDict
| RegDict (id : option Z).

(** class LabPiState (the mutable fields). *)
Record LabPiState : Type := mkState {
  registered : bool;
  lab_pi_db_id : option Z;
  registered_at : option Time;
  session_active : bool;
  current_session_key : option string;
  session_start_time : option Time;
  user_email : option string;
  hardware_ready : bool;
  relay_state : bool;
  last_heartbeat_sent : option Time;
  last_heartbeat_response : option HbJson;
  heartbeat_failures : nat
}.

(** LabPiState.__init__ *)
Definition lab_state_init : LabPiState := {|
  registered := false;
  lab_pi_db_id := None;
  registered_at := None;
  session_active := false;
  current_session_key := None;
  session_start_time := None;
  user_email := None;
  hardware_ready := false;
  relay_state := false;
  last_heartbeat_sent := None;
  last_heartbeat_response := None;
  heartbeat_failures := 0
|}.

Definition set_registered (v : bool) (s : LabPiState) : LabPiState :=
  mkState v (lab_pi_db_id s) (registered_at s) (session_active s)
    (current_session_key s) (session_start_time s) (user_email s)
    (hardware_ready s) (relay_state s) (last_heartbeat_sent s)
    (last_heartbeat_response s) (heartbeat_failures s).

Definition set_lab_pi_db_id (v : option Z) (s : LabPiState) : LabPiState :=
  mkState (registered s) v (registered_at s) (session_active s)
    (current_session_key s) (session_start_time s) (user_email s)
    (hardware_ready s) (relay_state s) (last_heartbeat_sent s)
    (last_heartbeat_response s) (heartbeat_failures s).

Definition set_registered_at (v : option Time) (s : LabPiState) : LabPiState :=
  mkState (registered s) (lab_pi_db_id s) v (session_active s)
    (current_session_key s) (session_start_time s) (user_email s)
    (hardware_ready s) (relay_state s) (last_heartbeat_sent s)
    (last_heartbeat_response s) (heartbeat_failures s).

Definition set_session_active (v : bool) (s : LabPiState) : LabPiState :=
  mkState (registered s) (lab_pi_db_id s) (registered_at s) v
    (current_session_key s) (session_start_time s) (user_email s)
    (hardware_ready s) (relay_state s) (last_heartbeat_sent s)
    (last_heartbeat_response s) (heartbeat_failures s).

Definition set_current_session_key (v : option string) (s : LabPiState) : LabPiState :=
  mkState (registered s) (lab_pi_db_id s) (registered_at s) (session_active s)
    v (session_start_time s) (user_email s)
    (hardware_ready s) (relay_state s) (last_heartbeat_sent s)
    (last_heartbeat_response s) (heartbeat_failures s).

Definition set_session_start_time (v : option Time) (s : LabPiState) : LabPiState :=
  mkState (registered s) (lab_pi_db_id s) (registered_at s) (session_active s)
    (current_session_key s) v (user_email s)
    (hardware_ready s) (relay_state s) (last_heartbeat_sent s)
    (last_heartbeat_response s) (heartbeat_failures s).

Definition set_user_email (v : option string) (s : LabPiState) : LabPiState :=
  mkState (registered s) (lab_pi_db_id s) (registered_at s) (session_active s)
    (current_session_key s) (session_start_time s) v
    (hardware_ready s) (relay_state s) (last_heartbeat_sent s)
    (last_heartbeat_response s) (heartbeat_failures s).

Definition set_relay_state (v : bool) (s : LabPiState) : LabPiState :=
  mkState (registered s) (lab_pi_db_id s) (registered_at s) (session_active s)
    (current_session_key s) (session_start_time s) (user_email s)
    (hardware_ready s) v (last_heartbeat_sent s)
    (last_heartbeat_response s) (heartbeat_failures s).

Definition set_last_heartbeat_sent (v : option Time) (s : LabPiState) : LabPiState :=
  mkState (registered s) (lab_pi_db_id s) (registered_at s) (session_active s)
    (current_session_key s) (session_start_time s) (user_email s)
    (hardware_ready s) (relay_state s) v
    (last_heartbeat_response s) (heartbeat_failures s).

Definition set_last_heartbeat_response (v : option HbJson) (s : LabPiState) : LabPiState :=
  mkState (registered s) (lab_pi_db_id s) (registered_at s) (session_active s)
    (current_session_key s) (session_start_time s) (user_email s)
    (hardware_ready s) (relay_state s) (last_heartbeat_sent s)
    v (heartbeat_failures s).

Definition set_heartbeat_failures (v : nat) (s : LabPiState) : LabPiState :=
  mkState (registered s) (lab_pi_db_id s) (registered_at s) (session_active s)
    (current_session_key s) (session_start_time s) (user_email s)
    (hardware_ready s) (relay_state s) (last_heartbeat_sent s)
    (last_heartbeat_response s) v.

(** What the process does to the outside, in program order.  The first line
    printed by [power_on_hardware] / [power_off_hardware] marks the call of
    the hardware gate; [GpioWrite args] is [lgpio.gpio_write( *args )] with
    the positional arguments as written in the source. *)
Inductive LogLine : Type :=
| PoweringOn | PoweredOn | PowerOnFailed
| PoweringOff | PoweredOff | PowerOffFailed
| SessionTimeout | TooManyFailures | NotRegistered.

Inductive Effect : Type :=
| Print (l : LogLine)
| GpioWrite (args : list Z)
| PostRegister
| PostHeartbeat (active : bool) (key : option string) (relay ready : bool)
| PostSessionEnd (key : option string).

(** State and effect log threaded through every operation. *)
Definition M (A : Type) : Type := LabPiState -> A * LabPiState * list Effect.

Definition ret {A} (a : A) : M A := fun s => (a, s, []).

Definition bind {A B} (c : M A) (k : A -> M B) : M B :=
  fun s =>
    let '(a, s1, l1) := c s in
    let '(b, s2, l2) := k a s1 in
    (b, s2, (l1 ++ l2)%list).

Definition gets {A} (f : LabPiState -> A) : M A := fun s => (f s, s, []).
Definition modify (f : LabPiState -> LabPiState) : M unit := fun s => (tt, f s, []).
Definition emit (e : Effect) : M unit := fun s => (tt, s, [e]).

Declare Scope lab_scope.
Delimit Scope lab_scope with lab.
Notation "x <- c ;; k" := (bind c (fun x => k))
  (at level 61, c at next level, right associativity) : lab_scope.
Notation "c ;; k" := (bind c (fun _ => k))
  (at level 61, right associativity) : lab_scope.
Local Open Scope lab_scope.

Definition result {A} (r : A * LabPiState * list Effect) : A := fst (fst r).
Definition state_of {A} (r : A * LabPiState * list Effect) : LabPiState := snd (fst r).
Definition effects {A} (r : A * LabPiState * list Effect) : list Effect := snd r.

(** *** class MasterPiCommunicator *)

Module MasterPiCommunicator.

(** power_on_hardware *)
Definition power_on_hardware (cfg : Config) (g : GpioOutcome) : M unit :=
  emit (Print PoweringOn) ;;
  match gpio_pin cfg with
  | Some pin =>
      emit (GpioWrite [pin; 1%Z]) ;;
      match g with
      | GpioOk => modify (set_relay_state true) ;; emit (Print PoweredOn)
      | GpioRaises => emit (Print PowerOnFailed)
      end
  | None => ret tt
  end.

(** power_off_hardware *)
Definition power_off_hardware (cfg : Config) (g : GpioOutcome) : M unit :=
  emit (Print PoweringOff) ;;
  match gpio_pin cfg with
  | Some pin =>
      emit (GpioWrite [pin; 0%Z]) ;;
      match g with
      | GpioOk => modify (set_relay_state false) ;; emit (Print PoweredOff)
      | GpioRaises => emit (Print PowerOffFailed)
      end
  | None => ret tt
  end.

(** register: only a 200 answer whose body decodes to a dict changes the
    state; every other outcome returns [False]. *)
Definition register (now : Time) (r : HttpResult RegJson) : M bool :=
  emit PostRegister ;;
  match r with
  | TransportError => ret false
  | Status code json =>
      if (code =? 200)%Z then
        match json with
        | Some (RegDict id) =>
            modify (set_lab_pi_db_id id) ;;
            modify (set_registered true) ;;
            modify (set_registered_at (Some now)) ;;
            ret true
        | Some RegNotDict | None => ret false
        end
      else ret false
  end.

(** handle_new_session; [false] when [session_data.get] raises, which
    happens after [session_active] has been assigned. *)
Definition handle_new_session (cfg : Config) (now : Time)
    (session_data : SessionData) (g : GpioOutcome) : M bool :=
  modify (set_session_active true) ;;
  match session_data with
  | SessionNotDict => ret false
  | SessionDict key email =>
      modify (set_current_session_key key) ;;
      modify (set_session_start_time (Some now)) ;;
      modify (set_user_email email) ;;
      power_on_hardware cfg g ;;
      ret true
  end.

(** The [except Exception] arm of [heartbeat]. *)
Definition heartbeat_except : M bool :=
  n <- gets heartbeat_failures ;;
  modify (set_heartbeat_failures (S n)) ;;
  ret false.

(** heartbeat *)
Definition heartbeat (cfg : Config) (now : Time) (r : HttpResult HbJson)
    (g : GpioOutcome) : M bool :=
  a <- gets session_active ;;
  k <- gets current_session_key ;;
  rs <- gets relay_state ;;
  hr <- gets hardware_ready ;;
  emit (PostHeartbeat a k rs hr) ;;
  match r with
  | TransportError => heartbeat_except
  | Status code json =>
      if (code =? 200)%Z then
        modify (set_last_heartbeat_sent (Some now)) ;;
        match json with
        | None => heartbeat_except
        | Some res =>
            modify (set_last_heartbeat_response (Some res)) ;;
            modify (set_heartbeat_failures 0) ;;
            match res with
            | HbNotDict => heartbeat_except
            | HbDict false _ => ret true
            | HbDict true None => heartbeat_except
            | HbDict true (Some sd) =>
                ok <- handle_new_session cfg now sd g ;;
                if ok then ret true else heartbeat_except
            end
        end
      else
        n <- gets heartbeat_failures ;;
        modify (set_heartbeat_failures (S n)) ;;
        ret false
  end.

(** end_session (the notification of the Master): the answer and any
    exception are consumed inside, and the caller drops the returned flag. *)
Definition end_session (session_key : option string) : M unit :=
  emit (PostSessionEnd session_key).

End MasterPiCommunicator.

Import MasterPiCommunicator.

(** *** Background threads: one iteration of each [while True] body *)

(** heartbeat_thread *)
Definition heartbeat_thread (cfg : Config) (now : Time) (hb : HttpResult HbJson)
    (g : GpioOutcome) (reg : HttpResult RegJson) : M unit :=
  r <- gets registered ;;
  if r then
    success <- heartbeat cfg now hb g ;;
    if negb success then
      n <- gets heartbeat_failures ;;
      if 5 <=? n then
        emit (Print TooManyFailures) ;;
        modify (set_registered false) ;;
        _ <- register now reg ;;
        ret tt
      else ret tt
    else ret tt
  else
    emit (Print NotRegistered) ;;
    _ <- register now reg ;;
    ret tt.

(** end_session (module level helper) *)
Definition end_session (cfg : Config) (g : GpioOutcome) : M unit :=
  k <- gets current_session_key ;;
  if truthy k then
    MasterPiCommunicator.end_session k ;;
    power_off_hardware cfg g ;;
    modify (set_session_active false) ;;
    modify (set_current_session_key None) ;;
    modify (set_session_start_time None) ;;
    modify (set_user_email None)
  else ret tt.

Definition max_duration : Z := 60 * 60.

(** session_monitor_thread *)
Definition session_monitor_thread (cfg : Config) (now : Time) (g : GpioOutcome) : M unit :=
  a <- gets session_active ;;
  st <- gets session_start_time ;;
  match a, st with
  | true, Some t0 =>
      if (now - t0 >? seconds max_duration)%Z then
        emit (Print SessionTimeout) ;;
        end_session cfg g
      else ret tt
  | _, _ => ret tt
  end.

(** *** Flask routes *)

(** What a route answers.  [FrameworkError] stands for an exception that
    leaves the view function ([request.get_json()] rejecting the body, or
    [.get] on a body that is not an object): Flask then produces the error
    answer itself and the rest of the view is not run. *)
Inductive RespBody : Type :=
| BError (msg : string)
| BSuccess
| BRelay (state simulated : bool)
| BDriverError
| BStarted (session_key : option string) (id : string)
| BEnded (id : string).

Inductive Response : Type :=
| Json (status : Z) (body : RespBody)
| FrameworkError.

(** /api/relay/on *)
Definition relay_on (cfg : Config) (g : GpioOutcome) : M Response :=
  a <- gets session_active ;;
  if negb a then ret (Json 403 (BError "No active session"))
  else
    match gpio_pin cfg with
    | Some pin =>
        emit (GpioWrite [pin; 1%Z]) ;;
        match g with
        | GpioOk => modify (set_relay_state true) ;; ret (Json 200 (BRelay true false))
        | GpioRaises => ret (Json 500 BDriverError)
        end
    | None => ret (Json 200 (BRelay true true))
    end.

(** /api/relay/off *)
Definition relay_off (cfg : Config) (g : GpioOutcome) : M Response :=
  a <- gets session_active ;;
  if negb a then ret (Json 403 (BError "No active session"))
  else
    match gpio_pin cfg with
    | Some pin =>
        emit (GpioWrite [pin; 0%Z]) ;;
        match g with
        | GpioOk => modify (set_relay_state false) ;; ret (Json 200 (BRelay false false))
        | GpioRaises => ret (Json 500 BDriverError)
        end
    | None => ret (Json 200 (BRelay false true))
    end.

(** /api/session/end *)
Definition api_end_session (cfg : Config) (g : GpioOutcome) : M Response :=
  a <- gets session_active ;;
  if negb a then ret (Json 400 (BError "No active session"))
  else
    end_session cfg g ;;
    ret (Json 200 BSuccess).

(** The JSON object posted to /api/lab-pi/session-start. *)
Record StartBody : Type := {
  sb_session_key : option string;
  sb_booking_id : option Z;
  sb_user_email : option string
}.

(** A session-start request: the [X-Lab-Pi-Id] header ([None] when it is
    absent) and the body ([None] when it does not decode to an object). *)
Record StartRequest : Type := {
  x_lab_pi_id : option string;
  start_body : option StartBody
}.

(** /api/lab-pi/session-start *)
Definition lab_pi_session_start (cfg : Config) (now : Time) (req : StartRequest)
    (g : GpioOutcome) : M Response :=
  if negb (option_string_eqb (x_lab_pi_id req) (Some (lab_pi_id cfg))) then
    ret (Json 401 (BError "Invalid Lab Pi ID"))
  else
    match start_body req with
    | None => ret FrameworkError
    | Some data =>
        modify (set_session_active true) ;;
        modify (set_current_session_key (sb_session_key data)) ;;
        modify (set_session_start_time (Some now)) ;;
        modify (set_user_email (sb_user_email data)) ;;
        power_on_hardware cfg g ;;
        ret (Json 200 (BStarted (sb_session_key data) (lab_pi_id cfg)))
    end.

(** /api/lab-pi/session-end; the body is [None] when it does not decode to
    an object, otherwise [Some k] with [k] its [session_key] entry. *)
Definition lab_pi_session_end (cfg : Config) (body : option (option string))
    (g : GpioOutcome) : M Response :=
  match body with
  | None => ret FrameworkError
  | Some _ =>
      modify (set_session_active false) ;;
      modify (set_current_session_key None) ;;
      modify (set_session_start_time None) ;;
      modify (set_user_email None) ;;
      power_off_hardware cfg g ;;
      ret (Json 200 (BEnded (lab_pi_id cfg)))
  end.

(** *** The node as a transition system

    One event is one complete run of a handler or of a loop body, with the
    answers of the environment it consumes.  Handlers are taken as atomic:
    the interleaving of statements of two threads is outside this model. *)
Inductive Event : Type :=
| MainRegister (now : Time) (reg : HttpResult RegJson)
| HeartbeatIter (now : Time) (hb : HttpResult HbJson) (g : GpioOutcome)
    (reg : HttpResult RegJson)
| MonitorTick (now : Time) (g : GpioOutcome)
| ApiEndSession (g : GpioOutcome)
| SessionStart (now : Time) (req : StartRequest) (g : GpioOutcome)
| SessionEnd (body : option (option string)) (g : GpioOutcome)
| RelayOn (g : GpioOutcome)
| RelayOff (g : GpioOutcome).

Definition drop {A} (c : M A) : M unit := _ <- c ;; ret tt.

Definition step (cfg : Config) (e : Event) : M unit :=
  match e with
  | MainRegister now reg => drop (register now reg)
  | HeartbeatIter now hb g reg => heartbeat_thread cfg now hb g reg
  | MonitorTick now g => session_monitor_thread cfg now g
  | ApiEndSession g => drop (api_end_session cfg g)
  | SessionStart now req g => drop (lab_pi_session_start cfg now req g)
  | SessionEnd body g => drop (lab_pi_session_end cfg body g)
  | RelayOn g => drop (relay_on cfg g)
  | RelayOff g => drop (relay_off cfg g)
  end.

Fixpoint run (cfg : Config) (es : list Event) : M unit :=
  match es with
  | [] => ret tt
  | e :: es' => step cfg e ;; run cfg es'
  end.

(** The states the node can be in. *)
Definition reachable (cfg : Config) (s : LabPiState) : Prop :=
  exists es, state_of (run cfg es lab_state_init) = s.

(** Number of calls of the hardware gate's deenergize operation in a log. *)
Definition is_power_off_call (e : Effect) : bool :=
  match e with
  | Print PoweringOff => true
  | _ => false
  end.

Definition power_off_calls (l : list Effect) : nat :=
  List.length (List.filter is_power_off_call l).

Definition is_post_session_end (e : Effect) : bool :=
  match e with
  | PostSessionEnd _ => true
  | _ => false
  end.


(** Invariant I1 of the specification. *)
Definition I1 (s : LabPiState) : Prop :=
  relay_state s = true -> session_active s = true.

(** The GPIO outcome consumed by an event that ends a session. *)
Definition ending_write_ok (e : Event) : bool :=
  match e with
  | MonitorTick _ GpioRaises => false
  | ApiEndSession GpioRaises => false
  | SessionEnd _ GpioRaises => false
  | _ => true
  end.

(** The events by which the node itself ends a session: the timeout monitor
    and the local end endpoint, both through [end_session]. *)
Definition is_local_end (e : Event) : bool :=
  match e with
  | MonitorTick _ _ => true
  | ApiEndSession _ => true
  | _ => false
  end.

(** A heartbeat exchange that the code counts as failed at once: the call
    raised, or the status is not 200. *)
Definition hb_failed (hb : HttpResult HbJson) : bool :=
  match hb with
  | TransportError => true
  | Status code _ => negb (code =? 200)%Z
  end.

(** A heartbeat answer with status 200 and a body that decodes: the answers
    after which [heartbeat] assigns 0 to the failure count.  Whether
    [heartbeat] then returns [True] depends on what the body holds. *)
Definition hb_status_200 (hb : HttpResult HbJson) : bool :=
  match hb with
  | Status code (Some _) => (code =? 200)%Z
  | _ => false
  end.

(** The event is a heartbeat iteration of a registered node that received
    such an answer. *)
Definition heartbeat_got_200 (s : LabPiState) (e : Event) : bool :=
  match e with
  | HeartbeatIter _ hb _ _ => registered s && hb_status_200 hb
  | _ => false
  end.

(** A register answer that [register] accepts. *)
Definition reg_accepted (r : HttpResult RegJson) : bool :=
  match r with
  | Status code (Some (RegDict _)) => (code =? 200)%Z
  | _ => false
  end.

(** What [power_on_hardware] / [power_off_hardware] leave in [relay_state]
    when asked for [target]. *)
Definition relay_after (cfg : Config) (g : GpioOutcome) (target : bool)
    (s : LabPiState) : bool :=
  match gpio_pin cfg, g with
  | Some _, GpioOk => target
  | _, _ => relay_state s
  end.

(** The state with the four session fields cleared. *)
Definition clear_session (s : LabPiState) : LabPiState :=
  set_user_email None (set_session_start_time None
    (set_current_session_key None (set_session_active false s))).

(** The invariant that is preserved step by step: I1, and a relay flag that
    is never raised when the GPIO guard is off. *)
Definition Inv (cfg : Config) (s : LabPiState) : Prop :=
  I1 s /\ (gpio_pin cfg = None -> relay_state s = false).

(** A registered node, otherwise as at start-up, with a given failure count. *)
Definition registered_with_failures (n : nat) : LabPiState :=
  set_heartbeat_failures n (set_registered true lab_state_init).

Definition example_cfg : Config :=
  {| lab_pi_id := "lab-001"; lgpio := true; RELAY_PIN := Some 26%Z |}.

Definition start_request (id : string) (key : option string) : StartRequest :=
  {| x_lab_pi_id := Some id;
     start_body := Some {| sb_session_key := key; sb_booking_id := None;
                           sb_user_email := None |} |}.


(** *** Further operations of the application *)

(** Python's [format(z, '02d')]: the decimal digits of [z], with a leading
    zero when [z] is a single non-negative digit. *)
Definition fmt02d (z : Z) : string :=
  let digits := NilZero.string_of_int (Z.to_int z) in
  if (String.length digits <? 2) then "0" ++ digits else digits.

(** The integer nearest to [n / d], ties to the even one ([0 < d]). *)
Definition round_half_even (n d : Z) : Z :=
  let q := (n / d)%Z in
  let r := (n mod d)%Z in
  if (2 * r <? d)%Z then q
  else if (d <? 2 * r)%Z then (q + 1)%Z
  else if Z.even q then q else (q + 1)%Z.

(** The binary exponent of [n / d]: the [k] with [2^k <= n / d < 2^(k+1)],
    for positive [n] and [d]. *)
Definition quotient_log2 (n d : Z) : Z :=
  let k := (Z.log2 n - Z.log2 d)%Z in
  if (if (0 <=? k)%Z then (d * 2 ^ k <=? n)%Z else (d <=? n * 2 ^ (- k))%Z)
  then k else (k - 1)%Z.

(** [int(n / d)] for Python integers [n >= 0] and [d > 0].  The true
    division gives the float nearest to the quotient: a 53-bit significand
    [m], rounded half to even, times [2^e]; [int] then drops the fraction.
    (The quotients met here are far from the overflow and subnormal
    ranges.) *)
Definition int_true_div (n d : Z) : Z :=
  if (n =? 0)%Z then 0%Z
  else
    let e := (quotient_log2 n d - 52)%Z in
    if (0 <=? e)%Z then (round_half_even n (d * 2 ^ e) * 2 ^ e)%Z
    else (round_half_even (n * 2 ^ (- e)) d / 2 ^ (- e))%Z.

(** [int(delta.total_seconds())] for a [timedelta] of [us] microseconds:
    [total_seconds] is the true division of the microsecond count by
    [10**6], and [int] truncates towards zero. *)
Definition int_total_seconds (us : Z) : Z :=
  if (us <? 0)%Z then (- int_true_div (- us) 1000000)%Z
  else int_true_div us 1000000.

(** The three numbers [get_uptime] prints; [//] and [%] round towards minus
    infinity. *)
Definition uptime_parts (start_time now : Time) : Z * Z * Z :=
  let total_seconds := int_total_seconds (now - start_time) in
  let hours := (total_seconds / 3600)%Z in
  let minutes := ((total_seconds mod 3600) / 60)%Z in
  let secs := (total_seconds mod 60)%Z in
  (hours, minutes, secs).

(** LabPiState.get_uptime, with [start_time] the instant the state object
    was created. *)
Definition get_uptime (start_time now : Time) : string :=
  let '(hours, minutes, secs) := uptime_parts start_time now in
  fmt02d hours ++ ":" ++ fmt02d minutes ++ ":" ++ fmt02d secs.

(** /api/relay/status: the [state] entry of the answer. *)
Definition relay_status : M bool := gets relay_state.

(** A session-start request that passes the node-id check. *)
Definition authorized_start (cfg : Config) (key email : option string) : StartRequest :=
  {| x_lab_pi_id := Some (lab_pi_id cfg);
     start_body := Some {| sb_session_key := key; sb_booking_id := None;
                           sb_user_email := email |} |}.

(** The argument lists of the GPIO writes in a log. *)
Fixpoint gpio_writes (l : list Effect) : list (list Z) :=
  match l with
  | [] => []
  | GpioWrite args :: l' => args :: gpio_writes l'
  | _ :: l' => gpio_writes l'
  end.

Definition is_post_heartbeat (e : Effect) : bool :=
  match e with
  | PostHeartbeat _ _ _ _ => true
  | _ => false
  end.

(** The argument lists the application may pass to [gpio_write]. *)
Definition relay_write (cfg : Config) (args : list Z) : Prop :=
  exists pin, gpio_pin cfg = Some pin /\ (args = [pin; 0%Z] \/ args = [pin; 1%Z]).

(** A configuration whose relay pin is 0, so that the guard is off. *)
Definition no_gpio_cfg : Config :=
  {| lab_pi_id := "lab-001"; lgpio := true; RELAY_PIN := Some 0%Z |}.

(** No session is recorded: the four session fields have their cleared
    values. *)
Definition session_cleared (s : LabPiState) : Prop :=
  session_active s = false /\ current_session_key s = None /\
  session_start_time s = None /\ user_email s = None.

End LabPiApp.

(* ===================================================================== *)
(** ** lab_pi_session_poller.py                                           *)
(* ===================================================================== *)

Module SessionPoller.

(** Module-level facts after start-up: whether [import lgpio] succeeded and
    the value of the global [gpio_handle] left by [init_gpio]. *)
Record Env : Type := {
  lgpio_imported : bool;
  gpio_handle : option Z
}.

Definition RELAY_PIN : Z := 26.

(** The guard [if gpio_handle:] with the handle to use. *)
Definition usable_handle (env : Env) : option Z :=
  match gpio_handle env with
  | Some h => if (h =? 0)%Z then None else Some h
  | None => None
  end.

(** class SessionPoller *)
Record Poller : Type := mkPoller {
  current_session_key : option string;
  session_end_time : option Time;
  hardware_running : bool;
  running : bool
}.

(** SessionPoller.__init__ *)
Definition poller_init : Poller :=
  {| current_session_key := None; session_end_time := None;
     hardware_running := false; running := true |}.

Definition set_current_session_key (v : option string) (p : Poller) : Poller :=
  mkPoller v (session_end_time p) (hardware_running p) (running p).
Definition set_session_end_time (v : option Time) (p : Poller) : Poller :=
  mkPoller (current_session_key p) v (hardware_running p) (running p).
Definition set_hardware_running (v : bool) (p : Poller) : Poller :=
  mkPoller (current_session_key p) (session_end_time p) v (running p).

Inductive LogLine : Type :=
| RelayOnLine | RelayOffLine | RelayOnSimulated | RelayOffSimulated
| NewSession (key : option string) | SessionTimeEnded | NoActiveSession
| NotRegisteredOnAdmin | PollError.

Inductive Effect : Type :=
| Print (l : LogLine)
| GpioWrite (args : list Z)
| Sleep (secs : Z).

(** State, effect log and exceptions: the result is [None] when an
    exception is propagating; the state and the log built so far are kept. *)
Definition P (A : Type) : Type := Poller -> option A * Poller * list Effect.

Definition ret {A} (a : A) : P A := fun p => (Some a, p, []).
Definition raise {A} : P A := fun p => (None, p, []).
Definition bind {A B} (c : P A) (k : A -> P B) : P B :=
  fun p =>
    let '(r, p1, l1) := c p in
    match r with
    | None => (None, p1, l1)
    | Some a => let '(b, p2, l2) := k a p1 in (b, p2, (l1 ++ l2)%list)
    end.
Definition gets {A} (f : Poller -> A) : P A := fun p => (Some (f p), p, []).
Definition modify (f : Poller -> Poller) : P unit := fun p => (Some tt, f p, []).
Definition emit (e : Effect) : P unit := fun p => (Some tt, p, [e]).

(** [try: c except Exception: print(...)] *)
Definition try_except (c : P unit) (handler : P unit) : P unit :=
  fun p =>
    let '(r, p1, l1) := c p in
    match r with
    | Some _ => (Some tt, p1, l1)
    | None => let '(b, p2, l2) := handler p1 in (b, p2, (l1 ++ l2)%list)
    end.

Declare Scope poller_scope.
Delimit Scope poller_scope with poller.
Notation "x <- c ;; k" := (bind c (fun x => k))
  (at level 61, c at next level, right associativity) : poller_scope.
Notation "c ;; k" := (bind c (fun _ => k))
  (at level 61, right associativity) : poller_scope.
Local Open Scope poller_scope.

Definition state_of {A} (r : option A * Poller * list Effect) : Poller := snd (fst r).
Definition effects {A} (r : option A * Poller * list Effect) : list Effect := snd r.

(** relay_on *)
Definition relay_on (env : Env) (g : GpioOutcome) : P unit :=
  if lgpio_imported env then
    match usable_handle env with
    | Some h =>
        emit (GpioWrite [h; RELAY_PIN; 0%Z]) ;;
        match g with
        | GpioOk => emit (Print RelayOnLine)
        | GpioRaises => raise
        end
    | None => ret tt
    end
  else emit (Print RelayOnSimulated).

(** relay_off *)
Definition relay_off (env : Env) (g : GpioOutcome) : P unit :=
  if lgpio_imported env then
    match usable_handle env with
    | Some h =>
        emit (GpioWrite [h; RELAY_PIN; 1%Z]) ;;
        match g with
        | GpioOk => emit (Print RelayOffLine)
        | GpioRaises => raise
        end
    | None => ret tt
    end
  else emit (Print RelayOffSimulated).

(** SessionPoller.start_hardware *)
Definition start_hardware (env : Env) (g : GpioOutcome) : P unit :=
  hr <- gets hardware_running ;;
  if negb hr then
    relay_on env g ;;
    modify (set_hardware_running true)
  else ret tt.

(** SessionPoller.stop_hardware *)
Definition stop_hardware (env : Env) (g : GpioOutcome) : P unit :=
  hr <- gets hardware_running ;;
  (if hr then
     relay_off env g ;;
     modify (set_hardware_running false)
   else ret tt) ;;
  modify (set_current_session_key None) ;;
  modify (set_session_end_time None).

(** The [end_time] entry of the poll answer: falsy (missing, null or empty),
    a string [datetime.fromisoformat] rejects, or a parsed instant. *)
Inductive EndTimeField : Type :=
| EndAbsent
| EndInvalid
| EndAt (t : Time).

Inductive PollJson : Type :=
| PollNotDict
| PollDict (status : option string) (session_key : option string)
    (end_time : EndTimeField).

(** SessionPoller.poll.  [g_on] and [g_off] are the outcomes of the GPIO
    write made by [relay_on] and by [relay_off], when reached. *)
Definition poll (env : Env) (now : Time) (r : HttpResult PollJson)
    (g_on g_off : GpioOutcome) : P unit :=
  try_except
    match r with
    | TransportError => raise
    | Status code json =>
        if (code =? 200)%Z then
          match json with
          | None | Some PollNotDict => raise
          | Some (PollDict status session_key end_time) =>
              if option_string_eqb status (Some "running") then
                match end_time with
                | EndAt t => modify (set_session_end_time (Some t))
                | EndInvalid => raise
                | EndAbsent => modify (set_session_end_time None)
                end ;;
                cur <- gets current_session_key ;;
                (if negb (option_string_eqb session_key cur) then
                   emit (Print (NewSession session_key)) ;;
                   modify (set_current_session_key session_key) ;;
                   start_hardware env g_on
                 else ret tt) ;;
                et <- gets session_end_time ;;
                match et with
                | Some t =>
                    if (t <=? now)%Z then
                      emit (Print SessionTimeEnded) ;;
                      stop_hardware env g_off
                    else ret tt
                | None => ret tt
                end
              else if option_string_eqb status (Some "stopped") then
                cur <- gets current_session_key ;;
                hr <- gets hardware_running ;;
                if truthy cur || hr then
                  emit (Print NoActiveSession) ;;
                  stop_hardware env g_off
                else ret tt
              else ret tt
          end
        else if (code =? 404)%Z then
          emit (Print NotRegisteredOnAdmin) ;;
          emit (Sleep 10)
        else ret tt
    end
    (emit (Print PollError)).

Definition example_env : Env :=
  {| lgpio_imported := true; gpio_handle := Some 1%Z |}.


(** What one poll consumes: the clock, the answer of the Admin Pi, and the
    outcomes of the GPIO writes of [relay_on] and [relay_off]. *)
Record PollInput : Type := {
  pi_now : Time;
  pi_answer : HttpResult PollJson;
  pi_on : GpioOutcome;
  pi_off : GpioOutcome
}.

(** Consecutive polls of the [while self.running] loop. *)
Fixpoint polls (env : Env) (ins : list PollInput) (p : Poller) : Poller * list Effect :=
  match ins with
  | [] => (p, [])
  | i :: ins' =>
      let r := poll env (pi_now i) (pi_answer i) (pi_on i) (pi_off i) p in
      let '(p2, l2) := polls env ins' (state_of r) in
      (p2, (effects r ++ l2)%list)
  end.

(** The argument lists of the GPIO writes in a log. *)
Fixpoint gpio_writes (l : list Effect) : list (list Z) :=
  match l with
  | [] => []
  | GpioWrite args :: l' => args :: gpio_writes l'
  | _ :: l' => gpio_writes l'
  end.

(** The switchings the relay confirmed, in order: [true] for the line printed
    after a write by [relay_on] returned, [false] for the one of
    [relay_off]. *)
Fixpoint switchings (l : list Effect) : list bool :=
  match l with
  | [] => []
  | Print RelayOnLine :: l' => true :: switchings l'
  | Print RelayOffLine :: l' => false :: switchings l'
  | _ :: l' => switchings l'
  end.

(** [alternates b l]: [l] starts with [b] and changes value at each step. *)
Fixpoint alternates (b : bool) (l : list bool) : bool :=
  match l with
  | [] => true
  | x :: l' => Bool.eqb x b && alternates (negb b) l'
  end.

(** A "running" answer for [key] with the given end time, and a "stopped"
    answer. *)
Definition running_answer (key : option string) (et : EndTimeField) : HttpResult PollJson :=
  Status 200 (Some (PollDict (Some "running") key et)).

Definition stopped_answer : HttpResult PollJson :=
  Status 200 (Some (PollDict (Some "stopped") None EndAbsent)).

(** The poller with nothing remembered and the hardware off, keeping
    [running]. *)
Definition idle (p : Poller) : Poller :=
  set_session_end_time None (set_current_session_key None
    (set_hardware_running false p)).


(** An answer that carries no decision: the call raised, the status is not
    200, the body does not decode to an object, or its status entry is
    neither "running" nor "stopped". *)
Definition no_decision (r : HttpResult PollJson) : bool :=
  match r with
  | TransportError => true
  | Status code json =>
      negb (code =? 200)%Z ||
      match json with
      | Some (PollDict status _ _) =>
          negb (option_string_eqb status (Some "running")) &&
          negb (option_string_eqb status (Some "stopped"))
      | _ => true
      end
  end.

(** The argument lists the poller may pass to [gpio_write]. *)
Definition relay_write (env : Env) (args : list Z) : Prop :=
  exists h, lgpio_imported env = true /\ usable_handle env = Some h /\
            (args = [h; RELAY_PIN; 0%Z] \/ args = [h; RELAY_PIN; 1%Z]).

(** The poll input for an answer, with GPIO writes that return. *)
Definition input_ok (now : Time) (r : HttpResult PollJson) : PollInput :=
  {| pi_now := now; pi_answer := r; pi_on := GpioOk; pi_off := GpioOk |}.

(** A poller that remembers session [k] with the hardware on. *)
Definition running_poller (k : string) : Poller :=
  {| current_session_key := Some k; session_end_time := None;
     hardware_running := true; running := true |}.

(** An environment where the import worked but the handle is 0. *)
Definition handle_zero_env : Env :=
  {| lgpio_imported := true; gpio_handle := Some 0%Z |}.

End SessionPoller.

(* ===================================================================== *)
(** ** audio_capture.py                                                   *)
(* ===================================================================== *)

Module AudioCapture.

Section Pipeline.

(** A block of samples as [stream.read] returns it, its transport text, and
    the encoder [base64.b64encode(data).decode('utf-8')]. *)
Variable Raw : Type.
Variable Text : Type.
Variable b64 : Raw -> Text.

(** [queue.Queue(maxsize=10)] *)
Definition maxsize : nat := 10.

(** The queue, oldest frame first. *)
Definition Queue : Type := list Text.

(** [audio_queue.put(item, timeout=0.5)] while the consumer takes nothing
    during the wait: the item is appended when there is room; otherwise the
    wait ends after the timeout and [queue.Full] is raised ([None]). *)
Definition put (q : Queue) (item : Text) : option Queue :=
  if List.length q <? maxsize then Some (q ++ [item])%list else None.

(** [audio_queue.get()] on a queue known to be non-empty. *)
Definition get (q : Queue) : option (Text * Queue) :=
  match q with
  | [] => None
  | x :: q' => Some (x, q')
  end.

(** What one pass of the capture loop meets. *)
Inductive CaptureInput : Type :=
| StreamInactive
| ReadRaises
| Read (data : Raw).

(** How [requests.post] ends in the send loop. *)
Inductive PostOutcome : Type :=
| PostReturns
| PostRequestException
| PostOtherException.

Inductive Effect : Type :=
| PostAudio (audio : Text)
| PrintCaptureError
| PrintSendError
| SleepMs (ms : Z).

(** One pass of the body of [while self.streaming] in [_capture_loop]. *)
Definition capture_iter (i : CaptureInput) (q : Queue) : Queue * list Effect :=
  match i with
  | Read data =>
      let audio_b64 := b64 data in
      match put q audio_b64 with
      | Some q' => (q', [])
      | None => (q, [])
      end
  | StreamInactive => (q, [SleepMs 10])
  | ReadRaises => (q, [PrintCaptureError; SleepMs 100])
  end.

(** One pass of the body of [while self.streaming] in [_send_loop]. *)
Definition send_iter (o : PostOutcome) (q : Queue) : Queue * list Effect :=
  match get q with
  | Some (audio_b64, q') =>
      match o with
      | PostReturns => (q', [PostAudio audio_b64])
      | PostRequestException => (q', [PostAudio audio_b64])
      | PostOtherException => (q', [PostAudio audio_b64; PrintSendError; SleepMs 100])
      end
  | None => (q, [SleepMs 10])
  end.

(** Consecutive passes of one loop. *)
Fixpoint capture_loop (ins : list CaptureInput) (q : Queue) : Queue * list Effect :=
  match ins with
  | [] => (q, [])
  | i :: ins' =>
      let '(q1, l1) := capture_iter i q in
      let '(q2, l2) := capture_loop ins' q1 in
      (q2, (l1 ++ l2)%list)
  end.

Fixpoint send_loop (os : list PostOutcome) (q : Queue) : Queue * list Effect :=
  match os with
  | [] => (q, [])
  | o :: os' =>
      let '(q1, l1) := send_iter o q in
      let '(q2, l2) := send_loop os' q1 in
      (q2, (l1 ++ l2)%list)
  end.

(** The frames for which a POST was issued, in order. *)
Fixpoint posted (l : list Effect) : list Text :=
  match l with
  | [] => []
  | PostAudio a :: l' => a :: posted l'
  | _ :: l' => posted l'
  end.

(** Passes of the two loops in any order. *)
Inductive Pass : Type :=
| CapturePass (i : CaptureInput)
| SendPass (o : PostOutcome).

Definition pass (p : Pass) (q : Queue) : Queue * list Effect :=
  match p with
  | CapturePass i => capture_iter i q
  | SendPass o => send_iter o q
  end.

Fixpoint pipeline (ps : list Pass) (q : Queue) : Queue * list Effect :=
  match ps with
  | [] => (q, [])
  | p :: ps' =>
      let '(q1, l1) := pass p q in
      let '(q2, l2) := pipeline ps' q1 in
      (q2, (l1 ++ l2)%list)
  end.

(** The encoded frames the capture passes read, in order. *)
Fixpoint captured (ps : list Pass) : list Text :=
  match ps with
  | [] => []
  | CapturePass (Read data) :: ps' => b64 data :: captured ps'
  | _ :: ps' => captured ps'
  end.

(** [Subseq l m]: [l] is [m] with some positions left out. *)
Inductive Subseq : list Text -> list Text -> Prop :=
| Subseq_nil : Subseq [] []
| Subseq_skip x l m : Subseq l m -> Subseq l (x :: m)
| Subseq_take x l m : Subseq l m -> Subseq (x :: l) (x :: m).

End Pipeline.

Arguments StreamInactive {Raw}.
Arguments ReadRaises {Raw}.
Arguments Read {Raw} data.
Arguments PostAudio {Text} audio.
Arguments PrintCaptureError {Text}.
Arguments PrintSendError {Text}.
Arguments SleepMs {Text} ms.
Arguments CapturePass {Raw} i.
Arguments SendPass {Raw} o.


(** *** The life cycle of an [AudioCapture] object *)

(** [audio.get_device_info_by_index(i)] raises or the lookup of
    ['maxInputChannels'] fails ([InfoRaises]), or it gives a channel count. *)
Inductive DeviceInfo : Type :=
| InfoRaises
| Info (maxInputChannels : Z).

(** [audio.get_device_count()] raises, or the devices are these. *)
Inductive Devices : Type :=
| CountRaises
| DeviceList (infos : list DeviceInfo).

Inductive CallOutcome : Type :=
| Returns
| Raises.

(** What the audio driver does when [initialize] runs. *)
Record Driver : Type := {
  pyaudio_new : CallOutcome;
  devices : Devices;
  audio_open : CallOutcome
}.

(** What the driver does when [stop] runs. *)
Record Teardown : Type := {
  stop_stream : CallOutcome;
  close_stream : CallOutcome;
  terminate : CallOutcome
}.

(** The fields [start] and [stop] work on; [stream] and [audio] record
    whether the attribute holds an object. *)
Record Capture : Type := mkCapture {
  streaming : bool;
  stream : bool;
  audio : bool
}.

(** AudioCapture.__init__ *)
Definition capture_init : Capture :=
  {| streaming := false; stream := false; audio := false |}.

Inductive Msg : Type :=
| NotAvailable
| NoInputDevice
| InitFailed
| Initialized (device_index : nat)
| Started
| Stopped.

Inductive Life : Type :=
| NewPyAudio
| OpenStream (device_index : nat)
| SpawnCaptureLoop
| SpawnSendLoop
| StopStream
| CloseStream
| Terminate
| Print (m : Msg).

(** The scan of [_get_default_input_device] from index [i] on. *)
Fixpoint first_input (infos : list DeviceInfo) (i : nat) : option nat :=
  match infos with
  | [] => None
  | InfoRaises :: _ => None
  | Info n :: rest => if (n >? 0)%Z then Some i else first_input rest (S i)
  end.

(** AudioCapture._get_default_input_device *)
Definition _get_default_input_device (PYAUDIO_AVAILABLE : bool) (d : Devices)
    (c : Capture) : option nat :=
  if negb PYAUDIO_AVAILABLE || negb (audio c) then None
  else
    match d with
    | CountRaises => None
    | DeviceList infos => first_input infos 0
    end.

(** AudioCapture.initialize *)
Definition initialize (PYAUDIO_AVAILABLE : bool) (d : Driver) (c : Capture)
    : bool * Capture * list Life :=
  if negb PYAUDIO_AVAILABLE then
    (false, c, [Print NotAvailable])
  else
    match pyaudio_new d with
    | Raises => (false, c, [NewPyAudio; Print InitFailed])
    | Returns =>
        let c1 := mkCapture (streaming c) (stream c) true in
        match _get_default_input_device PYAUDIO_AVAILABLE (devices d) c1 with
        | None =>
            (false, c1,
             [NewPyAudio; Print NoInputDevice])
        | Some device_index =>
            match audio_open d with
            | Raises =>
                (false, c1,
                 [NewPyAudio; OpenStream device_index;
                  Print InitFailed])
            | Returns =>
                (true, mkCapture (streaming c1) true (audio c1),
                 [NewPyAudio; OpenStream device_index;
                  Print (Initialized device_index)])
            end
        end
    end.

(** AudioCapture.start *)
Definition start (PYAUDIO_AVAILABLE : bool) (d : Driver) (c : Capture)
    : bool * Capture * list Life :=
  if streaming c then (true, c, [])
  else
    let '(ok, c1, l1) := initialize PYAUDIO_AVAILABLE d c in
    if negb ok then (false, c1, l1)
    else
      (true, mkCapture true (stream c1) (audio c1),
       (l1 ++ [SpawnCaptureLoop; SpawnSendLoop; Print Started])%list).

(** AudioCapture.stop *)
Definition stop (t : Teardown) (c : Capture) : Capture * list Life :=
  let c1 := mkCapture false (stream c) (audio c) in
  let '(c2, l2) :=
    if stream c1 then
      (mkCapture (streaming c1) false (audio c1),
       match stop_stream t with
       | Returns => [StopStream; CloseStream]
       | Raises => [StopStream]
       end)
    else (c1, []) in
  let '(c3, l3) :=
    if audio c2 then (mkCapture (streaming c2) (stream c2) false, [Terminate])
    else (c2, []) in
  (c3, (l2 ++ l3 ++ [Print Stopped])%list).

(** AudioCapture.is_active *)
Definition is_active (c : Capture) : bool := streaming c.

(** The module-level instance [_audio_capture] and the functions on it. *)
Definition init_audio_capture (PYAUDIO_AVAILABLE : bool) (g : option Capture)
    : option Capture :=
  if negb PYAUDIO_AVAILABLE then g else Some capture_init.

Definition start_audio_stream (PYAUDIO_AVAILABLE : bool) (d : Driver)
    (g : option Capture) : bool * option Capture * list Life :=
  match g with
  | Some c => let '(ok, c1, l) := start PYAUDIO_AVAILABLE d c in (ok, Some c1, l)
  | None => (false, None, [])
  end.

Definition stop_audio_stream (t : Teardown) (g : option Capture)
    : option Capture * list Life :=
  match g with
  | Some c => let '(c1, l) := stop t c in (Some c1, l)
  | None => (None, [])
  end.

Definition is_audio_streaming (g : option Capture) : bool :=
  match g with
  | Some c => is_active c
  | None => false
  end.

(** A driver on which [initialize] succeeds with device 1. *)
Definition good_driver : Driver :=
  {| pyaudio_new := Returns; devices := DeviceList [Info 0; Info 1];
     audio_open := Returns |}.

Definition is_spawn (e : Life) : bool :=
  match e with
  | SpawnCaptureLoop | SpawnSendLoop => true
  | _ => false
  end.

End AudioCapture.

(* ===================================================================== *)
(** ** The two control paths side by side                                 *)
(* ===================================================================== *)

Module Convergence.

(** A control decision of the Master: a session with a key is to run, until
    the end time the active-session answer gives for it, or no session is to
    run.  The end time is the [end_time] entry as the poller reads it; the
    session-start request of the push surface carries none. *)
Inductive Control : Type :=
| Start (key : string) (end_time : SessionPoller.EndTimeField)
| Stop.

(** The decision as the push surface of [lab_pi_app.py] receives it, with a
    matching node id and a GPIO write that returns. *)
Definition push_event (cfg : LabPiApp.Config) (now : Time) (c : Control) : LabPiApp.Event :=
  match c with
  | Start k _ =>
      LabPiApp.SessionStart now
        (LabPiApp.start_request (LabPiApp.lab_pi_id cfg) (Some k)) GpioOk
  | Stop => LabPiApp.SessionEnd (Some None) GpioOk
  end.

(** The decision as the poller reads it from the active-session answer. *)
Definition poll_answer (c : Control) : HttpResult SessionPoller.PollJson :=
  match c with
  | Start k end_time =>
      Status 200 (Some (SessionPoller.PollDict (Some "running") (Some k) end_time))
  | Stop =>
      Status 200 (Some (SessionPoller.PollDict (Some "stopped") None
                          SessionPoller.EndAbsent))
  end.

(** The decisions arrive one after the other, each at its own instant. *)
Fixpoint run_push (cfg : LabPiApp.Config) (cs : list (Time * Control))
    (s : LabPiApp.LabPiState) : LabPiApp.LabPiState * list LabPiApp.Effect :=
  match cs with
  | [] => (s, [])
  | (now, c) :: cs' =>
      let r := LabPiApp.step cfg (push_event cfg now c) s in
      let '(s2, l2) := run_push cfg cs' (LabPiApp.state_of r) in
      (s2, (LabPiApp.effects r ++ l2)%list)
  end.

Fixpoint run_poll (env : SessionPoller.Env) (cs : list (Time * Control))
    (p : SessionPoller.Poller) : SessionPoller.Poller * list SessionPoller.Effect :=
  match cs with
  | [] => (p, [])
  | (now, c) :: cs' =>
      let r := SessionPoller.poll env now (poll_answer c) GpioOk GpioOk p in
      let '(p2, l2) := run_poll env cs' (SessionPoller.state_of r) in
      (p2, (SessionPoller.effects r ++ l2)%list)
  end.

(** A decision whose end time, if it has one, parses and is still ahead when
    the decision arrives. *)
Definition timely (nc : Time * Control) : bool :=
  match nc with
  | (_, Start _ SessionPoller.EndAbsent) => true
  | (now, Start _ (SessionPoller.EndAt t)) => (now <? t)%Z
  | (_, Start _ SessionPoller.EndInvalid) => false
  | (_, Stop) => true
  end.

(** The argument lists of the [lgpio.gpio_write] calls of each program. *)
Fixpoint push_writes (l : list LabPiApp.Effect) : list (list Z) :=
  match l with
  | [] => []
  | LabPiApp.GpioWrite args :: l' => args :: push_writes l'
  | _ :: l' => push_writes l'
  end.

Fixpoint poll_writes (l : list SessionPoller.Effect) : list (list Z) :=
  match l with
  | [] => []
  | SessionPoller.GpioWrite args :: l' => args :: poll_writes l'
  | _ :: l' => poll_writes l'
  end.

(** The level written: the last positional argument. *)
Definition level (args : list Z) : Z := List.last args 0%Z.

Definition is_some {A} (o : option A) : bool :=
  match o with
  | Some _ => true
  | None => false
  end.

(** The session and relay fields of the two programs say the same. *)
Definition agree (s : LabPiApp.LabPiState) (p : SessionPoller.Poller) : Prop :=
  LabPiApp.current_session_key s = SessionPoller.current_session_key p /\
  LabPiApp.session_active s = is_some (SessionPoller.current_session_key p) /\
  LabPiApp.relay_state s = SessionPoller.hardware_running p.

(** What the poller keeps from poll to poll: the hardware runs exactly when
    a key is remembered. *)
Definition poller_inv (p : SessionPoller.Poller) : Prop :=
  SessionPoller.hardware_running p = is_some (SessionPoller.current_session_key p).

End Convergence.

(* ===================================================================== *)
(** ** lab-pi/Audio/server.py                                             *)
(* ===================================================================== *)

Module AudioServer.

(** A Python [dict] as the list of its items in insertion order.  Assigning
    to a key that is present keeps its position; a new key goes last. *)
Section Dict.
Variable K V : Type.
Variable eqb : K -> K -> bool.

Fixpoint dict_get (k : K) (d : list (K * V)) : option V :=
  match d with
  | [] => None
  | (k', v) :: d' => if eqb k k' then Some v else dict_get k d'
  end.

Fixpoint dict_set (k : K) (v : V) (d : list (K * V)) : list (K * V) :=
  match d with
  | [] => [(k, v)]
  | (k', v') :: d' => if eqb k k' then (k, v) :: d' else (k', v') :: dict_set k v d'
  end.

Fixpoint dict_del (k : K) (d : list (K * V)) : list (K * V) :=
  match d with
  | [] => []
  | (k', v') :: d' => if eqb k k' then d' else (k', v') :: dict_del k d'
  end.

Definition dict_mem (k : K) (d : list (K * V)) : bool :=
  match dict_get k d with
  | Some _ => true
  | None => false
  end.

Definition keys (d : list (K * V)) : list K := List.map fst d.

End Dict.
Arguments dict_get {K V} eqb k d.
Arguments dict_set {K V} eqb k v d.
Arguments dict_del {K V} eqb k d.
Arguments dict_mem {K V} eqb k d.
Arguments keys {K V} d.

(** An entry of a JSON object read with [data.get(name, default)]: not
    there, [null], or a value. *)
Inductive Field (A : Type) : Type :=
| Absent
| Null
| Value (a : A).
Arguments Absent {A}.
Arguments Null {A}.
Arguments Value {A} a.

(** [data.get(name, default)] *)
Definition get_default {A} (f : Field A) (default : A) : option A :=
  match f with
  | Absent => Some default
  | Null => None
  | Value a => Some a
  end.

(** An entry of [audio_sessions]. *)
Record Session : Type := {
  sid : string;
  active : bool;
  session_lab_pi_id : option string
}.

(** An entry of [latest_audio], also the payload of an ['audio_data']
    message. *)
Record Chunk : Type := {
  chunk_audio : string;
  sample_rate : option Z;
  channels : option Z
}.

(** The two module-level dicts. *)
Record Server : Type := mkServer {
  audio_sessions : list (option string * Session);
  latest_audio : list (string * Chunk)
}.

Definition server_init : Server := {| audio_sessions := []; latest_audio := [] |}.

(** The JSON object posted to /api/audio/stream. *)
Record AudioPost : Type := {
  post_lab_pi_id : option string;
  post_audio : option string;
  post_sample_rate : Field Z;
  post_channels : Field Z
}.

Inductive Out : Type :=
| Broadcast (lab_pi_id : string) (c : Chunk)
| EmitAudioData (c : Chunk)
| EmitStarted (session_id : option string)
| EmitStopped (session_id : option string).

Inductive Answer : Type :=
| Ok200
| Missing400
| Error500.

(** receive_audio: [body] is [None] when [request.json] raises or is not an
    object; [emit] is how [socketio.emit] ends. *)
Definition receive_audio (body : option AudioPost) (emit : AudioCapture.CallOutcome)
    (s : Server) : Answer * Server * list Out :=
  match body with
  | None => (Error500, s, [])
  | Some data =>
      let sample_rate := get_default (post_sample_rate data) 16000%Z in
      let channels := get_default (post_channels data) 1%Z in
      if negb (truthy (post_lab_pi_id data)) || negb (truthy (post_audio data)) then
        (Missing400, s, [])
      else
        match post_lab_pi_id data, post_audio data with
        | Some lab_pi_id, Some audio_b64 =>
            let c := {| chunk_audio := audio_b64; sample_rate := sample_rate;
                        channels := channels |} in
            let s1 := mkServer (audio_sessions s)
                        (dict_set String.eqb lab_pi_id c (latest_audio s)) in
            match emit with
            | AudioCapture.Returns => (Ok200, s1, [Broadcast lab_pi_id c])
            | AudioCapture.Raises => (Error500, s1, [])
            end
        | _, _ => (Missing400, s, [])
        end
  end.

(** The object a client sends with ['audio_start'] or ['audio_stop']. *)
Record SessionMsg : Type := {
  msg_session_id : Field string;
  msg_lab_pi_id : option string
}.

Definition session_id_of (m : SessionMsg) : option string :=
  get_default (msg_session_id m) "default".

(** handle_audio_start, for the client whose socket id is [request_sid]. *)
Definition handle_audio_start (request_sid : string) (data : SessionMsg) (s : Server)
    : Server * list Out :=
  let session_id := session_id_of data in
  let lab_pi_id := msg_lab_pi_id data in
  let s1 := mkServer
              (dict_set option_string_eqb session_id
                 {| sid := request_sid; active := true; session_lab_pi_id := lab_pi_id |}
                 (audio_sessions s))
              (latest_audio s) in
  let replay :=
    match lab_pi_id with
    | Some id =>
        if truthy lab_pi_id then
          match dict_get String.eqb id (latest_audio s1) with
          | Some c => [EmitAudioData c]
          | None => []
          end
        else []
    | None => []
    end in
  (s1, (replay ++ [EmitStarted session_id])%list).

(** handle_audio_stop *)
Definition handle_audio_stop (data : SessionMsg) (s : Server) : Server * list Out :=
  let session_id := session_id_of data in
  let s1 :=
    if dict_mem option_string_eqb session_id (audio_sessions s) then
      mkServer (dict_del option_string_eqb session_id (audio_sessions s))
        (latest_audio s)
    else s in
  (s1, [EmitStopped session_id]).

(** The loop of [handle_disconnect]: the first item, in insertion order,
    whose session has this socket id is deleted, and the loop ends. *)
Fixpoint drop_first_of (request_sid : string) (d : list (option string * Session))
    : list (option string * Session) :=
  match d with
  | [] => []
  | (session_id, session) :: d' =>
      if (sid session =? request_sid)%string then d'
      else (session_id, session) :: drop_first_of request_sid d'
  end.

(** handle_disconnect *)
Definition handle_disconnect (request_sid : string) (s : Server) : Server :=
  mkServer (drop_first_of request_sid (audio_sessions s)) (latest_audio s).

(** /status: the [sessions] and [active] entries. *)
Definition status (s : Server) : nat * nat :=
  (List.length (audio_sessions s),
   List.length (List.filter (fun kv => active (snd kv)) (audio_sessions s))).

(** Everything that reaches the server. *)
Inductive Request : Type :=
| ReceiveAudio (body : option AudioPost) (emit : AudioCapture.CallOutcome)
| AudioStart (request_sid : string) (data : SessionMsg)
| AudioStop (data : SessionMsg)
| Disconnect (request_sid : string).

Definition handle (r : Request) (s : Server) : Server * list Out :=
  match r with
  | ReceiveAudio body emit =>
      let '(_, s1, l) := receive_audio body emit s in (s1, l)
  | AudioStart request_sid data => handle_audio_start request_sid data s
  | AudioStop data => handle_audio_stop data s
  | Disconnect request_sid => (handle_disconnect request_sid s, [])
  end.

Fixpoint serve (rs : list Request) (s : Server) : Server * list Out :=
  match rs with
  | [] => (s, [])
  | r :: rs' =>
      let '(s1, l1) := handle r s in
      let '(s2, l2) := serve rs' s1 in
      (s2, (l1 ++ l2)%list)
  end.

(** A post with the optional entries left out. *)
Definition example_post (id audio : string) : AudioPost :=
  {| post_lab_pi_id := Some id; post_audio := Some audio;
     post_sample_rate := Absent; post_channels := Absent |}.

(** Every stored session is marked active. *)
Definition all_active (d : list (option string * Session)) : Prop :=
  Forall (fun kv => active (snd kv) = true) d.

(** The ['audio_start'] message for a session id and a node. *)
Definition start_msg (session_id lab_pi_id : string) : SessionMsg :=
  {| msg_session_id := Value session_id; msg_lab_pi_id := Some lab_pi_id |}.

(** What every request keeps. *)
Definition server_inv (s : Server) : Prop :=
  NoDup (keys (audio_sessions s)) /\ all_active (audio_sessions s) /\
  NoDup (keys (latest_audio s)).

(** How many stored sessions belong to a socket id. *)
Definition sessions_of (request_sid : string) (d : list (option string * Session)) : nat :=
  List.length (List.filter (fun kv => (sid (snd kv) =? request_sid)%string) d).

End AudioServer.

(* ===================================================================== *)
(** ** Properties of lab_pi_app.py                                        *)
(* ===================================================================== *)

Section AppProperties.

Import LabPiApp.
Import LabPiApp.MasterPiCommunicator.
Local Open Scope lab_scope.

(** Case analysis on whatever the next [match] or [if] inspects. *)
Ltac no_inner_case x :=
  lazymatch x with
  | context [match _ with _ => _ end] => fail
  | _ => idtac
  end.

Ltac split_match :=
  match goal with
  | |- context [match ?x with _ => _ end] => is_var x; destruct x
  | |- context [match ?x with _ => _ end] =>
      no_inner_case x; let E := fresh "E" in destruct x eqn:E
  end.

Ltac unfold_ops :=
  unfold step, drop, heartbeat_thread, session_monitor_thread, api_end_session,
    lab_pi_session_start, lab_pi_session_end, relay_on, relay_off,
    LabPiApp.end_session, MasterPiCommunicator.end_session,
    heartbeat, heartbeat_except, handle_new_session, register,
    power_on_hardware, power_off_hardware,
    bind, ret, gets, modify, emit, state_of, effects, result in *.

Ltac crunch := unfold_ops; cbn; repeat (split_match; cbn); try easy.

Lemma run_cons_state cfg e es s :
  state_of (run cfg (e :: es) s) = state_of (run cfg es (state_of (step cfg e s))).
Proof.
  cbn [run]. unfold bind, state_of.
  destruct (step cfg e s) as [[u s1] l1]. cbn.
  destruct (run cfg es s1) as [[u2 s2] l2]. reflexivity.
Qed.

Lemma Inv_init cfg : Inv cfg lab_state_init.
Proof. split; [intros H; discriminate | reflexivity]. Qed.

Lemma step_preserves_Inv cfg e s :
  ending_write_ok e = true -> Inv cfg s -> Inv cfg (state_of (step cfg e s)).
Proof.
  intros Hok [H1 H2]. unfold Inv, I1 in *.
  destruct s as [rg db ra act key st em hr rl hs hresp n]; cbn in *.
  destruct (gpio_pin cfg) as [pin|] eqn:Hpin.
  - destruct e; cbn in Hok; crunch; rewrite ?Hpin in *; cbn;
      repeat (split_match; cbn);
      try (split; intros; congruence);
      destruct act; cbn in *; split; intros; congruence.
  - specialize (H2 eq_refl). subst.
    destruct e; cbn in Hok; crunch; rewrite ?Hpin in *; cbn;
      repeat (split_match; cbn); split; intros; congruence.
Qed.

Lemma run_preserves_Inv cfg es :
  forall s, forallb ending_write_ok es = true -> Inv cfg s ->
            Inv cfg (state_of (run cfg es s)).
Proof.
  induction es as [|e es IH]; intros s Hok HI.
  - exact HI.
  - cbn in Hok. apply andb_prop in Hok as [He Hes].
    rewrite run_cons_state. apply IH; [exact Hes|].
    apply step_preserves_Inv; assumption.
Qed.

(** C1 (as amended): along every sequence of events in which each GPIO write
    made while ending a session returns, the state reached from start-up
    satisfies I1: [relay_state] implies [session_active].  When the write of
    [power_off_hardware] raises, the failure is printed and the state,
    [relay_state] included, is left as it was.  A later session-end request
    whose write returns sets [relay_state] to false. *)
Theorem I1_when_power_off_writes_return cfg es :
  (forallb ending_write_ok es = true ->
   I1 (state_of (run cfg es lab_state_init))) /\
  (forall s,
     state_of (power_off_hardware cfg GpioRaises s) = s /\
     (forall pin, gpio_pin cfg = Some pin ->
        effects (power_off_hardware cfg GpioRaises s) =
          [Print PoweringOff; GpioWrite [pin; 0%Z]; Print PowerOffFailed])) /\
  (forall s body pin, gpio_pin cfg = Some pin ->
     relay_state (state_of (lab_pi_session_end cfg (Some body) GpioOk s)) = false).
Proof.
  split; [|split].
  - intros Hok. apply (run_preserves_Inv cfg es lab_state_init Hok (Inv_init cfg)).
  - intros s. unfold power_off_hardware, bind, emit, ret, state_of, effects. cbn.
    destruct (gpio_pin cfg) as [p|]; cbn; split; try reflexivity;
      intros pin Hp; congruence.
  - intros s body pin Hp. unfold_ops. cbn. rewrite Hp. reflexivity.
Qed.

Lemma I1_when_power_off_writes_return_witness :
  let es :=
    [MainRegister 0%Z (Status 200 (Some (RegDict (Some 1%Z))));
     HeartbeatIter 5%Z (Status 200 (Some (HbDict true (Some (SessionDict (Some "A") None)))))
       GpioOk TransportError;
     MonitorTick (seconds 3700) GpioOk;
     SessionStart (seconds 3800) (start_request "lab-001" (Some "B")) GpioOk;
     RelayOff GpioRaises] in
  forallb ending_write_ok es = true /\
  relay_state (state_of (run example_cfg es lab_state_init)) = true /\
  session_active (state_of (run example_cfg es lab_state_init)) = true.
Proof.
  cbv zeta. split; [reflexivity|]. split; [reflexivity|].
  apply (proj1 (I1_when_power_off_writes_return example_cfg
    [MainRegister 0%Z (Status 200 (Some (RegDict (Some 1%Z))));
     HeartbeatIter 5%Z (Status 200 (Some (HbDict true (Some (SessionDict (Some "A") None)))))
       GpioOk TransportError;
     MonitorTick (seconds 3700) GpioOk;
     SessionStart (seconds 3800) (start_request "lab-001" (Some "B")) GpioOk;
     RelayOff GpioRaises]) eq_refl).
  reflexivity.
Defined.

(** C1 (as stated) fails: a session is started, then the Master's session-end
    arrives and the GPIO write of [power_off_hardware] raises.  The node is
    left with the relay flag set and no active session. *)
Lemma I1_broken_by_failed_power_off :
  let s := state_of (run example_cfg
             [SessionStart 0%Z (start_request "lab-001" (Some "A")) GpioOk;
              SessionEnd (Some (Some "A")) GpioRaises] lab_state_init) in
  reachable example_cfg s /\ relay_state s = true /\ session_active s = false /\
  ~ I1 s.
Proof.
  cbv zeta. split; [eexists; reflexivity|].
  split; [reflexivity|]. split; [reflexivity|].
  intros H. specialize (H eq_refl). discriminate H.
Qed.

(** *** Ending a session *)

Lemma end_session_no_key cfg g s :
  truthy (current_session_key s) = false -> LabPiApp.end_session cfg g s = (tt, s, []).
Proof.
  intros H. unfold LabPiApp.end_session, bind, gets, ret. cbn. rewrite H. reflexivity.
Qed.

Lemma end_session_with_key cfg g s :
  truthy (current_session_key s) = true ->
  state_of (LabPiApp.end_session cfg g s) =
    clear_session (set_relay_state (relay_after cfg g false s) s) /\
  power_off_calls (effects (LabPiApp.end_session cfg g s)) = 1 /\
  List.filter is_post_session_end (effects (LabPiApp.end_session cfg g s)) =
    [PostSessionEnd (current_session_key s)].
Proof.
  intros H. unfold relay_after, clear_session, power_off_calls.
  destruct s as [rg db ra act key st em hr rl hs hresp n]; cbn in *.
  unfold_ops; cbn. rewrite H; cbn.
  destruct (gpio_pin cfg); cbn; [destruct g; cbn|]; repeat split; reflexivity.
Qed.

(** C2 (as amended): from a state whose session key is non-empty, two calls
    of [end_session] in a row make exactly one call of [power_off_hardware]
    and one notification of the Master, end with [session_active = false],
    and the second call changes nothing and does nothing.  The Master-push
    endpoint [lab_pi_session_end] calls [power_off_hardware] once per
    accepted request, twice for two requests in a row, and also ends with
    [session_active = false]. *)
Theorem end_session_twice_one_power_off cfg g1 g2 s :
  truthy (current_session_key s) = true ->
  let r1 := LabPiApp.end_session cfg g1 s in
  let r2 := LabPiApp.end_session cfg g2 (state_of r1) in
  power_off_calls (effects r1 ++ effects r2) = 1 /\
  List.length (List.filter is_post_session_end (effects r1 ++ effects r2)) = 1 /\
  session_active (state_of r2) = false /\
  r2 = (tt, state_of r1, []) /\
  (forall k1 k2,
     let p1 := lab_pi_session_end cfg (Some k1) g1 s in
     let p2 := lab_pi_session_end cfg (Some k2) g2 (state_of p1) in
     power_off_calls (effects p1 ++ effects p2) = 2 /\
     session_active (state_of p2) = false).
Proof.
  intros H r1 r2.
  destruct (end_session_with_key cfg g1 s H) as (Hs & Hc & Hn).
  assert (H2 : r2 = (tt, state_of r1, [])).
  { subst r2. apply end_session_no_key. subst r1. rewrite Hs. reflexivity. }
  rewrite H2. change (effects (tt, state_of r1, [])) with (@nil Effect).
  rewrite app_nil_r. subst r1. rewrite Hn, Hc.
  repeat split; try reflexivity.
  - change (state_of (tt, state_of (LabPiApp.end_session cfg g1 s), @nil Effect))
      with (state_of (LabPiApp.end_session cfg g1 s)).
    rewrite Hs. reflexivity.
  - unfold power_off_calls. unfold_ops. cbn.
    destruct (gpio_pin cfg); cbn; [destruct g1, g2; reflexivity | reflexivity].
  - unfold_ops. cbn. destruct (gpio_pin cfg); cbn; [destruct g2; reflexivity | reflexivity].
Qed.

Lemma end_session_twice_one_power_off_witness :
  let s := state_of (run example_cfg
             [SessionStart 0%Z (start_request "lab-001" (Some "A")) GpioOk]
             lab_state_init) in
  truthy (current_session_key s) = true /\
  power_off_calls
    (effects (LabPiApp.end_session example_cfg GpioOk s) ++
     effects (LabPiApp.end_session example_cfg GpioOk
                (state_of (LabPiApp.end_session example_cfg GpioOk s)))) = 1.
Proof.
  cbv zeta. split; [reflexivity|].
  apply (end_session_twice_one_power_off example_cfg GpioOk GpioOk). reflexivity.
Defined.

(** C2 (as stated) fails on the Master-push endpoint: with a session for key
    "A" running, two session-end requests for "A" in a row make two calls of
    [power_off_hardware] and two GPIO writes; the second request is not
    without effect. *)
Lemma session_end_twice_two_power_offs :
  let s := state_of (run example_cfg
             [SessionStart 0%Z (start_request "lab-001" (Some "A")) GpioOk]
             lab_state_init) in
  let p1 := lab_pi_session_end example_cfg (Some (Some "A")) GpioOk s in
  let p2 := lab_pi_session_end example_cfg (Some (Some "A")) GpioOk (state_of p1) in
  session_active s = true /\
  power_off_calls (effects p1 ++ effects p2) = 2 /\
  power_off_calls (effects p1 ++ effects p2) <> 1 /\
  effects p2 = [Print PoweringOff; GpioWrite [26%Z; 0%Z]; Print PoweredOff] /\
  effects p2 <> [].
Proof.
  cbv zeta. repeat split; try reflexivity; cbv; discriminate.
Qed.

(** C4: with [current_session_key] equal to [None], [end_session] returns
    the state it was given and an empty effect log (no field changes, no
    [power_off_hardware], no notification), whatever [session_active] is.
    A state with [session_active = true] and no key is reachable through a
    heartbeat answer whose session object has no [session_key]; from such a
    state no sequence of monitor ticks and local end requests changes the
    state, so the session stays active. *)
Theorem end_session_without_key_is_frame cfg :
  (forall g s, current_session_key s = None ->
     LabPiApp.end_session cfg g s = (tt, s, [])) /\
  (forall now g email s,
     let s' := state_of (handle_new_session cfg now (SessionDict None email) g s) in
     session_active s' = true /\ current_session_key s' = None) /\
  (exists s, reachable cfg s /\ session_active s = true /\
             current_session_key s = None) /\
  (forall es s, current_session_key s = None ->
     forallb is_local_end es = true ->
     state_of (run cfg es s) = s).
Proof.
  split; [|split; [|split]].
  - intros g s H. apply end_session_no_key. rewrite H. reflexivity.
  - intros now g email s. cbv zeta.
    destruct s as [rg db ra act key st em hr rl hs hresp n].
    unfold_ops; cbn. destruct (gpio_pin cfg); cbn; [destruct g; cbn|]; split; reflexivity.
  - exists (state_of (run cfg
      [MainRegister 0%Z (Status 200 (Some (RegDict None)));
       HeartbeatIter 0%Z (Status 200 (Some (HbDict true (Some (SessionDict None None)))))
         GpioOk TransportError] lab_state_init)).
    split; [eexists; reflexivity|].
    cbn [run]. unfold_ops; cbn. destruct (gpio_pin cfg); cbn; split; reflexivity.
  - induction es as [|e es IH]; intros s Hk Hes; [reflexivity|].
    cbn in Hes. apply andb_prop in Hes as [He Hes].
    rewrite run_cons_state.
    assert (Hstep : state_of (step cfg e s) = s).
    { destruct e; try discriminate He; cbn [step].
      - unfold session_monitor_thread, bind, gets, ret, emit, state_of.
        cbn -[LabPiApp.end_session].
        destruct (session_active s); [|reflexivity].
        destruct (session_start_time s); [|reflexivity].
        destruct (_ >? _)%Z; [|reflexivity].
        cbn -[LabPiApp.end_session].
        rewrite end_session_no_key by (rewrite Hk; reflexivity). reflexivity.
      - unfold drop, api_end_session, bind, gets, ret, state_of.
        cbn -[LabPiApp.end_session].
        destruct (session_active s); [|reflexivity].
        cbn -[LabPiApp.end_session].
        rewrite end_session_no_key by (rewrite Hk; reflexivity). reflexivity. }
    rewrite Hstep. apply IH; assumption.
Qed.

Lemma end_session_without_key_is_frame_witness :
  let s := state_of (run example_cfg
      [MainRegister 0%Z (Status 200 (Some (RegDict None)));
       HeartbeatIter 0%Z (Status 200 (Some (HbDict true (Some (SessionDict None None)))))
         GpioOk TransportError] lab_state_init) in
  current_session_key s = None /\ session_active s = true /\
  relay_state s = true /\
  LabPiApp.end_session example_cfg GpioOk s = (tt, s, []) /\
  state_of (run example_cfg
    [MonitorTick (seconds 7200) GpioOk; ApiEndSession GpioOk] s) = s.
Proof.
  cbv zeta. split; [reflexivity|]. split; [reflexivity|]. split; [reflexivity|].
  split.
  - apply (proj1 (end_session_without_key_is_frame example_cfg)). reflexivity.
  - apply (proj2 (proj2 (proj2 (end_session_without_key_is_frame example_cfg))));
      reflexivity.
Defined.

(** C7 (as amended): with no session active, the local end endpoint
    [api_end_session] answers 400 "No active session", returns the state it
    was given and does nothing.  The Master-push endpoint
    [lab_pi_session_end] does not look at [session_active]: every request
    whose body decodes is answered with success, clears the four session
    fields and calls [power_off_hardware] once. *)
Theorem end_without_session cfg g s :
  session_active s = false ->
  api_end_session cfg g s = (Json 400 (BError "No active session"), s, []) /\
  (forall k,
     let r := lab_pi_session_end cfg (Some k) g s in
     result r = Json 200 (BEnded (lab_pi_id cfg)) /\
     state_of r = clear_session (set_relay_state (relay_after cfg g false s) s) /\
     power_off_calls (effects r) = 1).
Proof.
  intros H. split.
  - unfold api_end_session, bind, gets, ret. cbn. rewrite H. reflexivity.
  - intros k. cbv zeta. unfold relay_after, clear_session, power_off_calls.
    destruct s as [rg db ra act key st em hr rl hs hresp n]; cbn in *.
    unfold_ops; cbn.
    destruct (gpio_pin cfg); cbn; [destruct g; cbn|]; repeat split; reflexivity.
Qed.

Lemma end_without_session_witness :
  session_active lab_state_init = false /\
  api_end_session example_cfg GpioOk lab_state_init =
    (Json 400 (BError "No active session"), lab_state_init, []).
Proof.
  split; [reflexivity|].
  apply (end_without_session example_cfg GpioOk lab_state_init). reflexivity.
Defined.

(** C7 (as stated) fails on the Master-push endpoint: at start-up, with no
    session active, a session-end request is answered with success, and
    [power_off_hardware] is called and writes the GPIO pin. *)
Lemma session_end_without_session_succeeds :
  let r := lab_pi_session_end example_cfg (Some (Some "A")) GpioOk lab_state_init in
  session_active lab_state_init = false /\
  result r = Json 200 (BEnded "lab-001") /\
  power_off_calls (effects r) = 1 /\
  effects r = [Print PoweringOff; GpioWrite [26%Z; 0%Z]; Print PoweredOff] /\
  (forall st msg, result r <> Json st (BError msg)) /\
  effects r <> [].
Proof.
  cbv zeta. repeat split; try reflexivity; cbv; intros; discriminate.
Qed.

(** *** Starting a session *)

Lemma step_keeps_hardware_ready cfg e s :
  hardware_ready (state_of (step cfg e s)) = hardware_ready s.
Proof.
  destruct s as [rg db ra act key st em hr rl hs hresp n].
  destruct e; crunch.
Qed.

(** C6 (as amended): after a session-start request whose node id matches
    and whose body decodes, [session_active] is true whatever the GPIO write
    does, [relay_state] is true exactly when the guard is on and the write
    returned (otherwise it keeps its value), and [hardware_ready] keeps its
    value.  No event writes [hardware_ready]: it is false in every state
    reached from start-up. *)
Theorem session_start_effect cfg now req g s body :
  x_lab_pi_id req = Some (lab_pi_id cfg) ->
  start_body req = Some body ->
  let r := lab_pi_session_start cfg now req g s in
  result r = Json 200 (BStarted (sb_session_key body) (lab_pi_id cfg)) /\
  session_active (state_of r) = true /\
  current_session_key (state_of r) = sb_session_key body /\
  session_start_time (state_of r) = Some now /\
  relay_state (state_of r) = relay_after cfg g true s /\
  hardware_ready (state_of r) = hardware_ready s /\
  (forall es, hardware_ready (state_of (run cfg es lab_state_init)) = false).
Proof.
  intros Hid Hb. cbv zeta.
  assert (Hall : forall es s0, hardware_ready (state_of (run cfg es s0)) = hardware_ready s0).
  { induction es as [|e es IH]; intros s0; [reflexivity|].
    rewrite run_cons_state, IH. apply step_keeps_hardware_ready. }
  unfold lab_pi_session_start. rewrite Hid, Hb.
  replace (option_string_eqb (Some (lab_pi_id cfg)) (Some (lab_pi_id cfg))) with true
    by (cbn; symmetry; apply String.eqb_refl).
  unfold relay_after.
  destruct s as [rg db ra act key st em hr rl hs hresp n]; cbn in *.
  unfold_ops; cbn.
  destruct (gpio_pin cfg); cbn; [destruct g; cbn|];
    repeat split; try reflexivity; intros es; rewrite Hall; reflexivity.
Qed.

Lemma session_start_effect_witness :
  let req := start_request "lab-001" (Some "A") in
  let r := lab_pi_session_start example_cfg 7%Z req GpioRaises lab_state_init in
  x_lab_pi_id req = Some (lab_pi_id example_cfg) /\
  session_active (state_of r) = true /\
  relay_state (state_of r) = false /\
  hardware_ready (state_of r) = false.
Proof.
  cbv zeta. split; [reflexivity|].
  pose proof (session_start_effect example_cfg 7%Z (start_request "lab-001" (Some "A"))
                GpioRaises lab_state_init _ eq_refl eq_refl) as H.
  cbv zeta in H. destruct H as (_ & Ha & _ & _ & Hr & Hh & _).
  split; [exact Ha|]. split; [exact Hr | exact Hh].
Defined.

(** C6 (as stated) fails: the node id matches and the GPIO write of
    [power_on_hardware] returns without error ([relay_state] becomes true),
    yet [hardware_ready] is still false after the request. *)
Lemma hardware_ready_not_set_on_success :
  let r := lab_pi_session_start example_cfg 7%Z (start_request "lab-001" (Some "A"))
             GpioOk lab_state_init in
  result r = Json 200 (BStarted (Some "A") "lab-001") /\
  effects r = [Print PoweringOn; GpioWrite [26%Z; 1%Z]; Print PoweredOn] /\
  relay_state (state_of r) = true /\
  session_active (state_of r) = true /\
  hardware_ready (state_of r) = false /\
  hardware_ready (state_of r) <> true.
Proof.
  cbv zeta. repeat split; try reflexivity; cbv; discriminate.
Qed.

(** *** The timeout monitor *)

(** C8 (as amended): when a session is active with a non-empty key and more
    than 3600 s have passed since [session_start_time], one pass of the
    monitor runs [end_session]: the Master is notified,
    [power_off_hardware] is called once, the four session fields are
    cleared, and [relay_state] becomes false when the guard is on and the
    write returns (it keeps its value otherwise).  No answer of the Master
    is consumed. *)
Theorem monitor_ends_expired_session cfg now g s t0 :
  session_active s = true ->
  session_start_time s = Some t0 ->
  (now - t0 > seconds 3600)%Z ->
  truthy (current_session_key s) = true ->
  let r := session_monitor_thread cfg now g s in
  state_of r = state_of (LabPiApp.end_session cfg g s) /\
  state_of r = clear_session (set_relay_state (relay_after cfg g false s) s) /\
  session_active (state_of r) = false /\
  current_session_key (state_of r) = None /\
  session_start_time (state_of r) = None /\
  user_email (state_of r) = None /\
  relay_state (state_of r) = relay_after cfg g false s /\
  power_off_calls (effects r) = 1 /\
  List.filter is_post_session_end (effects r) = [PostSessionEnd (current_session_key s)].
Proof.
  intros Ha Hs Ht Hk. cbv zeta.
  destruct (end_session_with_key cfg g s Hk) as (Hst & Hc & Hn).
  assert (Hgt : (now - t0 >? seconds max_duration)%Z = true).
  { apply Z.gtb_lt. unfold max_duration. change (60 * 60)%Z with 3600%Z. lia. }
  assert (Hr : session_monitor_thread cfg now g s =
               (tt, state_of (LabPiApp.end_session cfg g s),
                Print SessionTimeout :: effects (LabPiApp.end_session cfg g s))).
  { unfold session_monitor_thread, bind, gets, emit, state_of, effects.
    cbn -[LabPiApp.end_session seconds max_duration Z.gtb].
    rewrite Ha, Hs, Hgt.
    destruct (LabPiApp.end_session cfg g s) as [[[] s1] l1]. reflexivity. }
  rewrite Hr.
  change (state_of (tt, state_of (LabPiApp.end_session cfg g s),
                    Print SessionTimeout :: effects (LabPiApp.end_session cfg g s)))
    with (state_of (LabPiApp.end_session cfg g s)).
  change (effects (tt, state_of (LabPiApp.end_session cfg g s),
                   Print SessionTimeout :: effects (LabPiApp.end_session cfg g s)))
    with (Print SessionTimeout :: effects (LabPiApp.end_session cfg g s)).
  rewrite Hst.
  repeat split; try reflexivity.
  - unfold power_off_calls in *. cbn [List.filter is_power_off_call]. exact Hc.
  - cbn [List.filter is_post_session_end]. exact Hn.
Qed.

Lemma monitor_ends_expired_session_witness :
  let s := state_of (run example_cfg
             [SessionStart 0%Z (start_request "lab-001" (Some "A")) GpioOk]
             lab_state_init) in
  session_active s = true /\ session_start_time s = Some 0%Z /\
  (seconds 3601 - 0 > seconds 3600)%Z /\
  truthy (current_session_key s) = true /\
  session_active (state_of (session_monitor_thread example_cfg (seconds 3601) GpioOk s))
    = false /\
  relay_state (state_of (session_monitor_thread example_cfg (seconds 3601) GpioOk s))
    = false.
Proof.
  cbv zeta.
  assert (Hlt : (seconds 3601 - 0 > seconds 3600)%Z) by (unfold seconds; lia).
  split; [reflexivity|]. split; [reflexivity|]. split; [exact Hlt|].
  split; [reflexivity|].
  pose proof (monitor_ends_expired_session example_cfg (seconds 3601) GpioOk
    (state_of (run example_cfg
       [SessionStart 0%Z (start_request "lab-001" (Some "A")) GpioOk] lab_state_init))
    0%Z eq_refl eq_refl Hlt eq_refl) as H.
  cbv zeta in H. destruct H as (_ & _ & Ha & _ & _ & _ & Hr & _).
  split; [exact Ha | exact Hr].
Defined.

(** C8 (as stated) fails in two ways.  First, a session installed from a
    heartbeat answer without [session_key] is active, started 3601 s ago,
    and a monitor pass leaves the whole state as it was.  Second, with a key
    present, when the GPIO write of [power_off_hardware] raises the session
    fields are cleared but [relay_state] stays true. *)
Lemma monitor_does_not_always_end :
  let s1 := state_of (run example_cfg
      [MainRegister 0%Z (Status 200 (Some (RegDict None)));
       HeartbeatIter 0%Z (Status 200 (Some (HbDict true (Some (SessionDict None None)))))
         GpioOk TransportError] lab_state_init) in
  let s2 := state_of (run example_cfg
      [SessionStart 0%Z (start_request "lab-001" (Some "A")) GpioOk] lab_state_init) in
  (session_active s1 = true /\ session_start_time s1 = Some 0%Z /\
   state_of (session_monitor_thread example_cfg (seconds 3601) GpioOk s1) = s1 /\
   session_active (state_of (session_monitor_thread example_cfg (seconds 3601) GpioOk s1))
     <> false) /\
  (session_active s2 = true /\ session_start_time s2 = Some 0%Z /\
   session_active (state_of (session_monitor_thread example_cfg (seconds 3601) GpioRaises s2))
     = false /\
   relay_state (state_of (session_monitor_thread example_cfg (seconds 3601) GpioRaises s2))
     <> false).
Proof.
  cbv zeta. repeat split; try reflexivity; cbv; discriminate.
Qed.

(** *** Heartbeat and registration *)






(** The scenario of the specification: a registered node with a count of 0
    meets five failing heartbeats in a row.  The first four iterations post
    only the heartbeat; the fifth posts the heartbeat and then the
    registration.  A heartbeat that succeeds afterwards resets the count. *)
Example five_failures_then_register :
  let fail := HeartbeatIter 0%Z TransportError GpioOk
                (Status 200 (Some (RegDict (Some 7%Z)))) in
  let r := run example_cfg [fail; fail; fail; fail; fail] (registered_with_failures 0) in
  effects r =
    [PostHeartbeat false None false false;
     PostHeartbeat false None false false;
     PostHeartbeat false None false false;
     PostHeartbeat false None false false;
     PostHeartbeat false None false false; Print TooManyFailures; PostRegister] /\
  heartbeat_failures (state_of r) = 5 /\
  registered (state_of r) = true /\
  heartbeat_failures (state_of (step example_cfg
      (HeartbeatIter 1%Z (Status 200 (Some (HbDict false None))) GpioOk TransportError)
      (state_of r))) = 0.
Proof. cbv zeta. repeat split; reflexivity. Qed.

(** C10 (as amended): a step lowers [heartbeat_failures] only when it is a
    heartbeat iteration of a registered node that received status 200 with a
    body that decodes.  The count is then 0 when [heartbeat] returns [True]
    and 1 when the handling of the answer raises and [heartbeat] returns
    [False].  Every other step keeps the count or adds one to it, and every
    step that is not a heartbeat iteration (registration, session start,
    session end, monitor, relay routes) keeps it. *)
Theorem failures_lowered_only_after_status_200 cfg e s :
  let s' := state_of (step cfg e s) in
  (heartbeat_got_200 s e = false ->
     heartbeat_failures s' = heartbeat_failures s \/
     heartbeat_failures s' = S (heartbeat_failures s)) /\
  (heartbeat_failures s' < heartbeat_failures s -> heartbeat_got_200 s e = true) /\
  match e with
  | HeartbeatIter now hb g reg =>
      registered s = true -> hb_status_200 hb = true ->
      heartbeat_failures s' = if result (heartbeat cfg now hb g s) then 0 else 1
  | _ => heartbeat_failures s' = heartbeat_failures s
  end.
Proof.
  cbv zeta.
  assert (H1 : heartbeat_got_200 s e = false ->
     heartbeat_failures (state_of (step cfg e s)) = heartbeat_failures s \/
     heartbeat_failures (state_of (step cfg e s)) = S (heartbeat_failures s)).
  { destruct s as [rg db ra act key st em hr rl hs hresp n].
    destruct e; cbn [heartbeat_got_200]; intros Hv;
      try (left; crunch; fail).
    destruct rg; cbn in Hv.
    - destruct hb as [|code [json|]]; cbn in Hv.
      + crunch; auto.
      + unfold_ops; cbn. rewrite Hv. cbn. repeat (split_match; cbn); auto.
      + unfold_ops; cbn. destruct (code =? 200)%Z; cbn; repeat (split_match; cbn); auto.
    - crunch; auto. }
  split; [exact H1|]. split.
  - intros Hlt. destruct (heartbeat_got_200 s e) eqn:Hv; [reflexivity|].
    destruct (H1 eq_refl) as [H|H]; rewrite H in Hlt; lia.
  - destruct s as [rg db ra act key st em hr rl hs hresp n].
    destruct e; crunch.
Qed.

Lemma failures_lowered_only_after_status_200_witness :
  let s := registered_with_failures 7 in
  let e := HeartbeatIter 0%Z (Status 503 None) GpioOk TransportError in
  heartbeat_got_200 s e = false /\
  (heartbeat_failures (state_of (step example_cfg e s)) = heartbeat_failures s \/
   heartbeat_failures (state_of (step example_cfg e s)) = S (heartbeat_failures s)).
Proof.
  cbv zeta. split; [reflexivity|].
  apply (failures_lowered_only_after_status_200 example_cfg
           (HeartbeatIter 0%Z (Status 503 None) GpioOk TransportError)
           (registered_with_failures 7)).
  reflexivity.
Defined.

(** C10 (as stated) fails: a registered node with 7 failures receives status
    200 with a body that decodes to something other than an object.  The
    count is set to 0, [result.get] raises, the [except] arm adds one and
    [heartbeat] returns [False]: a failed heartbeat has lowered the count
    from 7 to 1, and no registration follows. *)
Lemma failed_heartbeat_lowers_count :
  let s := registered_with_failures 7 in
  let hb := Status 200 (Some HbNotDict) in
  let r := heartbeat_thread example_cfg 0%Z hb GpioOk TransportError s in
  result (heartbeat example_cfg 0%Z hb GpioOk s) = false /\
  heartbeat_failures s = 7 /\
  heartbeat_failures (state_of r) = 1 /\
  heartbeat_failures (state_of r) < heartbeat_failures s /\
  effects r = [PostHeartbeat false None false false].
Proof.
  cbv zeta. repeat split; try reflexivity. cbv. lia.
Qed.

End AppProperties.

(* ===================================================================== *)
(** ** Push surface and poll fallback compared                            *)
(* ===================================================================== *)

Section ConvergenceProperties.

Import Convergence.

Ltac unfold_poller :=
  unfold SessionPoller.poll, SessionPoller.try_except, SessionPoller.stop_hardware,
    SessionPoller.start_hardware, SessionPoller.relay_on, SessionPoller.relay_off,
    SessionPoller.bind, SessionPoller.ret, SessionPoller.raise, SessionPoller.gets,
    SessionPoller.modify, SessionPoller.emit, SessionPoller.state_of,
    SessionPoller.effects in *.

Ltac unfold_push :=
  unfold LabPiApp.step, LabPiApp.drop, LabPiApp.lab_pi_session_start,
    LabPiApp.lab_pi_session_end, LabPiApp.start_request,
    LabPiApp.MasterPiCommunicator.power_on_hardware,
    LabPiApp.MasterPiCommunicator.power_off_hardware,
    LabPiApp.bind, LabPiApp.ret, LabPiApp.gets, LabPiApp.modify, LabPiApp.emit,
    LabPiApp.state_of, LabPiApp.effects in *.

Lemma option_string_eqb_eq a b : option_string_eqb a b = true <-> a = b.
Proof.
  destruct a as [x|], b as [y|]; cbn; split; intros H;
    try discriminate; try reflexivity.
  - apply String.eqb_eq in H. congruence.
  - inversion H. apply String.eqb_refl.
Qed.

Lemma control_step_agree cfg env now pin c s p :
  LabPiApp.gpio_pin cfg = Some pin ->
  timely (now, c) = true ->
  agree s p -> poller_inv p ->
  agree (LabPiApp.state_of (LabPiApp.step cfg (push_event cfg now c) s))
        (SessionPoller.state_of
           (SessionPoller.poll env now (poll_answer c) GpioOk GpioOk p)) /\
  poller_inv (SessionPoller.state_of
                (SessionPoller.poll env now (poll_answer c) GpioOk GpioOk p)).
Proof.
  intros Hpin Ht (Hk & Ha & Hr) Hi. unfold agree, poller_inv in *.
  destruct s as [rg db ra act key st em hr rl hs hresp n].
  destruct p as [pk pe prun pr]. cbn in *. subst key act rl prun.
  destruct c as [k et|]; cbn [push_event poll_answer].
  - unfold_push. cbn. rewrite String.eqb_refl. cbn. rewrite Hpin. cbn.
    unfold_poller.
    destruct et as [| |t]; [|discriminate Ht|].
    + destruct pk as [k'|]; cbn.
      * destruct (k =? k')%string eqn:Heq; cbn.
        -- apply String.eqb_eq in Heq. subst k'. repeat split; reflexivity.
        -- repeat split; reflexivity.
      * destruct (SessionPoller.lgpio_imported env); cbn;
          [destruct (SessionPoller.usable_handle env); cbn|]; repeat split; reflexivity.
    + assert (Hlt : (t <=? now)%Z = false).
      { cbn in Ht. apply Z.ltb_lt in Ht. apply Z.leb_gt. exact Ht. }
      destruct pk as [k'|]; cbn -[Z.leb].
      * destruct (k =? k')%string eqn:Heq; cbn -[Z.leb]; rewrite Hlt; cbn.
        -- apply String.eqb_eq in Heq. subst k'. repeat split; reflexivity.
        -- repeat split; reflexivity.
      * destruct (SessionPoller.lgpio_imported env); cbn -[Z.leb];
          [destruct (SessionPoller.usable_handle env); cbn -[Z.leb]|];
          rewrite Hlt; cbn; repeat split; reflexivity.
  - unfold_push. cbn. rewrite Hpin. cbn.
    unfold_poller. cbn.
    destruct pk as [k'|]; cbn.
    + rewrite orb_true_r. cbn.
      destruct (SessionPoller.lgpio_imported env); cbn;
        [destruct (SessionPoller.usable_handle env); cbn|]; repeat split; reflexivity.
    + repeat split; reflexivity.
Qed.

(** A start whose end time has passed: the poller ends idle. *)
Lemma elapsed_start_leaves_poller_idle env now k t p :
  poller_inv p -> (t <= now)%Z ->
  SessionPoller.state_of
    (SessionPoller.poll env now (poll_answer (Start k (SessionPoller.EndAt t)))
       GpioOk GpioOk p) = SessionPoller.idle p.
Proof.
  intros Hi Ht. unfold poller_inv in Hi. apply Z.leb_le in Ht.
  destruct p as [pk pe prun pr]. cbn in Hi. subst prun.
  cbn [poll_answer]. unfold_poller. unfold SessionPoller.idle.
  destruct pk as [k'|]; cbn -[Z.leb].
  - destruct (k =? k')%string; cbn -[Z.leb]; rewrite Ht; cbn;
      destruct (SessionPoller.lgpio_imported env); cbn;
      try (destruct (SessionPoller.usable_handle env); cbn); reflexivity.
  - destruct (SessionPoller.lgpio_imported env); cbn -[Z.leb];
      [destruct (SessionPoller.usable_handle env); cbn -[Z.leb]|];
      rewrite Ht; cbn; rewrite ?E; cbn;
      try (destruct (SessionPoller.lgpio_imported env); cbn);
      try (destruct (SessionPoller.usable_handle env); cbn); reflexivity.
Qed.

(** C3 (as amended): the push surface and the poller are separate programs
    with separate state.  Fed the same sequence of control decisions (start
    with a key, stop), with the GPIO guard of the application on and writes
    that return, and with every end time absent or still ahead when the
    decision arrives, they end with the same session key, with
    [session_active] true exactly when the poller remembers a key, and with
    [relay_state] equal to [hardware_running].  A start whose end time has
    passed separates them: the application, which is given no end time, has
    the session active with the relay on, while the poller ends idle, with
    no key and the hardware off.  A start whose end time does not parse
    leaves the poller as it was, so the two agree afterwards only if the
    poller already remembered that key. *)
Theorem push_and_poll_agree cfg env cs :
  LabPiApp.gpio_pin cfg <> None ->
  (forallb timely cs = true ->
   agree (fst (run_push cfg cs LabPiApp.lab_state_init))
         (fst (run_poll env cs SessionPoller.poller_init))) /\
  (forall s p now k t, agree s p -> poller_inv p -> (t <= now)%Z ->
     let c := Start k (SessionPoller.EndAt t) in
     let s' := LabPiApp.state_of (LabPiApp.step cfg (push_event cfg now c) s) in
     let p' := SessionPoller.state_of
                 (SessionPoller.poll env now (poll_answer c) GpioOk GpioOk p) in
     LabPiApp.session_active s' = true /\
     LabPiApp.current_session_key s' = Some k /\
     LabPiApp.relay_state s' = true /\
     SessionPoller.current_session_key p' = None /\
     SessionPoller.hardware_running p' = false /\
     ~ agree s' p') /\
  (forall s p now k,
     let c := Start k SessionPoller.EndInvalid in
     let s' := LabPiApp.state_of (LabPiApp.step cfg (push_event cfg now c) s) in
     let p' := SessionPoller.state_of
                 (SessionPoller.poll env now (poll_answer c) GpioOk GpioOk p) in
     p' = p /\ LabPiApp.current_session_key s' = Some k /\
     (agree s' p' -> SessionPoller.current_session_key p = Some k)).
Proof.
  intros Hpin. destruct (LabPiApp.gpio_pin cfg) as [pin|] eqn:Hp; [|congruence].
  clear Hpin. split; [|split].
  - assert (Hgen : forall s p, forallb timely cs = true -> agree s p -> poller_inv p ->
              agree (fst (run_push cfg cs s)) (fst (run_poll env cs p))).
    { induction cs as [|[now c] cs IH]; intros s p Ht Ha Hi; [exact Ha|].
      cbn [forallb] in Ht. apply andb_prop in Ht as [Htc Hts].
      cbn [run_push run_poll].
      destruct (control_step_agree cfg env now pin c s p Hp Htc Ha Hi) as [Ha' Hi'].
      specialize (IH _ _ Hts Ha' Hi').
      destruct (run_push cfg cs _) as [s2 l2].
      destruct (run_poll env cs _) as [p2 m2]. exact IH. }
    intros Ht. apply Hgen; [exact Ht | repeat split; reflexivity | reflexivity].
  - intros s p now k t Ha Hi Ht. cbv zeta.
    rewrite (elapsed_start_leaves_poller_idle env now k t p Hi Ht).
    assert (Hs : LabPiApp.session_active
                   (LabPiApp.state_of (LabPiApp.step cfg
                      (push_event cfg now (Start k (SessionPoller.EndAt t))) s)) = true /\
                 LabPiApp.current_session_key
                   (LabPiApp.state_of (LabPiApp.step cfg
                      (push_event cfg now (Start k (SessionPoller.EndAt t))) s)) = Some k /\
                 LabPiApp.relay_state
                   (LabPiApp.state_of (LabPiApp.step cfg
                      (push_event cfg now (Start k (SessionPoller.EndAt t))) s)) = true).
    { destruct s as [rg db ra act key st em hr rl hs hresp n].
      cbn [push_event]. unfold_push. cbn. rewrite String.eqb_refl. cbn.
      rewrite Hp. cbn. repeat split; reflexivity. }
    destruct Hs as (Hact & Hkey & Hrel).
    repeat split; try assumption; try reflexivity.
    intros (Hk' & _ & _). rewrite Hkey in Hk'. cbn in Hk'. discriminate Hk'.
  - intros s p now k. cbv zeta.
    assert (Hp' : SessionPoller.state_of
                    (SessionPoller.poll env now
                       (poll_answer (Start k SessionPoller.EndInvalid)) GpioOk GpioOk p) = p).
    { destruct p as [pk pe prun pr]. reflexivity. }
    assert (Hkey : LabPiApp.current_session_key
                     (LabPiApp.state_of (LabPiApp.step cfg
                        (push_event cfg now (Start k SessionPoller.EndInvalid)) s)) = Some k).
    { destruct s as [rg db ra act key st em hr rl hs hresp n].
      cbn [push_event]. unfold_push. cbn. rewrite String.eqb_refl. cbn.
      rewrite Hp. reflexivity. }
    rewrite Hp'. split; [reflexivity|]. split; [exact Hkey|].
    intros (Hk' & _). rewrite Hkey in Hk'. symmetry. exact Hk'.
Qed.

Lemma push_and_poll_agree_witness :
  let cs := [(0%Z, Start "A" (SessionPoller.EndAt 100%Z));
             (5%Z, Start "B" SessionPoller.EndAbsent);
             (10%Z, Stop);
             (15%Z, Start "A" (SessionPoller.EndAt 100%Z))] in
  LabPiApp.gpio_pin LabPiApp.example_cfg <> None /\
  forallb timely cs = true /\
  agree (fst (run_push LabPiApp.example_cfg cs LabPiApp.lab_state_init))
        (fst (run_poll SessionPoller.example_env cs SessionPoller.poller_init)) /\
  LabPiApp.relay_state (fst (run_push LabPiApp.example_cfg cs LabPiApp.lab_state_init))
    = true.
Proof.
  cbv zeta.
  assert (H : LabPiApp.gpio_pin LabPiApp.example_cfg <> None) by (cbv; discriminate).
  split; [exact H|]. split; [reflexivity|]. split; [|reflexivity].
  apply (proj1 (push_and_poll_agree LabPiApp.example_cfg SessionPoller.example_env
           [(0%Z, Start "A" (SessionPoller.EndAt 100%Z));
            (5%Z, Start "B" SessionPoller.EndAbsent);
            (10%Z, Stop);
            (15%Z, Start "A" (SessionPoller.EndAt 100%Z))] H)).
  reflexivity.
Defined.

(** C3 (as stated) fails: for the single decision "start session A" the push
    path calls [gpio_write(26, 1)] and the poller calls
    [gpio_write(handle, 26, 0)]; for "stop" the push path writes 0 and the
    poller writes 1.  The calls are different and so are the levels. *)
Lemma push_and_poll_write_differently :
  let cs := [(0%Z, Start "A" SessionPoller.EndAbsent); (5%Z, Stop)] in
  let push := snd (run_push LabPiApp.example_cfg cs LabPiApp.lab_state_init) in
  let poll := snd (run_poll SessionPoller.example_env cs SessionPoller.poller_init) in
  push_writes push = [[26; 1]; [26; 0]]%Z /\
  poll_writes poll = [[1; 26; 0]; [1; 26; 1]]%Z /\
  List.map level (push_writes push) = [1; 0]%Z /\
  List.map level (poll_writes poll) = [0; 1]%Z /\
  push_writes push <> poll_writes poll /\
  List.map level (push_writes push) <> List.map level (poll_writes poll).
Proof.
  cbv zeta. repeat split; try reflexivity; cbv; discriminate.
Qed.

End ConvergenceProperties.

(* ===================================================================== *)
(** ** Properties of audio_capture.py                                     *)
(* ===================================================================== *)

Section AudioProperties.

Import AudioCapture.

Variable Raw : Type.
Variable Text : Type.
Variable b64 : Raw -> Text.

Abbreviation Queue := (AudioCapture.Queue Text).
Abbreviation capture_loop := (AudioCapture.capture_loop Raw Text b64).
Abbreviation capture_iter := (AudioCapture.capture_iter Raw Text b64).
Abbreviation send_loop := (AudioCapture.send_loop Text).
Abbreviation send_iter := (AudioCapture.send_iter Text).
Abbreviation posted := (AudioCapture.posted Text).
Abbreviation pipeline := (AudioCapture.pipeline Raw Text b64).
Abbreviation captured := (AudioCapture.captured Raw Text b64).
Abbreviation Subseq := (AudioCapture.Subseq Text).

(** Reading frames into a queue with room for [maxsize - length q] more. *)
Lemma capture_reads (fs : list Raw) :
  forall q : Queue, List.length q <= maxsize ->
    capture_loop (List.map Read fs) q =
      ((q ++ List.firstn (maxsize - List.length q) (List.map b64 fs))%list, []).
Proof.
  induction fs as [|f fs IH]; intros q Hq; cbn [List.map AudioCapture.capture_loop].
  - rewrite List.firstn_nil, List.app_nil_r. reflexivity.
  - unfold AudioCapture.capture_iter, put.
    destruct (List.length q <? maxsize) eqn:Hlt.
    + apply Nat.ltb_lt in Hlt.
      rewrite IH by (rewrite List.length_app; cbn; lia).
      rewrite List.length_app. cbn [List.length].
      replace (maxsize - List.length q) with (S (maxsize - (List.length q + 1))) by lia.
      cbn [List.firstn]. rewrite <- List.app_assoc. reflexivity.
    + apply Nat.ltb_ge in Hlt.
      rewrite IH by exact Hq.
      replace (maxsize - List.length q) with 0 by lia.
      reflexivity.
Qed.

(** The sender takes frames from the front, one POST per frame taken. *)
Lemma send_drains (os : list PostOutcome) :
  forall q : Queue,
    fst (send_loop os q) = List.skipn (List.length os) q /\
    posted (snd (send_loop os q)) = List.firstn (List.length os) q.
Proof.
  induction os as [|o os IH]; intros q; cbn [AudioCapture.send_loop List.length].
  - split; reflexivity.
  - unfold AudioCapture.send_iter, get. destruct q as [|a q'].
    + specialize (IH (@nil Text)). destruct (send_loop os []) as [q2 l2].
      cbn [fst snd] in *. destruct IH as [IH1 IH2].
      rewrite List.skipn_nil in IH1. rewrite List.firstn_nil in IH2.
      cbn. split; assumption.
    + specialize (IH q').
      destruct o; cbn [fst snd]; destruct (send_loop os q') as [q2 l2];
        cbn [fst snd] in *; destruct IH as [IH1 IH2];
        cbn; rewrite IH2; split; (exact IH1 || reflexivity).
Qed.

Lemma pass_bounded p (q : Queue) :
  List.length q <= maxsize ->
  List.length (fst (AudioCapture.pass Raw Text b64 p q)) <= maxsize.
Proof.
  intros Hq. destruct p as [[| |d]|o]; cbn; try exact Hq.
  - unfold put. destruct (List.length q <? maxsize) eqn:Hlt; cbn; [|exact Hq].
    apply Nat.ltb_lt in Hlt. rewrite List.length_app. cbn. lia.
  - unfold AudioCapture.send_iter, get. destruct q as [|a q']; [exact Hq|].
    cbn in Hq. destruct o; cbn; lia.
Qed.

(** X21: under any interleaving of the two loops the queue never holds more than
    [maxsize] frames. *)
Lemma pipeline_bounded ps :
  forall q : Queue, List.length q <= maxsize ->
    List.length (fst (pipeline ps q)) <= maxsize.
Proof.
  induction ps as [|p ps IH]; intros q Hq; cbn [AudioCapture.pipeline]; [exact Hq|].
  pose proof (pass_bounded p q Hq) as Hp.
  destruct (AudioCapture.pass Raw Text b64 p q) as [q1 l1]. cbn [fst] in Hp.
  specialize (IH q1 Hp). destruct (pipeline ps q1) as [q2 l2]. exact IH.
Qed.

Lemma Subseq_refl (l : list Text) : Subseq l l.
Proof. induction l; constructor; assumption. Qed.

Lemma Subseq_insert (a : list Text) :
  forall l c x, Subseq l (a ++ c) -> Subseq l (a ++ x :: c).
Proof.
  induction a as [|y a IH]; intros l c x H; cbn in *.
  - constructor. exact H.
  - inversion H; subst.
    + apply Subseq_skip. apply IH. assumption.
    + apply Subseq_take. apply IH. assumption.
Qed.

(** X22: under any interleaving, the frames posted so far followed by the frames
    still queued are the frames that entered, in their order, with some left
    out: nothing is posted twice and nothing overtakes. *)
Lemma pipeline_fifo ps :
  forall q : Queue,
    Subseq (posted (snd (pipeline ps q)) ++ fst (pipeline ps q)) (q ++ captured ps).
Proof.
  induction ps as [|p ps IH]; intros q; cbn [AudioCapture.pipeline AudioCapture.captured].
  - cbn. rewrite List.app_nil_r. apply Subseq_refl.
  - destruct p as [[| |d]|o]; cbn [AudioCapture.pass].
    + cbn. specialize (IH q). destruct (pipeline ps q) as [q2 l2]. exact IH.
    + cbn. specialize (IH q). destruct (pipeline ps q) as [q2 l2]. exact IH.
    + unfold AudioCapture.capture_iter, put.
      destruct (List.length q <? maxsize).
      * specialize (IH (q ++ [b64 d])%list).
        destruct (pipeline ps (q ++ [b64 d])%list) as [q2 l2].
        cbn [fst snd List.app] in *. rewrite <- List.app_assoc in IH. exact IH.
      * specialize (IH q). destruct (pipeline ps q) as [q2 l2].
        cbn [fst snd List.app] in *. apply Subseq_insert. exact IH.
    + unfold AudioCapture.send_iter, get. destruct q as [|a q'].
      * specialize (IH (@nil Text)). destruct (pipeline ps []) as [q2 l2].
        cbn in *. exact IH.
      * specialize (IH q').
        destruct o; cbn [fst snd]; destruct (pipeline ps q') as [q2 l2];
          cbn in *; apply AudioCapture.Subseq_take; exact IH.
Qed.

(** C9: the capture loop reads the frames [fs] while the sender takes
    nothing, starting from the empty queue.  Every pass returns, no error is
    reported, the queue holds the first 10 encoded frames and the others are
    gone.  When the sender then runs [length os] passes, it issues one POST
    for each of the first [length os] queued frames, in queue order,
    whatever the outcome of each POST; after at least 10 passes the posted
    frames are exactly the first 10 encoded frames and the queue is empty. *)
Theorem audio_backpressure (fs : list Raw) (os : list PostOutcome) :
  let c := capture_loop (List.map Read fs) [] in
  let s := send_loop os (fst c) in
  fst c = List.firstn 10 (List.map b64 fs) /\
  List.length (fst c) <= 10 /\
  List.length (fst c) = Nat.min 10 (List.length fs) /\
  snd c = [] /\
  posted (snd s) = List.firstn (List.length os) (fst c) /\
  fst s = List.skipn (List.length os) (fst c) /\
  (10 <= List.length os ->
     posted (snd s) = List.firstn 10 (List.map b64 fs) /\ fst s = []).
Proof.
  cbv zeta.
  rewrite (capture_reads fs []) by (cbn; unfold maxsize; lia).
  cbn [fst snd List.app List.length]. change (maxsize - 0) with 10.
  destruct (send_drains os (List.firstn 10 (List.map b64 fs))) as [Hq Hp].
  assert (Hlen : List.length (List.firstn 10 (List.map b64 fs)) = Nat.min 10 (List.length fs)).
  { rewrite List.length_firstn, List.length_map. reflexivity. }
  repeat split; try assumption.
  - rewrite Hlen. lia.
  - rewrite Hp. apply List.firstn_all2. rewrite Hlen. lia.
  - rewrite Hq. apply List.skipn_all2. rewrite Hlen. lia.
Qed.

End AudioProperties.

Lemma audio_backpressure_witness :
  let fs := [1; 2; 3; 4; 5; 6; 7; 8; 9; 10; 11; 12; 13] in
  let os := [AudioCapture.PostReturns; AudioCapture.PostRequestException; AudioCapture.PostReturns; AudioCapture.PostReturns;
             AudioCapture.PostOtherException; AudioCapture.PostReturns; AudioCapture.PostReturns; AudioCapture.PostReturns;
             AudioCapture.PostReturns; AudioCapture.PostReturns; AudioCapture.PostReturns] in
  10 <= List.length os /\
  AudioCapture.posted nat
    (snd (AudioCapture.send_loop nat os
            (fst (AudioCapture.capture_loop nat nat S (List.map AudioCapture.Read fs) []))))
    = [2; 3; 4; 5; 6; 7; 8; 9; 10; 11].
Proof.
  cbv zeta. split; [cbn; lia|].
  apply (audio_backpressure nat nat S
           [1; 2; 3; 4; 5; 6; 7; 8; 9; 10; 11; 12; 13]
           [AudioCapture.PostReturns; AudioCapture.PostRequestException; AudioCapture.PostReturns; AudioCapture.PostReturns;
            AudioCapture.PostOtherException; AudioCapture.PostReturns; AudioCapture.PostReturns; AudioCapture.PostReturns;
            AudioCapture.PostReturns; AudioCapture.PostReturns; AudioCapture.PostReturns]).
  cbn; lia.
Defined.

(* ===================================================================== *)
(** ** Further properties of lab_pi_app.py                                *)
(* ===================================================================== *)

Section AppFurther.

Import LabPiApp.
Import LabPiApp.MasterPiCommunicator.
Local Open Scope lab_scope.

Ltac inner_free x :=
  lazymatch x with
  | context [match _ with _ => _ end] => fail
  | _ => idtac
  end.

Ltac case_next :=
  match goal with
  | |- context [match ?x with _ => _ end] => is_var x; destruct x
  | |- context [match ?x with _ => _ end] =>
      inner_free x; let E := fresh "E" in destruct x eqn:E
  end.

Ltac open_ops :=
  unfold step, drop, heartbeat_thread, session_monitor_thread, api_end_session,
    lab_pi_session_start, lab_pi_session_end, relay_on, relay_off, relay_status,
    LabPiApp.end_session, MasterPiCommunicator.end_session,
    heartbeat, heartbeat_except, handle_new_session, register,
    power_on_hardware, power_off_hardware, authorized_start,
    bind, ret, gets, modify, emit, state_of, effects, result in *.

Ltac cases := open_ops; cbn; repeat (case_next; cbn); try easy.

Lemma run_effects_cons cfg e es s :
  effects (run cfg (e :: es) s) =
  (effects (step cfg e s) ++ effects (run cfg es (state_of (step cfg e s))))%list.
Proof.
  cbn [run]. unfold bind, state_of, effects.
  destruct (step cfg e s) as [[u s1] l1]. cbn.
  destruct (run cfg es s1) as [[u2 s2] l2]. reflexivity.
Qed.

(** X1: an iteration of the heartbeat loop on a node that is not registered
    posts the registration and nothing else: no heartbeat is sent, and the
    state changes only if the registration is accepted. *)
Theorem unregistered_node_only_registers cfg now hb g reg s :
  registered s = false ->
  let r := heartbeat_thread cfg now hb g reg s in
  effects r = [Print NotRegistered; PostRegister] /\
  (reg_accepted reg = false -> state_of r = s) /\
  (reg_accepted reg = true -> registered (state_of r) = true) /\
  heartbeat_failures (state_of r) = heartbeat_failures s /\
  session_active (state_of r) = session_active s /\
  relay_state (state_of r) = relay_state s.
Proof.
  intros Hr. destruct s as [rg db ra act key st em hr rl hs hresp n].
  cbn in Hr. subst rg. cbv zeta.
  destruct reg as [|code [[|id]|]]; open_ops; cbn;
    try destruct (code =? 200)%Z; cbn; repeat split; intros; congruence.
Qed.

Lemma unregistered_node_only_registers_witness :
  registered lab_state_init = false /\
  effects (heartbeat_thread example_cfg 0%Z (Status 200 None) GpioOk
             (Status 500 None) lab_state_init) = [Print NotRegistered; PostRegister].
Proof.
  split; [reflexivity|].
  apply (unregistered_node_only_registers example_cfg 0%Z (Status 200 None) GpioOk
           (Status 500 None) lab_state_init eq_refl).
Defined.

(** X2: a registered node loses [registered] in one way only: a heartbeat
    iteration in which the heartbeat returns [False], the failure count is at
    least 5 afterwards, and the registration that follows is not accepted. *)
Theorem registration_lost_only_by_failed_reregistration cfg e s :
  registered s = true ->
  registered (state_of (step cfg e s)) = false ->
  match e with
  | HeartbeatIter now hb g reg =>
      result (heartbeat cfg now hb g s) = false /\
      5 <= heartbeat_failures (state_of (step cfg e s)) /\
      reg_accepted reg = false
  | _ => False
  end.
Proof.
  intros Hr. destruct s as [rg db ra act key st em hr rl hs hresp n].
  cbn in Hr. subst rg.
  destruct e; try (cases; fail).
  destruct reg as [|code [[|id]|]]; open_ops; cbn;
    repeat (case_next; cbn); intros H; try discriminate H;
    repeat split; try reflexivity; lia.
Qed.

Lemma registration_lost_only_by_failed_reregistration_witness :
  let s := registered_with_failures 4 in
  let e := HeartbeatIter 0%Z TransportError GpioOk TransportError in
  registered s = true /\ registered (state_of (step example_cfg e s)) = false /\
  5 <= heartbeat_failures (state_of (step example_cfg e s)).
Proof.
  cbv zeta. split; [reflexivity|]. split; [reflexivity|].
  apply (registration_lost_only_by_failed_reregistration example_cfg
           (HeartbeatIter 0%Z TransportError GpioOk TransportError)
           (registered_with_failures 4) eq_refl eq_refl).
Defined.

(** X3: a heartbeat whose exchange fails (the call raises or the status is
    not 200) changes nothing but the failure count, and the payload it sent
    carries the session and relay fields as they were.  A heartbeat can
    return [False] and still have switched [session_active] on: status 200
    with a new session whose [session] entry is not an object; the key, the
    start time and the relay are then left as they were. *)
Theorem heartbeat_failure_modes cfg now g s :
  (forall hb, hb_failed hb = true ->
     heartbeat cfg now hb g s =
       (false, set_heartbeat_failures (S (heartbeat_failures s)) s,
        [PostHeartbeat (session_active s) (current_session_key s)
           (relay_state s) (hardware_ready s)])) /\
  (let r := heartbeat cfg now (Status 200 (Some (HbDict true (Some SessionNotDict)))) g s in
   result r = false /\ session_active (state_of r) = true /\
   heartbeat_failures (state_of r) = 1 /\
   current_session_key (state_of r) = current_session_key s /\
   session_start_time (state_of r) = session_start_time s /\
   relay_state (state_of r) = relay_state s /\
   gpio_writes (effects r) = []).
Proof.
  destruct s as [rg db ra act key st em hr rl hs hresp n]. split.
  - intros hb H. destruct hb as [|code json]; cbn in H; [reflexivity|].
    apply negb_true_iff in H. open_ops; cbn. rewrite H. reflexivity.
  - cbv zeta. repeat split; reflexivity.
Qed.

Lemma heartbeat_failure_modes_witness :
  hb_failed (Status 503 None) = true /\
  state_of (heartbeat example_cfg 0%Z (Status 503 None) GpioOk (registered_with_failures 2))
    = registered_with_failures 3.
Proof.
  split; [reflexivity|].
  rewrite (proj1 (heartbeat_failure_modes example_cfg 0%Z GpioOk
                    (registered_with_failures 2)) (Status 503 None) eq_refl).
  reflexivity.
Defined.

Lemma step_keeps_cleared cfg e s :
  (session_active s = false -> session_cleared s) ->
  session_active (state_of (step cfg e s)) = false ->
  session_cleared (state_of (step cfg e s)).
Proof.
  unfold session_cleared.
  destruct s as [rg db ra act key st em hr rl hs hresp n]. cbn [session_active
    current_session_key session_start_time user_email].
  intros H. destruct act.
  - clear H. destruct e; cases; intros; repeat split; congruence.
  - destruct (H eq_refl) as (_ & Hk & Hs & He). subst key st em. clear H.
    destruct e; cases; intros; repeat split; congruence.
Qed.

(** X4: in every state reached from start-up, when [session_active] is false
    the key, the start time and the user of the session are all [None]. *)
Theorem inactive_session_is_cleared cfg es :
  session_active (state_of (run cfg es lab_state_init)) = false ->
  session_cleared (state_of (run cfg es lab_state_init)).
Proof.
  assert (Hgen : forall s, (session_active s = false -> session_cleared s) ->
            session_active (state_of (run cfg es s)) = false ->
            session_cleared (state_of (run cfg es s))).
  { induction es as [|e es IH]; intros s Hs; [exact Hs|].
    rewrite run_cons_state. apply IH. apply step_keeps_cleared. exact Hs. }
  apply Hgen. intros _. repeat split; reflexivity.
Qed.

Lemma inactive_session_is_cleared_witness :
  let es := [SessionStart 0%Z (start_request "lab-001" (Some "A")) GpioOk;
             ApiEndSession GpioRaises] in
  session_active (state_of (run example_cfg es lab_state_init)) = false /\
  session_cleared (state_of (run example_cfg es lab_state_init)).
Proof.
  cbv zeta. split; [reflexivity|].
  apply (inactive_session_is_cleared example_cfg
           [SessionStart 0%Z (start_request "lab-001" (Some "A")) GpioOk;
            ApiEndSession GpioRaises]).
  reflexivity.
Defined.

Lemma gpio_writes_app l1 l2 :
  gpio_writes (l1 ++ l2) = (gpio_writes l1 ++ gpio_writes l2)%list.
Proof.
  induction l1 as [|e l1 IH]; [reflexivity|].
  destruct e; cbn; rewrite IH; reflexivity.
Qed.

Lemma step_writes cfg e s :
  Forall (relay_write cfg) (gpio_writes (effects (step cfg e s))) /\
  List.length (gpio_writes (effects (step cfg e s))) <= 1.
Proof.
  destruct s as [rg db ra act key st em hr rl hs hresp n].
  unfold relay_write.
  destruct (gpio_pin cfg) as [pin|] eqn:Hpin;
    destruct e; open_ops; cbn; rewrite ?Hpin; cbn;
    repeat (case_next; cbn; rewrite ?Hpin; cbn);
    split; try lia; repeat constructor; eauto.
Qed.

(** X5: whatever the events, every GPIO write of the application is
    [gpio_write(pin, 0)] or [gpio_write(pin, 1)] with [pin] the configured
    relay pin that passed the guard, and one event makes at most one
    write. *)
Theorem only_relay_pin_is_written cfg es s :
  Forall (relay_write cfg) (gpio_writes (effects (run cfg es s))) /\
  (forall e, List.length (gpio_writes (effects (step cfg e s))) <= 1).
Proof.
  split; [|intros e; apply step_writes].
  revert s. induction es as [|e es IH]; intros s; [constructor|].
  rewrite run_effects_cons, gpio_writes_app. apply Forall_app. split.
  - apply step_writes.
  - apply IH.
Qed.

Lemma step_guard_off cfg e s :
  gpio_pin cfg = None ->
  gpio_writes (effects (step cfg e s)) = [] /\
  relay_state (state_of (step cfg e s)) = relay_state s.
Proof.
  intros Hpin. destruct s as [rg db ra act key st em hr rl hs hresp n].
  destruct e; open_ops; cbn; rewrite ?Hpin; cbn;
    repeat (case_next; cbn; rewrite ?Hpin; cbn); split; reflexivity.
Qed.

(** X6: when the guard [lgpio and RELAY_PIN] is off (the import failed, or
    the pin is missing or 0), no sequence of events makes a GPIO write and
    [relay_state] never changes; the relay routes still answer success. *)
Theorem guard_off_never_writes cfg es s :
  gpio_pin cfg = None ->
  gpio_writes (effects (run cfg es s)) = [] /\
  relay_state (state_of (run cfg es s)) = relay_state s /\
  (session_active s = true ->
   forall g, result (relay_on cfg g s) = Json 200 (BRelay true true) /\
             result (relay_off cfg g s) = Json 200 (BRelay false true)).
Proof.
  intros Hpin. split; [|split].
  - revert s. induction es as [|e es IH]; intros s; [reflexivity|].
    rewrite run_effects_cons, gpio_writes_app, IH.
    rewrite (proj1 (step_guard_off cfg e s Hpin)). reflexivity.
  - revert s. induction es as [|e es IH]; intros s; [reflexivity|].
    rewrite run_cons_state, IH. apply step_guard_off. exact Hpin.
  - intros Ha g. destruct s as [rg db ra act key st em hr rl hs hresp n].
    cbn in Ha. subst act. open_ops; cbn. rewrite Hpin. split; reflexivity.
Qed.

Lemma guard_off_never_writes_witness :
  let es := [SessionStart 0%Z (start_request "lab-001" (Some "A")) GpioOk;
             RelayOn GpioOk; SessionEnd (Some None) GpioOk] in
  gpio_pin no_gpio_cfg = None /\
  gpio_writes (effects (run no_gpio_cfg es lab_state_init)) = [] /\
  relay_state (state_of (run no_gpio_cfg es lab_state_init)) = false.
Proof.
  cbv zeta. split; [reflexivity|].
  pose proof (guard_off_never_writes no_gpio_cfg
    [SessionStart 0%Z (start_request "lab-001" (Some "A")) GpioOk;
     RelayOn GpioOk; SessionEnd (Some None) GpioOk] lab_state_init eq_refl) as H.
  destruct H as (Hw & Hr & _). split; [exact Hw | exact Hr].
Defined.

(** X7: a pass of the timeout monitor does nothing at all when no session is
    active, when no start time is recorded, or when at most 3600 s have
    passed since the start (3600 s exactly included). *)
Theorem monitor_idle_within_limit cfg now g s :
  (session_active s = false \/ session_start_time s = None \/
   exists t0, session_start_time s = Some t0 /\ (now - t0 <= seconds 3600)%Z) ->
  session_monitor_thread cfg now g s = (tt, s, []).
Proof.
  intros H. unfold session_monitor_thread, bind, gets, ret.
  cbn -[LabPiApp.end_session Z.gtb seconds max_duration Z.sub].
  destruct H as [H|[H|(t0 & H & Hle)]].
  - rewrite H. reflexivity.
  - rewrite H. destruct (session_active s); reflexivity.
  - rewrite H. destruct (session_active s); [|reflexivity].
    assert (Hgt : (now - t0 >? seconds max_duration)%Z = false).
    { rewrite Z.gtb_ltb. apply Z.ltb_ge. unfold max_duration.
      change (60 * 60)%Z with 3600%Z. exact Hle. }
    rewrite Hgt. reflexivity.
Qed.

Lemma monitor_idle_within_limit_witness :
  let s := state_of (run example_cfg
             [SessionStart 0%Z (start_request "lab-001" (Some "A")) GpioOk]
             lab_state_init) in
  session_active s = true /\
  session_monitor_thread example_cfg (seconds 3600) GpioOk s = (tt, s, []).
Proof.
  cbv zeta. split; [reflexivity|].
  apply (monitor_idle_within_limit example_cfg (seconds 3600) GpioOk).
  right. right. exists 0%Z. split; [reflexivity|]. unfold seconds. lia.
Defined.

Lemma option_string_eqb_false a b : a <> b -> option_string_eqb a b = false.
Proof.
  intros H. destruct a as [x|], b as [y|]; cbn; try reflexivity.
  - destruct (String.eqb_spec x y); [subst; congruence | reflexivity].
  - congruence.
Qed.

(** A session-start request whose [X-Lab-Pi-Id] header is missing or
    differs from the node id is answered 401 and changes nothing; with the
    right id but a body that does not decode, the view fails before any
    field is written. *)
Theorem session_start_rejected cfg now req g s :
  (x_lab_pi_id req <> Some (lab_pi_id cfg) ->
   lab_pi_session_start cfg now req g s =
     (Json 401 (BError "Invalid Lab Pi ID"), s, [])) /\
  (x_lab_pi_id req = Some (lab_pi_id cfg) -> start_body req = None ->
   lab_pi_session_start cfg now req g s = (FrameworkError, s, [])).
Proof.
  split.
  - intros H. unfold lab_pi_session_start.
    rewrite (option_string_eqb_false _ _ H). reflexivity.
  - intros H Hb. unfold lab_pi_session_start. rewrite H, Hb.
    cbn. rewrite String.eqb_refl. reflexivity.
Qed.

Lemma session_start_rejected_witness :
  let req := start_request "lab-002" (Some "A") in
  x_lab_pi_id req <> Some (lab_pi_id example_cfg) /\
  lab_pi_session_start example_cfg 0%Z req GpioOk lab_state_init =
    (Json 401 (BError "Invalid Lab Pi ID"), lab_state_init, []).
Proof.
  cbv zeta.
  assert (H : x_lab_pi_id (start_request "lab-002" (Some "A"))
              <> Some (lab_pi_id example_cfg)) by (cbv; discriminate).
  split; [exact H|].
  apply (proj1 (session_start_rejected example_cfg 0%Z
                  (start_request "lab-002" (Some "A")) GpioOk lab_state_init) H).
Defined.

(** X8: an accepted session-start replaces whatever session was there: the
    state afterwards is the one reached from the same state with the session
    fields cleared, the Master is not notified about the old session and
    [power_off_hardware] is not called. *)
Theorem session_start_replaces cfg now key email g s :
  let r := lab_pi_session_start cfg now (authorized_start cfg key email) g s in
  state_of r =
    state_of (lab_pi_session_start cfg now (authorized_start cfg key email) g
                (clear_session s)) /\
  current_session_key (state_of r) = key /\
  user_email (state_of r) = email /\
  List.filter is_post_session_end (effects r) = [] /\
  power_off_calls (effects r) = 0.
Proof.
  cbv zeta. destruct s as [rg db ra act k0 st em hr rl hs hresp n].
  unfold lab_pi_session_start, authorized_start, clear_session, power_off_calls.
  cbn. rewrite String.eqb_refl. open_ops; cbn.
  destruct (gpio_pin cfg); cbn; [destruct g; cbn|]; repeat split; reflexivity.
Qed.

(** X9: the local end endpoint answers success for an active session that
    has no key (or an empty one), although nothing was ended: the state is
    the same and nothing was done. *)
Theorem api_end_session_keyless_reports_success cfg g s :
  session_active s = true ->
  truthy (current_session_key s) = false ->
  api_end_session cfg g s = (Json 200 BSuccess, s, []).
Proof.
  intros Ha Hk. unfold api_end_session, bind, gets, ret.
  cbn -[LabPiApp.end_session]. rewrite Ha. cbn -[LabPiApp.end_session].
  rewrite (end_session_no_key cfg g s Hk). reflexivity.
Qed.

Lemma api_end_session_keyless_reports_success_witness :
  let s := state_of (run example_cfg
             [SessionStart 0%Z (start_request "lab-001" (Some "")) GpioOk]
             lab_state_init) in
  session_active s = true /\ relay_state s = true /\
  api_end_session example_cfg GpioOk s = (Json 200 BSuccess, s, []).
Proof.
  cbv zeta. split; [reflexivity|]. split; [reflexivity|].
  apply (api_end_session_keyless_reports_success example_cfg GpioOk); reflexivity.
Defined.

(** X10: the relay routes.  Without an active session both answer 403 and
    neither writes nor changes anything.  With one, [relay_state] takes the
    requested value exactly when the guard is on and the write returns; a
    write that raises is answered 500 and leaves [relay_state] alone, and so
    does the simulated success given when the guard is off, so that
    /api/relay/status then still reports the old value. *)
Theorem relay_routes cfg g s :
  (session_active s = false ->
   relay_on cfg g s = (Json 403 (BError "No active session"), s, []) /\
   relay_off cfg g s = (Json 403 (BError "No active session"), s, [])) /\
  (session_active s = true ->
   state_of (relay_on cfg g s) = set_relay_state (relay_after cfg g true s) s /\
   state_of (relay_off cfg g s) = set_relay_state (relay_after cfg g false s) s /\
   (forall pin, gpio_pin cfg = Some pin -> g = GpioRaises ->
      result (relay_on cfg g s) = Json 500 BDriverError /\
      result (relay_off cfg g s) = Json 500 BDriverError) /\
   (gpio_pin cfg = None ->
      result (relay_on cfg g s) = Json 200 (BRelay true true) /\
      result (relay_status (state_of (relay_on cfg g s))) = relay_state s)).
Proof.
  destruct s as [rg db ra act key st em hr rl hs hresp n]. cbn [session_active].
  split; intros Ha; subst act.
  - split; reflexivity.
  - unfold relay_after. open_ops; cbn.
    destruct (gpio_pin cfg) as [pin|]; cbn; [destruct g; cbn|];
      repeat split; intros; try reflexivity; congruence.
Qed.

Lemma relay_routes_witness :
  session_active lab_state_init = false /\
  relay_on example_cfg GpioOk lab_state_init =
    (Json 403 (BError "No active session"), lab_state_init, []).
Proof.
  split; [reflexivity|].
  apply (proj1 (relay_routes example_cfg GpioOk lab_state_init) eq_refl).
Defined.

(** X11: an assignment delivered in a heartbeat answer and the same
    assignment pushed by session-start do the same thing: from any state,
    [handle_new_session] leaves the state and performs the effects of an
    accepted [lab_pi_session_start] with that key and user. *)
Theorem heartbeat_assignment_equals_push_start cfg now key email g s :
  let r := lab_pi_session_start cfg now (authorized_start cfg key email) g s in
  handle_new_session cfg now (SessionDict key email) g s =
    (true, state_of r, effects r).
Proof.
  cbv zeta. destruct s as [rg db ra act k0 st em hr rl hs hresp n].
  unfold lab_pi_session_start, authorized_start. cbn.
  rewrite String.eqb_refl. open_ops; cbn.
  destruct (gpio_pin cfg); cbn; [destruct g; cbn|]; reflexivity.
Qed.

(** X12: with a non-empty key, the local [end_session] and the Master-push
    [lab_pi_session_end] leave the same state; the local one does what the
    push one does after first notifying the Master with the current key. *)
Theorem local_end_equals_push_end_plus_notice cfg g body s :
  truthy (current_session_key s) = true ->
  state_of (LabPiApp.end_session cfg g s) =
    state_of (lab_pi_session_end cfg (Some body) g s) /\
  effects (LabPiApp.end_session cfg g s) =
    PostSessionEnd (current_session_key s) ::
      effects (lab_pi_session_end cfg (Some body) g s).
Proof.
  intros Hk. destruct s as [rg db ra act k0 st em hr rl hs hresp n].
  cbn in Hk. open_ops; cbn. rewrite Hk. cbn.
  destruct (gpio_pin cfg); cbn; [destruct g; cbn|]; split; reflexivity.
Qed.

Lemma local_end_equals_push_end_plus_notice_witness :
  let s := state_of (run example_cfg
             [SessionStart 0%Z (start_request "lab-001" (Some "A")) GpioOk]
             lab_state_init) in
  truthy (current_session_key s) = true /\
  state_of (LabPiApp.end_session example_cfg GpioOk s) =
    state_of (lab_pi_session_end example_cfg (Some None) GpioOk s).
Proof.
  cbv zeta. split; [reflexivity|].
  apply (local_end_equals_push_end_plus_notice example_cfg GpioOk None). reflexivity.
Defined.

(** X13: start followed by end is a round trip.  From a state with no
    session and the relay off, an accepted session-start followed by a
    session-end whose GPIO write returns gives back the state exactly,
    whatever the key and whatever the write at start did. *)
Theorem start_then_end_restores cfg now key email g body s :
  session_cleared s ->
  relay_state s = false ->
  state_of (lab_pi_session_end cfg (Some body) GpioOk
    (state_of (lab_pi_session_start cfg now (authorized_start cfg key email) g s))) = s.
Proof.
  intros (Ha & Hk & Hs & He) Hr.
  destruct s as [rg db ra act k0 st em hr rl hs hresp n]. cbn in *. subst.
  unfold lab_pi_session_start, authorized_start. cbn.
  rewrite String.eqb_refl. open_ops; cbn.
  destruct (gpio_pin cfg); cbn; [destruct g; cbn|]; reflexivity.
Qed.

Lemma start_then_end_restores_witness :
  session_cleared lab_state_init /\ relay_state lab_state_init = false /\
  state_of (lab_pi_session_end example_cfg (Some (Some "A")) GpioOk
    (state_of (lab_pi_session_start example_cfg 5%Z
                 (authorized_start example_cfg (Some "A") None) GpioOk
                 lab_state_init))) = lab_state_init.
Proof.
  assert (Hc : session_cleared lab_state_init) by (repeat split; reflexivity).
  split; [exact Hc|]. split; [reflexivity|].
  apply (start_then_end_restores example_cfg 5%Z (Some "A") None GpioOk (Some "A")
           lab_state_init Hc eq_refl).
Defined.

Lemma fmt02d_two_chars z : (0 <= z < 60)%Z -> String.length (fmt02d z) = 2.
Proof.
  intros H.
  assert (E : exists n, n < 60 /\ z = Z.of_nat n) by (exists (Z.to_nat z); lia).
  destruct E as (n & Hn & ->).
  do 60 (destruct n as [|n]; [reflexivity|]). lia.
Qed.

Section UptimeArithmetic.
Local Open Scope Z_scope.

Lemma round_half_even_cases n d :
  0 < d ->
  round_half_even n d = n / d \/
  (round_half_even n d = n / d + 1 /\ d <= 2 * (n mod d)).
Proof.
  intros Hd. unfold round_half_even.
  destruct (2 * (n mod d) <? d) eqn:E1; [left; reflexivity|].
  apply Z.ltb_ge in E1.
  destruct (d <? 2 * (n mod d)) eqn:E2; [right; split; [reflexivity | lia]|].
  destruct (Z.even (n / d)); [left; reflexivity | right; split; [reflexivity | lia]].
Qed.

(** With a grid of at least 2^19 points per second, rounding a microsecond
    count never reaches the next whole second. *)
Lemma scaled_rounding_keeps_seconds n P :
  0 <= n -> 524288 <= P ->
  round_half_even (n * P) 1000000 / P = n / 1000000.
Proof.
  intros Hn HP.
  pose proof (Z.div_mod n 1000000 ltac:(lia)) as Hnd.
  pose proof (Z.mod_pos_bound n 1000000 ltac:(lia)) as Hr.
  pose proof (Z.div_mod (n * P) 1000000 ltac:(lia)) as Hq.
  pose proof (Z.mod_pos_bound (n * P) 1000000 ltac:(lia)) as Hrem.
  set (N := n / 1000000) in *. set (r := n mod 1000000) in *.
  set (q := n * P / 1000000) in *. set (rem := (n * P) mod 1000000) in *.
  assert (HnP : n * P = 1000000 * (N * P) + r * P) by (rewrite Hnd at 1; ring).
  assert (HrP : 0 <= r * P <= 999999 * P) by nia.
  assert (Hlow : N * P <= q) by lia.
  assert (Hup : q < N * P + P) by lia.
  symmetry. apply Z.div_unique with (r := round_half_even (n * P) 1000000 - P * N).
  - left.
    destruct (round_half_even_cases (n * P) 1000000 ltac:(lia)) as [Hm|[Hm Hhalf]];
      fold q in Hm; try fold rem in Hhalf; rewrite Hm; lia.
  - lia.
Qed.

Lemma int_true_div_exact n :
  0 <= n < 17179869184 * 1000000 ->
  int_true_div n 1000000 = n / 1000000.
Proof.
  intros [H0 Hlt]. unfold int_true_div.
  destruct (n =? 0) eqn:E0.
  - apply Z.eqb_eq in E0. subst n. reflexivity.
  - apply Z.eqb_neq in E0. assert (Hpos : 0 < n) by lia.
    assert (Hk : quotient_log2 n 1000000 <= 33).
    { unfold quotient_log2. change (Z.log2 1000000) with 19.
      assert (Hl : Z.log2 n < 54).
      { apply Z.log2_lt_pow2; [exact Hpos|]. change (2 ^ 54) with 18014398509481984. lia. }
      destruct (Z.eq_dec (Z.log2 n - 19) 34) as [E|E].
      - rewrite E. change (0 <=? 34) with true. cbv iota.
        assert (Hc : (1000000 * 2 ^ 34 <=? n) = false).
        { apply Z.leb_gt. change (2 ^ 34) with 17179869184. lia. }
        rewrite Hc. lia.
      - destruct (if 0 <=? Z.log2 n - 19 then _ else _); lia. }
    cbv zeta.
    assert (He : (0 <=? quotient_log2 n 1000000 - 52) = false) by (apply Z.leb_gt; lia).
    rewrite He.
    apply scaled_rounding_keeps_seconds; [exact H0|].
    change 524288 with (2 ^ 19). apply Z.pow_le_mono_r; lia.
Qed.

End UptimeArithmetic.

(** X14: the three fields of the uptime string recompose to
    [int(delta.total_seconds())]: hours * 3600 + minutes * 60 + seconds.  The
    minutes and seconds fields are between 0 and 59 and are always printed
    with exactly two characters; the hours field is not reduced modulo 24.
    While less than 2^34 s have elapsed, that number is the whole seconds
    elapsed and the hours field is not negative; beyond, the float of
    [total_seconds] can round up to the next second. *)
Theorem uptime_fields start_time now :
  let '(hours, minutes, secs) := uptime_parts start_time now in
  (hours * 3600 + minutes * 60 + secs = int_total_seconds (now - start_time))%Z /\
  (0 <= minutes < 60)%Z /\ (0 <= secs < 60)%Z /\
  String.length (fmt02d minutes) = 2 /\ String.length (fmt02d secs) = 2 /\
  get_uptime start_time now = fmt02d hours ++ ":" ++ fmt02d minutes ++ ":" ++ fmt02d secs /\
  ((0 <= now - start_time < seconds 17179869184)%Z ->
   int_total_seconds (now - start_time) = ((now - start_time) / 1000000)%Z /\
   (0 <= hours)%Z).
Proof.
  unfold get_uptime, uptime_parts.
  set (t := int_total_seconds (now - start_time)).
  assert (Hm : (0 <= (t mod 3600) / 60 < 60)%Z).
  { pose proof (Z.mod_pos_bound t 3600 ltac:(lia)).
    split; [apply Z.div_pos; lia | apply Z.div_lt_upper_bound; lia]. }
  assert (Hs : (0 <= t mod 60 < 60)%Z) by (apply Z.mod_pos_bound; lia).
  assert (Hexact : (0 <= now - start_time < seconds 17179869184)%Z ->
                   t = ((now - start_time) / 1000000)%Z).
  { intros Hb. subst t. unfold int_total_seconds.
    assert (Hn : (now - start_time <? 0)%Z = false) by (apply Z.ltb_ge; lia).
    rewrite Hn. apply int_true_div_exact. unfold seconds in Hb. lia. }
  split; [clear Hm Hs Hexact; Z.div_mod_to_equations; lia|].
  split; [exact Hm|]. split; [exact Hs|].
  split; [apply fmt02d_two_chars; exact Hm|].
  split; [apply fmt02d_two_chars; exact Hs|].
  split; [reflexivity|].
  intros Hb. split; [exact (Hexact Hb)|].
  apply Z.div_pos; [|lia]. rewrite (Hexact Hb). apply Z.div_pos; lia.
Qed.

Lemma uptime_fields_witness :
  (0 <= seconds 3725 - 0 < seconds 17179869184)%Z /\
  get_uptime 0%Z (seconds 3725) = "01:02:05" /\
  int_total_seconds (seconds 3725 - 0) = 3725%Z /\
  (0 <= fst (fst (uptime_parts 0%Z (seconds 3725))))%Z.
Proof.
  assert (Hb : (0 <= seconds 3725 - 0 < seconds 17179869184)%Z) by (unfold seconds; lia).
  split; [exact Hb|]. split; [reflexivity|].
  pose proof (uptime_fields 0%Z (seconds 3725)) as H.
  destruct (uptime_parts 0%Z (seconds 3725)) as [[h m] sec].
  destruct H as (_ & _ & _ & _ & _ & _ & H).
  destruct (H Hb) as [He Hh]. split; [|exact Hh].
  rewrite He. reflexivity.
Defined.

(** Beyond 2^34 s the printed seconds can be one more than the seconds
    elapsed: at 17179869242.999999 s the float of [total_seconds] is
    17179869243.0. *)
Example uptime_rounds_up_beyond_2_pow_34 :
  int_total_seconds 17179869242999999%Z = 17179869243%Z /\
  (17179869242999999 / 1000000 = 17179869242)%Z /\
  get_uptime 0%Z 17179869242999999%Z = "4772185:54:03".
Proof. repeat split; reflexivity. Qed.

End AppFurther.

(* ===================================================================== *)
(** ** Properties of lab_pi_session_poller.py                             *)
(* ===================================================================== *)

Section PollerProperties.

Import SessionPoller.
Local Open Scope poller_scope.

Ltac inner_free x :=
  lazymatch x with
  | context [match _ with _ => _ end] => fail
  | _ => idtac
  end.

Ltac case_next :=
  match goal with
  | |- context [match ?x with _ => _ end] => is_var x; destruct x
  | |- context [match ?x with _ => _ end] =>
      inner_free x; let E := fresh "E" in destruct x eqn:E
  end.

Ltac open_poll :=
  unfold poll, try_except, stop_hardware, start_hardware, relay_on, relay_off,
    running_answer, stopped_answer, idle,
    bind, ret, raise, gets, modify, emit, state_of, effects in *.

Lemma polls_cons env i ins p :
  polls env (i :: ins) p =
  (fst (polls env ins (state_of (poll env (pi_now i) (pi_answer i) (pi_on i) (pi_off i) p))),
   (effects (poll env (pi_now i) (pi_answer i) (pi_on i) (pi_off i) p) ++
    snd (polls env ins (state_of (poll env (pi_now i) (pi_answer i) (pi_on i) (pi_off i) p))))%list).
Proof.
  cbn [polls]. destruct (polls env ins _) as [p2 l2]. reflexivity.
Qed.

Lemma poller_writes_app l1 l2 :
  gpio_writes (l1 ++ l2) = (gpio_writes l1 ++ gpio_writes l2)%list.
Proof.
  induction l1 as [|e l1 IH]; [reflexivity|].
  destruct e; cbn; rewrite IH; reflexivity.
Qed.

(** X15: a poll whose answer carries no decision (the call raised, status
    other than 200, a body that does not decode to an object, a status entry
    that is neither "running" nor "stopped") leaves the poller as it was and
    writes nothing; a 404 also waits 10 s. *)
Theorem poll_without_decision_changes_nothing env now r g_on g_off p :
  no_decision r = true ->
  state_of (poll env now r g_on g_off p) = p /\
  gpio_writes (effects (poll env now r g_on g_off p)) = [] /\
  (forall json, r = Status 404 json ->
     effects (poll env now r g_on g_off p) = [Print NotRegisteredOnAdmin; Sleep 10]).
Proof.
  intros H. destruct p as [k et hr rn].
  destruct r as [|code json]; cbn in H.
  - repeat split; try reflexivity. intros json Hj. discriminate Hj.
  - destruct (code =? 200)%Z eqn:Hc; cbn in H.
    + apply Z.eqb_eq in Hc. subst code.
      destruct json as [[|status key e]|]; open_poll; cbn;
        try (repeat split; try reflexivity; intros j Hj; discriminate Hj).
      apply andb_prop in H as [H1 H2].
      apply negb_true_iff in H1. apply negb_true_iff in H2.
      rewrite H1, H2. cbn.
      repeat split; try reflexivity. intros j Hj. discriminate Hj.
    + open_poll; cbn. rewrite Hc. cbn.
      destruct (code =? 404)%Z eqn:H4; cbn; repeat split; try reflexivity.
      intros j Hj. inversion Hj. subst code. discriminate H4.
Qed.

Lemma poll_without_decision_changes_nothing_witness :
  no_decision (Status 404 None) = true /\
  poll example_env 0%Z (Status 404 None) GpioOk GpioOk poller_init =
    (Some tt, poller_init, [Print NotRegisteredOnAdmin; Sleep 10]).
Proof.
  split; [reflexivity|].
  pose proof (poll_without_decision_changes_nothing example_env 0%Z (Status 404 None)
                GpioOk GpioOk poller_init eq_refl) as (_ & _ & H).
  specialize (H None eq_refl).
  destruct (poll example_env 0%Z (Status 404 None) GpioOk GpioOk poller_init)
    as [[r p] l] eqn:E.
  cbn in E. inversion E; subst. reflexivity.
Defined.

Lemma option_string_eqb_refl a : option_string_eqb a a = true.
Proof. destruct a; cbn; [apply String.eqb_refl | reflexivity]. Qed.

(** A "running" answer for the key the poller already remembers, with
    no end time, does nothing: no GPIO write, nothing printed, and the state
    is kept (the end time is reset to [None]).  This holds whether or not
    the hardware is running. *)
Theorem poll_same_session_is_idempotent env now g_on g_off p :
  poll env now (running_answer (current_session_key p) EndAbsent) g_on g_off p =
    (Some tt, set_session_end_time None p, []).
Proof.
  destruct p as [k et hr rn]. open_poll; cbn.
  rewrite option_string_eqb_refl. reflexivity.
Qed.

(** X16: when [relay_off] raises, the poller keeps everything it remembers,
    so the next "stopped" answer writes again; once the write returns the
    poller is idle.  The write that switches off is
    [gpio_write(handle, 26, 1)]. *)
Theorem stop_is_retried_after_failed_write env now h p :
  lgpio_imported env = true ->
  usable_handle env = Some h ->
  hardware_running p = true ->
  poll env now stopped_answer GpioOk GpioRaises p =
    (Some tt, p, [Print NoActiveSession; GpioWrite [h; RELAY_PIN; 1%Z]; Print PollError]) /\
  poll env now stopped_answer GpioOk GpioOk p =
    (Some tt, idle p,
     [Print NoActiveSession; GpioWrite [h; RELAY_PIN; 1%Z]; Print RelayOffLine]).
Proof.
  intros Hl Hh Hr. destruct p as [k et hr rn]. cbn in Hr. subst hr.
  open_poll; cbn. rewrite orb_true_r. cbn. rewrite Hl, Hh. cbn.
  split; reflexivity.
Qed.

Lemma stop_is_retried_after_failed_write_witness :
  lgpio_imported example_env = true /\ usable_handle example_env = Some 1%Z /\
  state_of (poll example_env 0%Z stopped_answer GpioOk GpioRaises (running_poller "A"))
    = running_poller "A".
Proof.
  split; [reflexivity|]. split; [reflexivity|].
  rewrite (proj1 (stop_is_retried_after_failed_write example_env 0%Z 1%Z
                    (running_poller "A") eq_refl eq_refl eq_refl)).
  reflexivity.
Defined.

(** X17: a failed start is not retried.  When the write of [relay_on] raises
    for a new session, the key is remembered with the hardware off; as long
    as the Admin Pi keeps answering "running" with that key, later polls
    find nothing new and never write, so the hardware stays off. *)
Theorem start_is_not_retried_after_failed_write env key h p :
  lgpio_imported env = true ->
  usable_handle env = Some h ->
  hardware_running p = false ->
  current_session_key p <> key ->
  forall now,
  let p1 := state_of (poll env now (running_answer key EndAbsent) GpioRaises GpioOk p) in
  current_session_key p1 = key /\ hardware_running p1 = false /\
  forall ins,
    Forall (fun i => pi_answer i = running_answer key EndAbsent) ins ->
    polls env ins p1 = (p1, []).
Proof.
  intros Hl Hh Hr Hk now.
  assert (Hne : option_string_eqb key (current_session_key p) = false).
  { destruct (option_string_eqb key (current_session_key p)) eqn:E; [|reflexivity].
    destruct key as [x|], (current_session_key p) as [y|]; cbn in E;
      try discriminate; [apply String.eqb_eq in E; subst|]; congruence. }
  destruct p as [k et hr rn]. cbn in Hr, Hne, Hk. subst hr.
  assert (Hp1 : state_of (poll env now (running_answer key EndAbsent) GpioRaises GpioOk
                  (mkPoller k et false rn)) = mkPoller key None false rn).
  { open_poll; cbn. rewrite Hne. cbn. rewrite Hl, Hh. reflexivity. }
  cbv zeta. rewrite Hp1. repeat split.
  induction ins as [|i ins IH]; intros Hall; [reflexivity|].
  inversion Hall as [|? ? Hi Hrest]; subst.
  rewrite polls_cons, Hi.
  pose proof (poll_same_session_is_idempotent env (pi_now i) (pi_on i) (pi_off i)
                (mkPoller key None false rn)) as Hs.
  cbn [current_session_key] in Hs. rewrite Hs.
  change (state_of (Some tt, set_session_end_time None (mkPoller key None false rn), @nil Effect))
    with (mkPoller key None false rn).
  rewrite (IH Hrest). reflexivity.
Qed.

Lemma start_is_not_retried_after_failed_write_witness :
  lgpio_imported example_env = true /\ usable_handle example_env = Some 1%Z /\
  hardware_running poller_init = false /\ current_session_key poller_init <> Some "A" /\
  hardware_running
    (fst (polls example_env
            [input_ok 5%Z (running_answer (Some "A") EndAbsent);
             input_ok 10%Z (running_answer (Some "A") EndAbsent)]
            (state_of (poll example_env 0%Z (running_answer (Some "A") EndAbsent)
                         GpioRaises GpioOk poller_init)))) = false.
Proof.
  assert (Hk : current_session_key poller_init <> Some "A") by (cbv; discriminate).
  split; [reflexivity|]. split; [reflexivity|]. split; [reflexivity|].
  split; [exact Hk|].
  pose proof (start_is_not_retried_after_failed_write example_env (Some "A") 1%Z
                poller_init eq_refl eq_refl eq_refl Hk 0%Z) as H.
  cbv zeta in H. destruct H as (_ & Hr & Hall).
  rewrite Hall; [exact Hr|]. repeat constructor.
Defined.

(** One switch-on and one switch-off, as the poller writes them. *)
Lemma expired_poll env now t k h p :
  lgpio_imported env = true ->
  usable_handle env = Some h ->
  hardware_running p = false ->
  current_session_key p <> Some k ->
  (t <= now)%Z ->
  poll env now (running_answer (Some k) (EndAt t)) GpioOk GpioOk p =
    (Some tt, idle p,
     [Print (NewSession (Some k)); GpioWrite [h; RELAY_PIN; 0%Z]; Print RelayOnLine;
      Print SessionTimeEnded; GpioWrite [h; RELAY_PIN; 1%Z]; Print RelayOffLine]).
Proof.
  intros Hl Hh Hr Hk Ht. destruct p as [k0 et hr rn]. cbn in Hr, Hk. subst hr.
  assert (Hne : option_string_eqb (Some k) k0 = false).
  { destruct k0 as [y|]; cbn; [|reflexivity].
    destruct (String.eqb_spec k y); [subst; congruence | reflexivity]. }
  apply Z.leb_le in Ht.
  open_poll; cbn -[option_string_eqb Z.leb].
  change (option_string_eqb (Some "running") (Some "running")) with true.
  cbn -[option_string_eqb Z.leb]. rewrite Hne.
  cbn -[option_string_eqb Z.leb]. rewrite Hl, Hh.
  cbn -[option_string_eqb Z.leb]. rewrite Ht.
  cbn -[option_string_eqb Z.leb]. rewrite ?Hl, ?Hh. reflexivity.
Qed.

(** X18: a "running" answer whose end time has already passed pulses the
    relay.  For a session the poller does not remember, with the hardware
    off, one poll switches on and off again and ends idle; because the key is
    forgotten again, every further poll with that answer repeats the pulse:
    [n] such polls make [n] on/off pairs of writes. *)
Theorem expired_session_pulses_relay env t k h ins p :
  lgpio_imported env = true ->
  usable_handle env = Some h ->
  hardware_running p = false ->
  current_session_key p <> Some k ->
  Forall (fun i => pi_answer i = running_answer (Some k) (EndAt t) /\
                   (t <= pi_now i)%Z /\ pi_on i = GpioOk /\ pi_off i = GpioOk) ins ->
  gpio_writes (snd (polls env ins p)) =
    List.concat (List.map (fun _ => [[h; RELAY_PIN; 0%Z]; [h; RELAY_PIN; 1%Z]]) ins) /\
  (ins <> [] -> fst (polls env ins p) = idle p).
Proof.
  intros Hl Hh Hr Hk Hall. revert p Hr Hk.
  induction Hall as [|i ins (Ha & Ht & Hon & Hoff) Hrest IH]; intros p Hr Hk.
  - split; [reflexivity | congruence].
  - rewrite polls_cons, Ha, Hon, Hoff.
    rewrite (expired_poll env (pi_now i) t k h p Hl Hh Hr Hk Ht).
    change (state_of (Some tt, idle p, ?l)) with (idle p).
    cbn [state_of effects fst snd].
    assert (Hr' : hardware_running (idle p) = false) by reflexivity.
    assert (Hk' : current_session_key (idle p) <> Some k) by (cbn; discriminate).
    destruct (IH (idle p) Hr' Hk') as [IHw IHs].
    split.
    + rewrite poller_writes_app, IHw. reflexivity.
    + intros _. destruct ins as [|j ins']; [reflexivity|].
      rewrite IHs by discriminate. destruct p; reflexivity.
Qed.

Lemma expired_session_pulses_relay_witness :
  let ins := [input_ok 100%Z (running_answer (Some "A") (EndAt 50%Z));
              input_ok 105%Z (running_answer (Some "A") (EndAt 50%Z))] in
  lgpio_imported example_env = true /\ usable_handle example_env = Some 1%Z /\
  hardware_running poller_init = false /\
  current_session_key poller_init <> Some "A" /\
  gpio_writes (snd (polls example_env ins poller_init)) =
    [[1; 26; 0]; [1; 26; 1]; [1; 26; 0]; [1; 26; 1]]%Z.
Proof.
  cbv zeta.
  assert (Hk : current_session_key poller_init <> Some "A") by (cbv; discriminate).
  split; [reflexivity|]. split; [reflexivity|]. split; [reflexivity|].
  split; [exact Hk|].
  apply (expired_session_pulses_relay example_env 50%Z "A" 1%Z
           [input_ok 100%Z (running_answer (Some "A") (EndAt 50%Z));
            input_ok 105%Z (running_answer (Some "A") (EndAt 50%Z))]
           poller_init eq_refl eq_refl eq_refl Hk).
  repeat constructor; cbn; lia.
Defined.

Lemma poll_writes_shape env i p :
  Forall (relay_write env)
    (gpio_writes (effects (poll env (pi_now i) (pi_answer i) (pi_on i) (pi_off i) p))).
Proof.
  destruct p as [k et hr rn]. destruct i as [now r g_on g_off]. cbn [pi_now pi_answer pi_on pi_off].
  unfold relay_write.
  destruct (lgpio_imported env) eqn:Hl; destruct (usable_handle env) as [h|] eqn:Hh;
    open_poll; cbn; rewrite ?Hl, ?Hh; cbn;
    repeat (case_next; cbn; rewrite ?Hl, ?Hh; cbn);
    repeat constructor; eauto 6.
Qed.

(** X19: whatever the answers and the outcomes, every GPIO write of the
    poller is [gpio_write(handle, 26, 0)] or [gpio_write(handle, 26, 1)] with
    the handle that passed the guard [if gpio_handle:]; when the import
    failed or the handle is missing or 0, the poller never writes. *)
Theorem poller_only_writes_relay_pin env ins p :
  Forall (relay_write env) (gpio_writes (snd (polls env ins p))) /\
  (lgpio_imported env = false \/ usable_handle env = None ->
   gpio_writes (snd (polls env ins p)) = []).
Proof.
  assert (H : forall p0, Forall (relay_write env) (gpio_writes (snd (polls env ins p0)))).
  { induction ins as [|i ins IH]; intros p0; [constructor|].
    rewrite polls_cons. cbn [snd]. rewrite poller_writes_app.
    apply Forall_app. split; [apply poll_writes_shape | apply IH]. }
  split; [apply H|].
  intros Hoff. specialize (H p).
  destruct (gpio_writes (snd (polls env ins p))) as [|a l]; [reflexivity|].
  inversion H as [|? ? (h & Hl & Hh & _) _]; subst.
  destruct Hoff as [Hoff|Hoff]; congruence.
Qed.

Lemma poller_only_writes_relay_pin_witness :
  let ins := [input_ok 0%Z (running_answer (Some "A") EndAbsent);
              input_ok 5%Z stopped_answer] in
  usable_handle handle_zero_env = None /\
  gpio_writes (snd (polls handle_zero_env ins poller_init)) = [] /\
  hardware_running
    (state_of (poll handle_zero_env 0%Z (running_answer (Some "A") EndAbsent)
                 GpioOk GpioOk poller_init)) = true.
Proof.
  cbv zeta. split; [reflexivity|]. split; [|reflexivity].
  apply (proj2 (poller_only_writes_relay_pin handle_zero_env
                  [input_ok 0%Z (running_answer (Some "A") EndAbsent);
                   input_ok 5%Z stopped_answer] poller_init)).
  right. reflexivity.
Defined.

Lemma switchings_app l1 l2 :
  switchings (l1 ++ l2) = (switchings l1 ++ switchings l2)%list.
Proof.
  induction l1 as [|e l1 IH]; [reflexivity|].
  destruct e as [[]| |]; cbn; rewrite IH; reflexivity.
Qed.

Lemma last_of_nonempty (l : list bool) a d d' :
  List.last (a :: l) d = List.last (a :: l) d'.
Proof.
  revert a. induction l as [|b l IH]; intros a; [reflexivity|].
  change (List.last (b :: l) d = List.last (b :: l) d'). apply IH.
Qed.

Lemma last_app_default (l1 l2 : list bool) d :
  List.last (l1 ++ l2) d = List.last l2 (List.last l1 d).
Proof.
  revert d. induction l1 as [|x l1 IH]; intros d; [reflexivity|].
  destruct l1 as [|y l1].
  - destruct l2 as [|b l2]; [reflexivity|].
    change (List.last (b :: l2) d = List.last (b :: l2) x). apply last_of_nonempty.
  - change (List.last ((x :: y :: l1) ++ l2) d) with (List.last ((y :: l1) ++ l2) d).
    rewrite IH. reflexivity.
Qed.

Lemma alternates_app b l1 l2 :
  alternates b l1 = true ->
  alternates (negb (List.last l1 (negb b))) l2 = true ->
  alternates b (l1 ++ l2) = true.
Proof.
  revert b. induction l1 as [|x l1 IH]; intros b H1 H2.
  - cbn in *. rewrite negb_involutive in H2. exact H2.
  - cbn [alternates] in H1. apply andb_prop in H1 as [Hx H1].
    apply Bool.eqb_prop in Hx. subst x.
    cbn [List.app alternates]. rewrite Bool.eqb_reflx. cbn [andb].
    apply IH; [exact H1|].
    destruct l1 as [|y l1]; [cbn in *; rewrite negb_involutive; exact H2 |].
    change (List.last (b :: y :: l1) (negb b)) with (List.last (y :: l1) (negb b)) in H2.
    rewrite (last_of_nonempty l1 y (negb (negb b)) (negb b)). exact H2.
Qed.

Lemma poll_switchings_with_handle env h i p :
  lgpio_imported env = true ->
  usable_handle env = Some h ->
  let r := poll env (pi_now i) (pi_answer i) (pi_on i) (pi_off i) p in
  alternates (negb (hardware_running p)) (switchings (effects r)) = true /\
  hardware_running (state_of r) = List.last (switchings (effects r)) (hardware_running p).
Proof.
  intros Hl Hh. destruct p as [k et hr rn]. destruct i as [now r g_on g_off].
  cbn [pi_now pi_answer pi_on pi_off hardware_running]. cbv zeta.
  destruct hr; open_poll; cbn; rewrite ?Hl, ?Hh; cbn;
    repeat (case_next; cbn; rewrite ?Hl, ?Hh; cbn); split; reflexivity.
Qed.

Lemma poll_switchings_without_handle env i p :
  lgpio_imported env = false \/ usable_handle env = None ->
  switchings (effects (poll env (pi_now i) (pi_answer i) (pi_on i) (pi_off i) p)) = [].
Proof.
  intros Hoff. destruct p as [k et hr rn]. destruct i as [now r g_on g_off].
  cbn [pi_now pi_answer pi_on pi_off].
  destruct Hoff as [Hl|Hh].
  - open_poll; cbn; rewrite ?Hl; cbn;
      repeat (case_next; cbn; rewrite ?Hl; cbn); reflexivity.
  - destruct (lgpio_imported env) eqn:Hl;
      open_poll; cbn; rewrite ?Hl, ?Hh; cbn;
      repeat (case_next; cbn; rewrite ?Hl, ?Hh; cbn); reflexivity.
Qed.

(** X20: in any sequence of polls the switchings the relay confirmed
    alternate: the poller never switches on twice without a switch-off in
    between, nor off twice, and the first switching is the opposite of
    [hardware_running] at the start.  With a usable handle,
    [hardware_running] at the end is the last confirmed switching. *)
Theorem poller_switchings_alternate env ins p :
  alternates (negb (hardware_running p)) (switchings (snd (polls env ins p))) = true /\
  (forall h, lgpio_imported env = true -> usable_handle env = Some h ->
     hardware_running (fst (polls env ins p)) =
       List.last (switchings (snd (polls env ins p))) (hardware_running p)).
Proof.
  destruct (lgpio_imported env) eqn:Hl.
  - destruct (usable_handle env) as [h|] eqn:Hh.
    + assert (H : forall p0,
        alternates (negb (hardware_running p0)) (switchings (snd (polls env ins p0))) = true /\
        hardware_running (fst (polls env ins p0)) =
          List.last (switchings (snd (polls env ins p0))) (hardware_running p0)).
      { induction ins as [|i ins IH]; intros p0; [split; reflexivity|].
        rewrite polls_cons. cbn [fst snd]. rewrite switchings_app.
        destruct (poll_switchings_with_handle env h i p0 Hl Hh) as [Ha Hlast].
        destruct (IH (state_of (poll env (pi_now i) (pi_answer i) (pi_on i) (pi_off i) p0)))
          as [IHa IHl].
        rewrite Hlast in IHa, IHl. split.
        - apply alternates_app; [exact Ha|].
          replace (List.last (switchings (effects (poll env (pi_now i) (pi_answer i)
                     (pi_on i) (pi_off i) p0))) (negb (negb (hardware_running p0))))
            with (List.last (switchings (effects (poll env (pi_now i) (pi_answer i)
                     (pi_on i) (pi_off i) p0))) (hardware_running p0))
            by (rewrite negb_involutive; reflexivity).
          exact IHa.
        - rewrite last_app_default. exact IHl. }
      split; [apply H | intros h' _ _; apply H].
    + assert (H : forall p0, switchings (snd (polls env ins p0)) = []).
      { induction ins as [|i ins IH]; intros p0; [reflexivity|].
        rewrite polls_cons. cbn [snd]. rewrite switchings_app, IH.
        rewrite poll_switchings_without_handle by (right; exact Hh). reflexivity. }
      rewrite H. split; [reflexivity | intros h' _ Hx; discriminate Hx].
  - assert (H : forall p0, switchings (snd (polls env ins p0)) = []).
    { induction ins as [|i ins IH]; intros p0; [reflexivity|].
      rewrite polls_cons. cbn [snd]. rewrite switchings_app, IH.
      rewrite poll_switchings_without_handle by (left; exact Hl). reflexivity. }
    rewrite H. split; [reflexivity | intros h' Hx _; discriminate Hx].
Qed.

Lemma poller_switchings_alternate_witness :
  let ins := [input_ok 0%Z (running_answer (Some "A") EndAbsent);
              input_ok 5%Z (running_answer (Some "B") (EndAt 3%Z));
              input_ok 10%Z (running_answer (Some "C") EndAbsent);
              input_ok 15%Z stopped_answer] in
  lgpio_imported example_env = true /\ usable_handle example_env = Some 1%Z /\
  switchings (snd (polls example_env ins poller_init)) = [true; false; true; false] /\
  hardware_running (fst (polls example_env ins poller_init)) =
    List.last (switchings (snd (polls example_env ins poller_init))) false.
Proof.
  cbv zeta. split; [reflexivity|]. split; [reflexivity|]. split; [reflexivity|].
  apply (proj2 (poller_switchings_alternate example_env
                  [input_ok 0%Z (running_answer (Some "A") EndAbsent);
                   input_ok 5%Z (running_answer (Some "B") (EndAt 3%Z));
                   input_ok 10%Z (running_answer (Some "C") EndAbsent);
                   input_ok 15%Z stopped_answer] poller_init) 1%Z eq_refl eq_refl).
Defined.

End PollerProperties.

(* ===================================================================== *)
(** ** Further properties of audio_capture.py                             *)
(* ===================================================================== *)

Lemma pipeline_bounded_witness :
  List.length (@nil nat) <= AudioCapture.maxsize /\
  List.length (fst (AudioCapture.pipeline nat nat S
    [AudioCapture.CapturePass (AudioCapture.Read 1);
     AudioCapture.SendPass AudioCapture.PostReturns;
     AudioCapture.CapturePass (AudioCapture.Read 2);
     AudioCapture.CapturePass AudioCapture.ReadRaises] [])) <= AudioCapture.maxsize.
Proof.
  assert (H : List.length (@nil nat) <= AudioCapture.maxsize)
    by (unfold AudioCapture.maxsize; cbn; lia).
  split; [exact H|].
  apply (pipeline_bounded nat nat S _ [] H).
Defined.

Section AudioLifeCycle.

Import AudioCapture.

Lemma first_input_spec infos :
  forall k i, first_input infos k = Some i ->
    k <= i /\
    (exists n, List.nth_error infos (i - k) = Some (Info n) /\ (0 < n)%Z) /\
    (forall j, j < i - k ->
       exists m, List.nth_error infos j = Some (Info m) /\ (m <= 0)%Z).
Proof.
  induction infos as [|d infos IH]; intros k i H; cbn in H; [discriminate|].
  destruct d as [|n]; [discriminate|].
  destruct (n >? 0)%Z eqn:Hn.
  - inversion H; subst. rewrite Nat.sub_diag. split; [lia|]. split.
    + exists n. split; [reflexivity|]. apply Z.gtb_lt in Hn. lia.
    + intros j Hj. lia.
  - destruct (IH (S k) i H) as (Hle & (n' & Hnth & Hpos) & Hbefore).
    split; [lia|]. split.
    + exists n'. split; [|exact Hpos].
      replace (i - k) with (S (i - S k)) by lia. exact Hnth.
    + intros j Hj. destruct j as [|j].
      * exists n. split; [reflexivity|].
        rewrite Z.gtb_ltb in Hn. apply Z.ltb_ge in Hn. exact Hn.
      * apply Hbefore. lia.
Qed.

(** X23: when [_get_default_input_device] returns an index, PyAudio is
    available and created, the device at that index reports more than zero
    input channels, and every device before it answered and reported none:
    it is the first usable input, and the scan did not get past a device
    whose query failed. *)
Theorem default_input_device_is_first_usable avail d c i :
  _get_default_input_device avail d c = Some i ->
  avail = true /\ audio c = true /\
  exists infos, d = DeviceList infos /\
    (exists n, List.nth_error infos i = Some (Info n) /\ (0 < n)%Z) /\
    (forall j, j < i ->
       exists m, List.nth_error infos j = Some (Info m) /\ (m <= 0)%Z).
Proof.
  unfold _get_default_input_device. intros H.
  destruct avail; cbn in H; [|discriminate].
  destruct (audio c); cbn in H; [|discriminate].
  destruct d as [|infos]; [discriminate|].
  split; [reflexivity|]. split; [reflexivity|]. exists infos. split; [reflexivity|].
  destruct (first_input_spec infos 0 i H) as (_ & Hn & Hb).
  rewrite Nat.sub_0_r in *. split; assumption.
Qed.

Lemma default_input_device_is_first_usable_witness :
  let d := DeviceList [Info 0; Info 2; InfoRaises; Info 1] in
  let c := {| streaming := false; stream := false; audio := true |} in
  _get_default_input_device true d c = Some 1 /\
  exists infos, d = DeviceList infos /\
    (exists n, List.nth_error infos 1 = Some (Info n) /\ (0 < n)%Z) /\
    (forall j, j < 1 ->
       exists m, List.nth_error infos j = Some (Info m) /\ (m <= 0)%Z).
Proof.
  cbv zeta. split; [reflexivity|].
  apply (default_input_device_is_first_usable true
           (DeviceList [Info 0; Info 2; InfoRaises; Info 1])
           {| streaming := false; stream := false; audio := true |} 1 eq_refl).
Defined.

(** X24: [start].  While streaming it returns [True] and does nothing.
    Otherwise it returns [True] exactly when PyAudio is available, the
    PyAudio object is created, an input device is found and the stream
    opens; [streaming] afterwards equals the returned flag.  On success the
    capture loop and then the send loop are spawned, once each; on failure
    nothing is spawned and the stream attribute is untouched, but the
    PyAudio object stays allocated whenever it was created. *)
Theorem start_outcomes avail d c :
  (streaming c = true -> start avail d c = (true, c, [])) /\
  (streaming c = false ->
   let r := start avail d c in
   let ok := fst (fst r) in
   let c1 := snd (fst r) in
   (ok = true <->
      avail = true /\ pyaudio_new d = Returns /\ audio_open d = Returns /\
      exists i, _get_default_input_device avail (devices d)
                  (mkCapture false (stream c) true) = Some i) /\
   streaming c1 = ok /\
   (ok = true ->
      stream c1 = true /\ audio c1 = true /\
      List.filter is_spawn (snd r) = [SpawnCaptureLoop; SpawnSendLoop]) /\
   (ok = false ->
      List.filter is_spawn (snd r) = [] /\ stream c1 = stream c /\
      (avail = true -> pyaudio_new d = Returns -> audio c1 = true))).
Proof.
  split.
  - intros H. unfold start. rewrite H. reflexivity.
  - intros H. destruct c as [sg sm au]. cbn in H. subst sg. cbv zeta.
    unfold start, initialize. cbn [streaming stream audio].
    destruct avail; cbn [negb];
      [destruct (pyaudio_new d) eqn:Hp;
       [destruct (_get_default_input_device true (devices d) (mkCapture false sm true))
          as [i|] eqn:Hd; [destruct (audio_open d) eqn:Ho|]|]|];
      cbn; repeat split; try reflexivity; try discriminate; intros;
      repeat match goal with
             | H : _ /\ _ |- _ => destruct H
             | H : exists _, _ |- _ => destruct H
             end;
      try congruence; eauto.
Qed.

Lemma start_outcomes_witness :
  streaming capture_init = false /\
  start true good_driver capture_init =
    (true, {| streaming := true; stream := true; audio := true |},
     [NewPyAudio; OpenStream 1; Print (Initialized 1);
      SpawnCaptureLoop; SpawnSendLoop; Print Started]) /\
  start true good_driver (snd (fst (start true good_driver capture_init))) =
    (true, snd (fst (start true good_driver capture_init)), []).
Proof.
  split; [reflexivity|]. split; [reflexivity|].
  apply (proj1 (start_outcomes true good_driver
                  (snd (fst (start true good_driver capture_init))))).
  reflexivity.
Defined.

(** X25: [stop] always ends with the object as it was created: not
    streaming, no stream, no PyAudio object, whatever the driver does during
    teardown.  On an object that holds nothing it touches no driver, so a
    second [stop] is harmless, and a [start] after [stop] initialises again
    from scratch.  When [stop_stream] raises, [close] is not called. *)
Theorem stop_releases_everything t c :
  fst (stop t c) = capture_init /\
  (stream c = false -> audio c = false -> snd (stop t c) = [Print Stopped]) /\
  (forall t', stop t' (fst (stop t c)) = (capture_init, [Print Stopped])) /\
  (forall avail d, start avail d (fst (stop t c)) = start avail d capture_init) /\
  (stop_stream t = Raises -> ~ In CloseStream (snd (stop t c))).
Proof.
  assert (H1 : fst (stop t c) = capture_init).
  { destruct c as [sg [|] [|]]; unfold stop; cbn; reflexivity. }
  split; [exact H1|]. split; [|split; [|split]].
  - intros Hs Ha. destruct c as [sg sm au]. cbn in Hs, Ha. subst. reflexivity.
  - intros t'. rewrite H1. reflexivity.
  - intros avail d. rewrite H1. reflexivity.
  - intros Hr. destruct c as [sg [|] [|]]; unfold stop; cbn; rewrite ?Hr; cbn;
      intros Hin; repeat (destruct Hin as [Hin|Hin]; [discriminate|]); exact Hin.
Qed.

Lemma stop_releases_everything_witness :
  let c := snd (fst (start true good_driver capture_init)) in
  let t := {| stop_stream := Raises; close_stream := Returns; terminate := Raises |} in
  stop_stream t = Raises /\
  stop t c = (capture_init, [StopStream; Terminate; Print Stopped]) /\
  ~ In CloseStream (snd (stop t c)).
Proof.
  cbv zeta. split; [reflexivity|]. split; [reflexivity|].
  apply (proj2 (proj2 (proj2 (proj2 (stop_releases_everything
           {| stop_stream := Raises; close_stream := Returns; terminate := Raises |}
           (snd (fst (start true good_driver capture_init)))))))).
  reflexivity.
Defined.

(** The module-level functions.  Before [init_audio_capture] has
    created an instance, and always when PyAudio is missing (then it creates
    none), [start_audio_stream] returns [False] and does nothing.  In every
    case [is_audio_streaming] afterwards equals the flag that
    [start_audio_stream] returned, and it is [False] after
    [stop_audio_stream]. *)
Theorem module_level_stream avail d t :
  start_audio_stream avail d None = (false, None, []) /\
  (avail = false ->
   start_audio_stream avail d (init_audio_capture avail None) = (false, None, [])) /\
  (let r := start_audio_stream avail d (init_audio_capture avail None) in
   is_audio_streaming (snd (fst r)) = fst (fst r) /\
   is_audio_streaming (fst (stop_audio_stream t (snd (fst r)))) = false).
Proof.
  split; [reflexivity|]. split.
  - intros H. subst avail. reflexivity.
  - cbv zeta. destruct avail; cbn [init_audio_capture negb]; [|split; reflexivity].
    unfold start_audio_stream, stop_audio_stream, start, initialize, stop,
      _get_default_input_device, capture_init. cbn.
    destruct (pyaudio_new d); [|split; reflexivity].
    destruct (devices d) as [|infos]; [split; reflexivity|].
    destruct (first_input infos 0); [|split; reflexivity].
    destruct (audio_open d); split; reflexivity.
Qed.

Lemma module_level_stream_witness :
  start_audio_stream false good_driver (init_audio_capture false None) =
    (false, None, []).
Proof.
  apply (proj1 (proj2 (module_level_stream false good_driver
           {| stop_stream := Returns; close_stream := Returns; terminate := Returns |}))).
  reflexivity.
Defined.

End AudioLifeCycle.

(* ===================================================================== *)
(** ** Properties of lab-pi/Audio/server.py                               *)
(* ===================================================================== *)

Section AudioServerProperties.

Import AudioServer.

Lemma dict_get_set_same {V} (k : string) (v : V) d :
  dict_get String.eqb k (dict_set String.eqb k v d) = Some v.
Proof.
  induction d as [|[k' v'] d IH]; cbn.
  - rewrite String.eqb_refl. reflexivity.
  - destruct (String.eqb k k') eqn:E; cbn; rewrite ?String.eqb_refl, ?E; auto.
Qed.

Lemma session_key_eqb_refl a : option_string_eqb a a = true.
Proof. destruct a; cbn; [apply String.eqb_refl | reflexivity]. Qed.

Lemma session_key_eqb_true a b : option_string_eqb a b = true -> a = b.
Proof.
  destruct a as [x|], b as [y|]; cbn; intros H; try discriminate; [|reflexivity].
  apply String.eqb_eq in H. congruence.
Qed.

Lemma dict_del_set_fresh {V} k (v : V) d :
  dict_mem option_string_eqb k d = false ->
  dict_del option_string_eqb k (dict_set option_string_eqb k v d) = d.
Proof.
  unfold dict_mem. induction d as [|[k' v'] d IH]; cbn; intros H.
  - rewrite session_key_eqb_refl. reflexivity.
  - destruct (option_string_eqb k k') eqn:E; [discriminate|].
    cbn. rewrite E, IH by exact H. reflexivity.
Qed.

Lemma dict_mem_set {V} k (v : V) d :
  dict_mem option_string_eqb k (dict_set option_string_eqb k v d) = true.
Proof.
  unfold dict_mem. induction d as [|[k' v'] d IH]; cbn.
  - rewrite session_key_eqb_refl. reflexivity.
  - destruct (option_string_eqb k k') eqn:E; cbn;
      rewrite ?session_key_eqb_refl, ?E; auto.
Qed.

Lemma dict_get_del_other {V} k k' (d : list (option string * V)) :
  option_string_eqb k' k = false ->
  dict_get option_string_eqb k' (dict_del option_string_eqb k d) =
  dict_get option_string_eqb k' d.
Proof.
  intros Hne. induction d as [|[k0 v0] d IH]; cbn; [reflexivity|].
  destruct (option_string_eqb k k0) eqn:E.
  - apply session_key_eqb_true in E. subst k0. rewrite Hne. reflexivity.
  - cbn. rewrite IH. reflexivity.
Qed.

Lemma dict_get_set_other {V} k k' (v : V) (d : list (option string * V)) :
  option_string_eqb k' k = false ->
  dict_get option_string_eqb k' (dict_set option_string_eqb k v d) =
  dict_get option_string_eqb k' d.
Proof.
  intros Hne. induction d as [|[k0 v0] d IH]; cbn.
  - rewrite Hne. reflexivity.
  - destruct (option_string_eqb k k0) eqn:E; cbn.
    + apply session_key_eqb_true in E. subst k0. rewrite Hne. reflexivity.
    + rewrite IH. reflexivity.
Qed.

Lemma dict_get_del_same {V} k (d : list (option string * V)) :
  NoDup (keys d) -> dict_get option_string_eqb k (dict_del option_string_eqb k d) = None.
Proof.
  induction d as [|[k0 v0] d IH]; cbn; intros Hnd; [reflexivity|].
  inversion Hnd as [|? ? Hnotin Hnd']; subst.
  destruct (option_string_eqb k k0) eqn:E.
  - apply session_key_eqb_true in E. subst k0.
    clear IH Hnd Hnd'. induction d as [|[k1 v1] d IH]; cbn; [reflexivity|].
    destruct (option_string_eqb k k1) eqn:E1.
    + apply session_key_eqb_true in E1. subst k1. exfalso. apply Hnotin. left. reflexivity.
    + apply IH. intros Hin. apply Hnotin. right. exact Hin.
  - cbn. rewrite E. apply IH. exact Hnd'.
Qed.

(** [receive_audio] stores and broadcasts nothing unless both the node
    id and the audio text are present and non-empty: a post that lacks
    either is answered 400, a body that does not decode is answered 500, and
    in both cases the server is as before. *)
Theorem receive_audio_rejects_incomplete_posts body emit s :
  match body with
  | None => True
  | Some data => truthy (post_lab_pi_id data) = false \/ truthy (post_audio data) = false
  end ->
  receive_audio body emit s =
    (match body with None => Error500 | Some _ => Missing400 end, s, []).
Proof.
  destruct body as [data|]; [|reflexivity].
  intros H. unfold receive_audio.
  destruct H as [H|H]; rewrite H; cbn; [reflexivity|].
  rewrite orb_true_r. reflexivity.
Qed.

Lemma receive_audio_rejects_incomplete_posts_witness :
  truthy (post_audio (example_post "lab-001" "")) = false /\
  receive_audio (Some (example_post "lab-001" "")) AudioCapture.Returns server_init =
    (Missing400, server_init, []).
Proof.
  split; [reflexivity|].
  apply (receive_audio_rejects_incomplete_posts (Some (example_post "lab-001" ""))
           AudioCapture.Returns server_init).
  right. reflexivity.
Defined.

(** X26: a client that starts a session for a node first receives the most
    recent chunk that node posted.  After a complete post for [id] has been
    received, whether or not its broadcast succeeded, ['audio_start'] for
    [id] sends exactly that chunk, with 16000 and 1 standing in for a sample
    rate and a channel count that were left out, and then the
    acknowledgement. *)
Theorem late_joiner_gets_latest_chunk id audio rate chans emit request_sid sess s :
  id <> "" -> audio <> "" ->
  let post := {| post_lab_pi_id := Some id; post_audio := Some audio;
                 post_sample_rate := rate; post_channels := chans |} in
  let s1 := snd (fst (receive_audio (Some post) emit s)) in
  let msg := {| msg_session_id := sess; msg_lab_pi_id := Some id |} in
  snd (handle_audio_start request_sid msg s1) =
    [EmitAudioData {| chunk_audio := audio;
                      sample_rate := get_default rate 16000%Z;
                      channels := get_default chans 1%Z |};
     EmitStarted (session_id_of msg)].
Proof.
  intros Hid Ha. cbv zeta.
  assert (Ti : truthy (Some id) = true).
  { cbn. destruct (String.eqb_spec id ""); [contradiction | reflexivity]. }
  assert (Ta : truthy (Some audio) = true).
  { cbn. destruct (String.eqb_spec audio ""); [contradiction | reflexivity]. }
  unfold receive_audio.
  cbn [post_lab_pi_id post_audio post_sample_rate post_channels].
  rewrite Ti, Ta. cbn [negb orb].
  unfold handle_audio_start. cbn [msg_lab_pi_id]. rewrite Ti.
  destruct emit; cbn [fst snd latest_audio]; rewrite dict_get_set_same; reflexivity.
Qed.

Lemma late_joiner_gets_latest_chunk_witness :
  "lab-001" <> "" /\ "QUJD" <> "" /\
  snd (handle_audio_start "sid-1"
         {| msg_session_id := Absent; msg_lab_pi_id := Some "lab-001" |}
         (snd (fst (receive_audio (Some (example_post "lab-001" "QUJD"))
                      AudioCapture.Raises server_init)))) =
    [EmitAudioData {| chunk_audio := "QUJD"; sample_rate := Some 16000%Z;
                      channels := Some 1%Z |};
     EmitStarted (Some "default")].
Proof.
  assert (H1 : "lab-001" <> "") by discriminate.
  assert (H2 : "QUJD" <> "") by discriminate.
  split; [exact H1|]. split; [exact H2|].
  apply (late_joiner_gets_latest_chunk "lab-001" "QUJD" Absent Absent AudioCapture.Raises
           "sid-1" Absent server_init H1 H2).
Defined.

Section DictFacts.
Variable K V : Type.
Variable eqb : K -> K -> bool.
Hypothesis eqb_spec : forall a b, eqb a b = true <-> a = b.

Lemma keys_dict_set_in k (v : V) d x :
  In x (keys (dict_set eqb k v d)) -> x = k \/ In x (keys d).
Proof.
  induction d as [|[k' v'] d IH]; cbn.
  - intros [H|[]]. left. congruence.
  - destruct (eqb k k') eqn:E; cbn.
    + apply eqb_spec in E. subst k'. intros [H|H]; [left; congruence | right; right; exact H].
    + intros [H|H]; [right; left; exact H|].
      destruct (IH H) as [H'|H']; [left; exact H' | right; right; exact H'].
Qed.

Lemma keys_dict_set_nodup k (v : V) d :
  NoDup (keys d) -> NoDup (keys (dict_set eqb k v d)).
Proof.
  induction d as [|[k' v'] d IH]; cbn; intros Hnd.
  - constructor; [intros [] | constructor].
  - inversion Hnd as [|? ? Hnotin Hnd']; subst.
    destruct (eqb k k') eqn:E; cbn.
    + apply eqb_spec in E. subst k'. constructor; assumption.
    + constructor; [|apply IH; exact Hnd'].
      intros Hin. destruct (keys_dict_set_in k v d k' Hin) as [H|H].
      * subst k'. assert (Hkk : eqb k k = true) by (apply eqb_spec; reflexivity).
        congruence.
      * contradiction.
Qed.

Lemma keys_dict_del_in k (d : list (K * V)) x :
  In x (keys (dict_del eqb k d)) -> In x (keys d).
Proof.
  induction d as [|[k' v'] d IH]; cbn; [tauto|].
  destruct (eqb k k'); cbn; [tauto|].
  intros [H|H]; [left; exact H | right; apply IH; exact H].
Qed.

Lemma keys_dict_del_nodup k (d : list (K * V)) :
  NoDup (keys d) -> NoDup (keys (dict_del eqb k d)).
Proof.
  induction d as [|[k' v'] d IH]; cbn; intros Hnd; [constructor|].
  inversion Hnd as [|? ? Hnotin Hnd']; subst.
  destruct (eqb k k'); cbn; [exact Hnd'|].
  constructor; [|apply IH; exact Hnd'].
  intros Hin. apply Hnotin. apply (keys_dict_del_in k d k' Hin).
Qed.

Lemma dict_mem_set_keeps k k' (v : V) d :
  dict_mem eqb k' d = true -> dict_mem eqb k' (dict_set eqb k v d) = true.
Proof.
  unfold dict_mem. induction d as [|[k0 v0] d IH]; cbn; [discriminate|].
  destruct (eqb k' k0) eqn:E0.
  - intros _. destruct (eqb k k0) eqn:E; cbn.
    + apply eqb_spec in E. apply eqb_spec in E0. subst.
      assert (Hkk : eqb k0 k0 = true) by (apply eqb_spec; reflexivity).
      rewrite Hkk. reflexivity.
    + rewrite E0. reflexivity.
  - intros H. destruct (eqb k k0) eqn:E; cbn.
    + apply eqb_spec in E. subst k0. rewrite E0. exact H.
    + rewrite E0. apply IH. exact H.
Qed.

End DictFacts.

Lemma string_eqb_iff a b : String.eqb a b = true <-> a = b.
Proof. apply String.eqb_eq. Qed.

Lemma session_key_eqb_iff a b : option_string_eqb a b = true <-> a = b.
Proof.
  split; [apply session_key_eqb_true | intros ->; apply session_key_eqb_refl].
Qed.

(** X27: ['audio_start'] followed by ['audio_stop'] for the same session id.
    When the id was not in use the server is exactly as before.  In any
    case (the stored ids being distinct) no session with that id is left,
    and every session with another id is the one it was. *)
Theorem audio_start_then_stop request_sid data s :
  let s2 := fst (handle_audio_stop data (fst (handle_audio_start request_sid data s))) in
  (dict_mem option_string_eqb (session_id_of data) (audio_sessions s) = false -> s2 = s) /\
  (NoDup (keys (audio_sessions s)) ->
   dict_get option_string_eqb (session_id_of data) (audio_sessions s2) = None) /\
  (forall k, option_string_eqb k (session_id_of data) = false ->
   dict_get option_string_eqb k (audio_sessions s2) =
   dict_get option_string_eqb k (audio_sessions s)) /\
  latest_audio s2 = latest_audio s.
Proof.
  cbv zeta. unfold handle_audio_stop, handle_audio_start.
  cbn [fst snd audio_sessions latest_audio].
  rewrite dict_mem_set. cbn [fst audio_sessions latest_audio].
  split; [|split; [|split]].
  - intros H. rewrite dict_del_set_fresh by exact H. destruct s; reflexivity.
  - intros Hnd. apply dict_get_del_same.
    apply (keys_dict_set_nodup _ _ option_string_eqb session_key_eqb_iff). exact Hnd.
  - intros k Hk. rewrite dict_get_del_other by exact Hk.
    apply dict_get_set_other. exact Hk.
  - reflexivity.
Qed.

Lemma audio_start_then_stop_witness :
  let data := start_msg "s1" "lab-001" in
  dict_mem option_string_eqb (session_id_of data) (audio_sessions server_init) = false /\
  fst (handle_audio_stop data (fst (handle_audio_start "sid-1" data server_init)))
    = server_init.
Proof.
  cbv zeta. split; [reflexivity|].
  apply (proj1 (audio_start_then_stop "sid-1" (start_msg "s1" "lab-001") server_init)).
  reflexivity.
Defined.

Lemma drop_first_of_count request_sid d :
  sessions_of request_sid (drop_first_of request_sid d) =
    Nat.pred (sessions_of request_sid d) /\
  (forall other, other <> request_sid ->
     sessions_of other (drop_first_of request_sid d) = sessions_of other d).
Proof.
  unfold sessions_of. induction d as [|[k v] d [IH1 IH2]]; [split; reflexivity|].
  cbn [drop_first_of]. destruct (String.eqb_spec (sid v) request_sid) as [E|E].
  - split.
    + cbn. rewrite E, String.eqb_refl. reflexivity.
    + intros other Hne. cbn. rewrite E.
      destruct (String.eqb_spec request_sid other); [congruence | reflexivity].
  - split.
    + cbn. destruct (String.eqb_spec (sid v) request_sid); [contradiction|].
      exact IH1.
    + intros other Hne. cbn.
      destruct (sid v =? other)%string; cbn; rewrite (IH2 other Hne); reflexivity.
Qed.

(** X28: a disconnect removes one session of the socket at most: the number
    of sessions stored for that socket id goes down by one (or stays 0), so a
    client that started several sessions leaves all but one behind;
    the sessions of every other socket and the stored chunks are
    untouched. *)
Theorem disconnect_drops_one_session request_sid s :
  let s' := handle_disconnect request_sid s in
  sessions_of request_sid (audio_sessions s') =
    Nat.pred (sessions_of request_sid (audio_sessions s)) /\
  (forall other, other <> request_sid ->
     sessions_of other (audio_sessions s') = sessions_of other (audio_sessions s)) /\
  latest_audio s' = latest_audio s.
Proof.
  cbv zeta. unfold handle_disconnect. cbn [audio_sessions latest_audio].
  destruct (drop_first_of_count request_sid (audio_sessions s)) as [H1 H2].
  split; [exact H1|]. split; [exact H2 | reflexivity].
Qed.

Lemma disconnect_drops_one_session_witness :
  let s := fst (serve [AudioStart "sid-1" (start_msg "s1" "lab-001");
                       AudioStart "sid-1" (start_msg "s2" "lab-001");
                       AudioStart "sid-2" (start_msg "s3" "lab-001")] server_init) in
  "sid-2" <> "sid-1" /\
  sessions_of "sid-1" (audio_sessions (handle_disconnect "sid-1" s)) = 1 /\
  sessions_of "sid-2" (audio_sessions (handle_disconnect "sid-1" s)) =
    sessions_of "sid-2" (audio_sessions s).
Proof.
  cbv zeta. assert (H : "sid-2" <> "sid-1") by discriminate.
  split; [exact H|]. split.
  - rewrite (proj1 (disconnect_drops_one_session "sid-1" _)). reflexivity.
  - apply (proj1 (proj2 (disconnect_drops_one_session "sid-1" _)) "sid-2" H).
Defined.

Lemma drop_first_of_keys request_sid d x :
  In x (keys (drop_first_of request_sid d)) -> In x (keys d).
Proof.
  induction d as [|[k v] d IH]; cbn; [tauto|].
  destruct (sid v =? request_sid)%string; cbn; [tauto|].
  intros [H|H]; [left; exact H | right; apply IH; exact H].
Qed.

Lemma drop_first_of_nodup request_sid d :
  NoDup (keys d) -> NoDup (keys (drop_first_of request_sid d)).
Proof.
  induction d as [|[k v] d IH]; cbn; intros Hnd; [constructor|].
  inversion Hnd as [|? ? Hnotin Hnd']; subst.
  destruct (sid v =? request_sid)%string; cbn; [exact Hnd'|].
  constructor; [|apply IH; exact Hnd'].
  intros Hin. apply Hnotin. apply (drop_first_of_keys request_sid d k Hin).
Qed.

Lemma all_active_set k v d :
  active v = true -> all_active d -> all_active (dict_set option_string_eqb k v d).
Proof.
  unfold all_active. intros Hv. induction d as [|[k' v'] d IH]; cbn; intros H.
  - constructor; [exact Hv | constructor].
  - inversion H; subst. destruct (option_string_eqb k k'); constructor; auto.
Qed.

Lemma all_active_del k d :
  all_active d -> all_active (dict_del option_string_eqb k d).
Proof.
  unfold all_active. induction d as [|[k' v'] d IH]; cbn; intros H; [constructor|].
  inversion H; subst. destruct (option_string_eqb k k'); [assumption|].
  constructor; auto.
Qed.

Lemma all_active_drop request_sid d :
  all_active d -> all_active (drop_first_of request_sid d).
Proof.
  unfold all_active. induction d as [|[k' v'] d IH]; cbn; intros H; [constructor|].
  inversion H; subst. destruct (sid v' =? request_sid)%string; [assumption|].
  constructor; auto.
Qed.

Lemma all_active_filter d :
  all_active d -> List.filter (fun kv => active (snd kv)) d = d.
Proof.
  unfold all_active. induction d as [|kv d IH]; intros H; [reflexivity|].
  inversion H as [|? ? Ha Hd]; subst. cbn. rewrite Ha, IH by exact Hd. reflexivity.
Qed.

Lemma handle_keeps_inv r s : server_inv s -> server_inv (fst (handle r s)).
Proof.
  intros (Hn & Ha & Hl). unfold server_inv.
  destruct r as [body emit|request_sid data|data|request_sid]; cbn [handle].
  - unfold receive_audio. destruct body as [data|]; [|cbn; auto].
    destruct (negb (truthy (post_lab_pi_id data)) || negb (truthy (post_audio data)));
      [cbn; auto|].
    destruct (post_lab_pi_id data) as [id|]; [|cbn; auto].
    destruct (post_audio data) as [a|]; [|cbn; auto].
    destruct emit; cbn; repeat split; auto;
      apply (keys_dict_set_nodup _ _ String.eqb string_eqb_iff); exact Hl.
  - unfold handle_audio_start. cbn [fst audio_sessions latest_audio].
    repeat split; auto.
    + apply (keys_dict_set_nodup _ _ option_string_eqb session_key_eqb_iff). exact Hn.
    + apply all_active_set; [reflexivity | exact Ha].
  - unfold handle_audio_stop. cbn [fst].
    destruct (dict_mem option_string_eqb (session_id_of data) (audio_sessions s));
      cbn [audio_sessions latest_audio]; repeat split; auto.
    + apply (keys_dict_del_nodup _ _ option_string_eqb). exact Hn.
    + apply all_active_del. exact Ha.
  - unfold handle_disconnect. cbn [fst audio_sessions latest_audio].
    repeat split; auto.
    + apply drop_first_of_nodup. exact Hn.
    + apply all_active_drop. exact Ha.
Qed.

Lemma serve_cons r rs s :
  fst (serve (r :: rs) s) = fst (serve rs (fst (handle r s))).
Proof.
  cbn [serve]. destruct (handle r s) as [s1 l1]. cbn [fst].
  destruct (serve rs s1) as [s2 l2]. reflexivity.
Qed.

(** X29: after any sequence of requests, every stored session is marked
    active, so /status reports the same number for [active] as for
    [sessions]; and no session id and no node id is stored twice. *)
Theorem status_counts_agree rs :
  let s := fst (serve rs server_init) in
  status s = (List.length (audio_sessions s), List.length (audio_sessions s)) /\
  NoDup (keys (audio_sessions s)) /\ NoDup (keys (latest_audio s)).
Proof.
  assert (H : forall s0, server_inv s0 -> server_inv (fst (serve rs s0))).
  { induction rs as [|r rs IH]; intros s0 Hs; [exact Hs|].
    rewrite serve_cons. apply IH. apply handle_keeps_inv. exact Hs. }
  cbv zeta. destruct (H server_init) as (Hn & Ha & Hl).
  { repeat split; constructor. }
  split; [|split; assumption].
  unfold status. rewrite all_active_filter by exact Ha. reflexivity.
Qed.

(** X30: stored chunks are never removed.  Once a node has an entry in
    [latest_audio], it has one after every later sequence of requests. *)
Theorem latest_audio_is_never_pruned rs s id :
  dict_mem String.eqb id (latest_audio s) = true ->
  dict_mem String.eqb id (latest_audio (fst (serve rs s))) = true.
Proof.
  revert s. induction rs as [|r rs IH]; intros s H; [exact H|].
  rewrite serve_cons. apply IH.
  destruct r as [body emit|request_sid data|data|request_sid]; cbn [handle].
  - unfold receive_audio. destruct body as [data|]; [|exact H].
    destruct (negb (truthy (post_lab_pi_id data)) || negb (truthy (post_audio data)));
      [exact H|].
    destruct (post_lab_pi_id data) as [i|]; [|exact H].
    destruct (post_audio data) as [a|]; [|exact H].
    destruct emit; cbn [fst latest_audio];
      apply (dict_mem_set_keeps _ _ String.eqb string_eqb_iff); exact H.
  - exact H.
  - unfold handle_audio_stop.
    destruct (dict_mem option_string_eqb (session_id_of data) (audio_sessions s));
      exact H.
  - exact H.
Qed.

Lemma latest_audio_is_never_pruned_witness :
  let s := snd (fst (receive_audio (Some (example_post "lab-001" "QUJD"))
                       AudioCapture.Returns server_init)) in
  dict_mem String.eqb "lab-001" (latest_audio s) = true /\
  dict_mem String.eqb "lab-001"
    (latest_audio (fst (serve [AudioStart "sid-1" (start_msg "s1" "lab-001");
                               Disconnect "sid-1";
                               ReceiveAudio (Some (example_post "lab-002" "REVG"))
                                 AudioCapture.Returns] s))) = true.
Proof.
  cbv zeta. split; [reflexivity|].
  apply (latest_audio_is_never_pruned
           [AudioStart "sid-1" (start_msg "s1" "lab-001"); Disconnect "sid-1";
            ReceiveAudio (Some (example_post "lab-002" "REVG")) AudioCapture.Returns]).
  reflexivity.
Defined.

End AudioServerProperties.
